(** * OCR API: the document and batch OCR orchestration pipeline

    A shallow embedding of the service and controller code of the OCR API
    (ocrService.js, pdfService.js, ocrController.js) and the properties of
    its reports: ordering, failure containment, summary statistics, combined
    text and cleanup of rasterised page images.

    Conventions of the embedding.
    - A JS string is a [string]: a sequence of code units below 256.
    - A JS number that holds a count, an index or a page number is a [Z];
      a confidence score is an exact rational [Qc] (rounding of doubles is
      not modelled: the properties below are about which values enter a sum
      and what it is divided by).
    - An absent object property ([undefined]) is [None].
    - An async method is a computation [M A]: it takes the world (the files
      on disk, the trace of engine calls, the state of the external
      collaborators) and completes normally or by throwing an error with a
      message, in a new world. A thrown error does not roll the world back.
    - A controller is modelled up to the response it hands to [res.json].
      What the routers hook on the sending of that response (cleanupFiles
      of the upload middleware, which unlinks the uploads) comes after it
      and is not modelled: no property of a controller below says which
      files exist once its response is sent.
    - [console.log], [console.error] and [console.warn] are not modelled. *)

From stdpp Require Import base numbers strings list gmap pretty.
From Stdlib Require Import Ascii QArith Qcanon.

Local Open Scope Z_scope.

(* [set_solver] tries to clear the section context. *)
Set Warnings "-clear-no-such-hyp".

(** ** Strings *)

(** The line feed of the JS literal ['\n']. *)
Definition LF : string := String (Ascii.ascii_of_N 10) "".

(** White space and line terminators removed by [String.prototype.trim],
    among the code units below 256: TAB, LF, VT, FF, CR, SP and NBSP. *)
Definition is_js_space (c : Ascii.ascii) : bool :=
  bool_decide (Ascii.N_of_ascii c ∈ [9; 10; 11; 12; 13; 32; 160]%N).

Fixpoint trimStart (s : string) : string :=
  match s with
  | String c s' => if is_js_space c then trimStart s' else s
  | EmptyString => EmptyString
  end.

Definition trimEnd (s : string) : string :=
  String.rev (trimStart (String.rev s)).

(** [s.trim()] *)
Definition trim (s : string) : string := trimEnd (trimStart s).

(** [s.split(sep)] for a separator of one code unit. *)
Fixpoint split (sep : Ascii.ascii) (s : string) : list string :=
  match s with
  | EmptyString => [""]
  | String c s' =>
      if Ascii.eqb c sep then "" :: split sep s'
      else match split sep s' with
           | w :: ws => String c w :: ws
           | [] => [String c ""]
           end
  end.

(** Truthiness of a string: [if (s)] holds for every string but ['']. *)
Definition truthy (s : string) : bool := negb (String.eqb s "").

(** Truthiness of an optional property ([undefined] is falsy). *)
Definition truthy_opt (s : option string) : bool :=
  match s with
  | Some s => truthy s
  | None => false
  end.

(** A value of a request body field as the include flags meet it. *)
Inductive JsValue :=
  | JUndefined
  | JBool (b : bool)
  | JString (s : string).

(** A destructuring default [{ x = d } = obj]: taken when [obj.x] is
    [undefined]. *)
Definition orDefault (v d : JsValue) : JsValue :=
  match v with
  | JUndefined => d
  | _ => v
  end.

(** Strict equality [v === 'lit'] with a string literal. *)
Definition strictEqString (v : JsValue) (lit : string) : bool :=
  match v with
  | JString s => String.eqb s lit
  | _ => false
  end.

(** ** Recognition data *)

Record Bbox := { x0 : Z; y0 : Z; x1 : Z; y1 : Z }.

(** A word, line, paragraph or block as the engine returns it; [tu_rest]
    stands for the properties the service does not copy. *)
Record TessUnit := {
  tu_text : string;
  tu_confidence : Qc;
  tu_bbox : Bbox;
  tu_rest : list (string * string)
}.

(** The [data] of [Tesseract.recognize]. *)
Record TessData := {
  d_text : string;
  d_confidence : Qc;
  d_words : list TessUnit;
  d_lines : list TessUnit;
  d_paragraphs : list TessUnit;
  d_blocks : list TessUnit
}.

(** [{ text, confidence, bbox }] *)
Record TextUnit := {
  u_text : string;
  u_confidence : Qc;
  u_bbox : Bbox
}.

Definition toTextUnit (u : TessUnit) : TextUnit :=
  {| u_text := tu_text u; u_confidence := tu_confidence u; u_bbox := tu_bbox u |}.

(** The result of [ocrService.extractTextFromImage]. *)
Record OcrResult := {
  r_text : string;
  r_confidence : Qc;
  r_words : list TextUnit;
  r_lines : list TextUnit;
  r_paragraphs : list TextUnit;
  r_blocks : list TextUnit
}.

(** The options object of [extractTextFromImage]. *)
Record OcrOptions := {
  language : option string;
  psm : option string;
  oem : option string;
  whitelist : option string;
  blacklist : option string;
  preserveInterword : option bool
}.

(** The options object handed to [Tesseract.recognize] (the logger apart). *)
Record TessOptions := {
  t_lang : string;
  t_oem : option Z;
  t_psm : option Z;
  t_preserve_interword_spaces : string;
  t_tessedit_char_whitelist : option string;
  t_tessedit_char_blacklist : option string
}.

(** The options object handed to [pdf2pic.fromPath]. *)
Record Pdf2picOptions := {
  p_density : Z;
  p_saveFilename : string;
  p_savePath : string;
  p_format : string;
  p_width : Z;
  p_height : Z
}.

(** What [convert.bulk(-1)] does: it writes one image per page and returns
    their paths, or it fails with a message, having written some files. *)
Inductive BulkOutcome :=
  | Converted (paths : list string)
  | ConvertFailed (written : list string) (msg : string).

(** ** The collaborators

    The recognition engine, the rasteriser, the clock and the file system
    permissions are outside the repository: everything below holds for any
    behaviour of theirs. [ExtState] is their hidden state. The engine
    answers with its [data] or with the message of the error it throws;
    [parseInt] is the JS builtin ([None] is [NaN]). *)
Class Collaborators := {
  ExtState : Type;
  Tesseract_recognize_oracle :
    string → string → TessOptions → ExtState → (TessData + string) * ExtState;
  pdf2pic_bulk_oracle :
    string → Pdf2picOptions → ExtState → BulkOutcome * ExtState;
  Date_now : ExtState → Z;
  parseInt : string → option Z;
  unlink_permitted : string → bool;
  tempDir : string
}.

(** How a call completes: with a value, or by throwing an error that
    carries [message]. *)
Inductive Completion (A : Type) :=
  | Normal (a : A)
  | Throw (message : string).
Arguments Normal {A} a.
Arguments Throw {A} message.

Section Pipeline.
Context `{Collaborators}.

(** ** The world and the computations over it *)

Record World := {
  disk : gset string;
  engineCalls : list (string * string);
  ext : ExtState
}.

Definition M (A : Type) : Type := World → Completion A * World.

Definition ret {A} (a : A) : M A := fun w => (Normal a, w).

Definition throw {A} (message : string) : M A := fun w => (Throw message, w).

Definition bind {A B} (m : M A) (k : A → M B) : M B := fun w =>
  match m w with
  | (Normal a, w') => k a w'
  | (Throw e, w') => (Throw e, w')
  end.

(** [try { body } catch (error) { handler(error.message) }] *)
Definition try_catch {A} (body : M A) (handler : string → M A) : M A := fun w =>
  match body w with
  | (Normal a, w') => (Normal a, w')
  | (Throw e, w') => handler e w'
  end.

Notation "'let*' x ':=' m 'in' k" := (bind m (fun x => k))
  (at level 10, x pattern, m at level 100, k at level 200).

(** [Date.now()] *)
Definition now : M Z := fun w => (Normal (Date_now (ext w)), w).

(** [await Tesseract.recognize(imagePath, language, options)]: the call is
    recorded in the trace. *)
Definition Tesseract_recognize (imagePath lang : string) (o : TessOptions)
  : M TessData := fun w =>
  let '(r, e') := Tesseract_recognize_oracle imagePath lang o (ext w) in
  let w' := {| disk := disk w;
               engineCalls := engineCalls w ++ [(imagePath, lang)];
               ext := e' |} in
  match r with
  | inl data => (Normal data, w')
  | inr msg => (Throw msg, w')
  end.

(** [await pdf2pic.fromPath(pdfPath, options).bulk(-1)], mapped to the
    paths of its results. *)
Definition pdf2pic_bulk (pdfPath : string) (o : Pdf2picOptions)
  : M (list string) := fun w =>
  let '(r, e') := pdf2pic_bulk_oracle pdfPath o (ext w) in
  match r with
  | Converted paths =>
      (Normal paths,
       {| disk := disk w ∪ list_to_set paths;
          engineCalls := engineCalls w; ext := e' |})
  | ConvertFailed written msg =>
      (Throw msg,
       {| disk := disk w ∪ list_to_set written;
          engineCalls := engineCalls w; ext := e' |})
  end.

(** [fs.unlinkSync(p)] *)
Definition unlinkSync (p : string) : M unit := fun w =>
  if bool_decide (p ∈ disk w) then
    if unlink_permitted p then
      (Normal tt,
       {| disk := disk w ∖ {[ p ]};
          engineCalls := engineCalls w; ext := ext w |})
    else (Throw ("EPERM: operation not permitted, unlink '" +:+ p +:+ "'"), w)
  else (Throw ("ENOENT: no such file or directory, unlink '" +:+ p +:+ "'"), w).

(** ** ocrService.js *)

Definition supportedLanguages : list string :=
  [ "eng"; "ara"; "ben"; "bul"; "ces"; "chi_sim"; "chi_tra"; "dan";
    "deu"; "ell"; "fin"; "fra"; "heb"; "hin"; "hun"; "ind"; "ita";
    "jpn"; "kor"; "nld"; "nor"; "pol"; "por"; "ron"; "rus"; "spa";
    "swe"; "tha"; "tur"; "ukr"; "vie" ].

(** [for (const lang of languages) if (!supportedLanguages.includes(lang))
    throw new Error(`Unsupported language: ${lang}`)] *)
Fixpoint validateLanguages (languages : list string) : M unit :=
  match languages with
  | [] => ret tt
  | lang :: rest =>
      if bool_decide (lang ∈ supportedLanguages) then validateLanguages rest
      else throw ("Unsupported language: " +:+ lang)
  end.

(** The object [tesseractOptions], with its two conditional properties. *)
Definition tesseractOptionsOf (language psm oem whitelist blacklist : string)
    (preserveInterword : bool) : TessOptions :=
  {| t_lang := language;
     t_oem := parseInt oem;
     t_psm := parseInt psm;
     t_preserve_interword_spaces := if preserveInterword then "1" else "0";
     t_tessedit_char_whitelist :=
       if truthy whitelist then Some whitelist else None;
     t_tessedit_char_blacklist :=
       if truthy blacklist then Some blacklist else None |}.

(** The object [result] built from the engine's [data]. *)
Definition ocrResultOf (data : TessData) : OcrResult :=
  {| r_text := trim (d_text data);
     r_confidence := d_confidence data;
     r_words := map toTextUnit (d_words data);
     r_lines := map toTextUnit (d_lines data);
     r_paragraphs := map toTextUnit (d_paragraphs data);
     r_blocks := map toTextUnit (d_blocks data) |}.

Definition extractTextFromImage (imagePath : string) (options : OcrOptions)
  : M OcrResult :=
  try_catch
    (let language := default "eng" (language options) in
     let psm := default "3" (psm options) in
     let oem := default "3" (oem options) in
     let whitelist := default "" (whitelist options) in
     let blacklist := default "" (blacklist options) in
     let preserveInterword := default false (preserveInterword options) in
     let languages := split "+"%char language in
     let* _ := validateLanguages languages in
     let tesseractOptions :=
       tesseractOptionsOf language psm oem whitelist blacklist
         preserveInterword in
     let* data := Tesseract_recognize imagePath language tesseractOptions in
     ret (ocrResultOf data))
    (fun error => throw ("OCR processing failed: " +:+ error)).

(** ** pdfService.js *)

(** The options object of [convertPdfToImages]. *)
Record ConvertOptions := {
  c_density : option Z;
  c_saveFilename : option string;
  c_savePath : option string;
  c_format : option string;
  c_width : option Z;
  c_height : option Z
}.

(** The object handed to [pdf2pic.fromPath], from the destructured
    options and their defaults. *)
Definition bulkOptionsOf (options : ConvertOptions) : Pdf2picOptions :=
  {| p_density := default 300 (c_density options);
     p_saveFilename := default "page" (c_saveFilename options);
     p_savePath := default tempDir (c_savePath options);
     p_format := default "png" (c_format options);
     p_width := default 2000 (c_width options);
     p_height := default 2000 (c_height options) |}.

Definition convertPdfToImages (pdfPath : string) (options : ConvertOptions)
  : M (list string) :=
  try_catch
    (let* imagePaths := pdf2pic_bulk pdfPath (bulkOptionsOf options) in
     ret imagePaths)
    (fun error => throw ("Failed to convert PDF to images: " +:+ error)).

(** The options object of [extractTextFromPdf] and of
    [extractTextFromPdfPages]; the last three fields are the rest
    properties [...ocrOptions] that [extractTextFromImage] reads. *)
Record PdfOptions := {
  o_language : option string;
  o_psm : option string;
  o_oem : option string;
  o_density : option Z;
  o_combinePages : option bool;
  o_includePageNumbers : option bool;
  o_whitelist : option string;
  o_blacklist : option string;
  o_preserveInterword : option bool
}.

(** An element of [pageResults]: a page that was recognised carries
    [words] and [lines] and no [error]; a page that failed carries
    [error]. *)
Record PageData := {
  pageNumber : Z;
  pg_text : string;
  pg_confidence : Qc;
  wordCount : Z;
  lineCount : Z;
  pg_words : option (list TextUnit);
  pg_lines : option (list TextUnit);
  pg_error : option string
}.

(** [{ pageNumber, text: pageResult.text, confidence, wordCount, lineCount,
    words, lines }] *)
Definition successPage (pageNum : Z) (pageResult : OcrResult) : PageData :=
  {| pageNumber := pageNum;
     pg_text := r_text pageResult;
     pg_confidence := r_confidence pageResult;
     wordCount := Z.of_nat (length (r_words pageResult));
     lineCount := Z.of_nat (length (r_lines pageResult));
     pg_words := Some (r_words pageResult);
     pg_lines := Some (r_lines pageResult);
     pg_error := None |}.

(** [{ pageNumber, text: '', confidence: 0, wordCount: 0, lineCount: 0,
    error }] *)
Definition failedPage (pageNum : Z) (error : string) : PageData :=
  {| pageNumber := pageNum;
     pg_text := "";
     pg_confidence := 0%Qc;
     wordCount := 0;
     lineCount := 0;
     pg_words := None;
     pg_lines := None;
     pg_error := Some error |}.

(** The variables the page loops update. *)
Record LoopState := {
  pageResults : list PageData;
  combinedText : string;
  totalConfidence : Qc;
  totalWords : Z
}.

(** The options [{ language, psm, oem, ...ocrOptions }] of a page. *)
Definition pageOcrOptions (language psm oem : string) (options : PdfOptions)
  : OcrOptions :=
  {| language := Some language; psm := Some psm; oem := Some oem;
     whitelist := o_whitelist options; blacklist := o_blacklist options;
     preserveInterword := o_preserveInterword options |}.

(** The body of [for (let i = 0; i < imagePaths.length; i++)] in
    [extractTextFromPdf], for one [i]: the page is recognised and recorded,
    then its image is unlinked. *)
Definition processPage (language psm oem : string) (options : PdfOptions)
    (combinePages includePageNumbers : bool)
    (i : Z) (imagePath : string) (st : LoopState) : M LoopState :=
  let* st' :=
    try_catch
      (let* pageResult :=
         extractTextFromImage imagePath
           (pageOcrOptions language psm oem options) in
       let pageData := successPage (i + 1) pageResult in
       let combined1 :=
         if combinePages then
           (if includePageNumbers && truthy (trim (r_text pageResult))
            then combinedText st +:+
                 (LF +:+ LF +:+ "--- Page " +:+ pretty (i + 1) +:+ " ---"
                  +:+ LF +:+ LF)
            else combinedText st)
           +:+ (r_text pageResult +:+ LF)
         else combinedText st in
       ret {| pageResults := pageResults st ++ [pageData];
              combinedText := combined1;
              totalConfidence :=
                (totalConfidence st + r_confidence pageResult)%Qc;
              totalWords :=
                totalWords st + Z.of_nat (length (r_words pageResult)) |})
      (fun pageError =>
         ret {| pageResults := pageResults st ++ [failedPage (i + 1) pageError];
                combinedText := combinedText st;
                totalConfidence := totalConfidence st;
                totalWords := totalWords st |}) in
  let* _ := try_catch (unlinkSync imagePath) (fun cleanupError => ret tt) in
  ret st'.

(** The loop itself, run from index [i] on the images that are left. *)
Fixpoint processPages (language psm oem : string) (options : PdfOptions)
    (combinePages includePageNumbers : bool)
    (i : Z) (imagePaths : list string) (st : LoopState) : M LoopState :=
  match imagePaths with
  | [] => ret st
  | imagePath :: rest =>
      let* st' :=
        processPage language psm oem options combinePages includePageNumbers
          i imagePath st in
      processPages language psm oem options combinePages includePageNumbers
        (i + 1) rest st'
  end.

(** [pageResults.filter(p => !p.error).length] *)
Definition countSuccessful (pageResults : list PageData) : Z :=
  Z.of_nat (length (List.filter (fun p => negb (truthy_opt (pg_error p))) pageResults)).

(** [pageResults.filter(p => p.error).length] *)
Definition countFailed (pageResults : list PageData) : Z :=
  Z.of_nat (length (List.filter (fun p => truthy_opt (pg_error p)) pageResults)).

(** [n > 0 ? total / n : 0] *)
Definition averageOver (total : Qc) (n : Z) : Qc :=
  if bool_decide (n > 0) then (total / Qc_of_Z n)%Qc else 0%Qc.

Record PdfSummary := {
  totalPages : Z;
  s_totalWords : Z;
  s_averageConfidence : Qc;
  s_processingTime : Z;
  s_language : string;
  s_successfulPages : Z;
  s_failedPages : Z
}.

(** The result of [extractTextFromPdf]; a [text] of [null] is [None]. *)
Record PdfResult := {
  res_text : option string;
  res_pages : list PageData;
  res_summary : PdfSummary
}.

Definition emptyLoopState : LoopState :=
  {| pageResults := []; combinedText := ""; totalConfidence := 0%Qc;
     totalWords := 0 |}.

(** The object [result] of [extractTextFromPdf]. *)
Definition pdfResultOf (language : string) (combinePages : bool)
    (imagePaths : list string) (st : LoopState) (processingTime : Z)
  : PdfResult :=
  let averageConfidence :=
    averageOver (totalConfidence st) (Z.of_nat (length imagePaths)) in
  {| res_text := if combinePages then Some (trim (combinedText st)) else None;
     res_pages := pageResults st;
     res_summary :=
       {| totalPages := Z.of_nat (length imagePaths);
          s_totalWords := totalWords st;
          s_averageConfidence := averageConfidence;
          s_processingTime := processingTime;
          s_language := language;
          s_successfulPages := countSuccessful (pageResults st);
          s_failedPages := countFailed (pageResults st) |} |}.

(** The options of the conversion in [extractTextFromPdf] and in
    [extractTextFromPdfPages]: [{ density, saveFilename, savePath }]. *)
Definition conversionOptions (density : Z) (saveFilename : string)
  : ConvertOptions :=
  {| c_density := Some density; c_saveFilename := Some saveFilename;
     c_savePath := Some tempDir;
     c_format := None; c_width := None; c_height := None |}.

Definition extractTextFromPdf (pdfPath : string) (options : PdfOptions)
  : M PdfResult :=
  try_catch
    (let language := default "eng" (o_language options) in
     let psm := default "3" (o_psm options) in
     let oem := default "3" (o_oem options) in
     let density := default 300 (o_density options) in
     let combinePages := default true (o_combinePages options) in
     let includePageNumbers := default true (o_includePageNumbers options) in
     let* startTime := now in
     let* stamp := now in
     let* imagePaths :=
       convertPdfToImages pdfPath
         (conversionOptions density ("pdf_page_" +:+ pretty stamp)) in
     let* st :=
       processPages language psm oem options combinePages includePageNumbers
         0 imagePaths emptyLoopState in
     let* endTime := now in
     let processingTime := endTime - startTime in
     ret (pdfResultOf language combinePages imagePaths st processingTime))
    (fun error => throw ("PDF OCR processing failed: " +:+ error)).

(** The body of [for (const pageNum of pageNumbers)] in
    [extractTextFromPdfPages], for one [pageNum]. The guard makes
    [allImagePaths[imageIndex]] defined wherever it is read. *)
Definition processRequestedPage (language psm oem : string)
    (options : PdfOptions) (allImagePaths : list string)
    (pageNum : Z) (st : LoopState) : M LoopState :=
  let imageIndex := pageNum - 1 in
  if bool_decide (imageIndex < 0)
     || bool_decide (imageIndex >= Z.of_nat (length allImagePaths))
  then
    ret {| pageResults :=
             pageResults st ++
             [failedPage pageNum
                ("Page " +:+ pretty pageNum +:+ " does not exist. PDF has "
                 +:+ pretty (Z.of_nat (length allImagePaths)) +:+ " pages.")];
           combinedText := combinedText st;
           totalConfidence := totalConfidence st;
           totalWords := totalWords st |}
  else
    let imagePath :=
      default "undefined" (allImagePaths !! Z.to_nat imageIndex) in
    try_catch
      (let* pageResult :=
         extractTextFromImage imagePath
           (pageOcrOptions language psm oem options) in
       ret {| pageResults := pageResults st ++ [successPage pageNum pageResult];
              combinedText := combinedText st;
              totalConfidence :=
                (totalConfidence st + r_confidence pageResult)%Qc;
              totalWords :=
                totalWords st + Z.of_nat (length (r_words pageResult)) |})
      (fun pageError =>
         ret {| pageResults := pageResults st ++ [failedPage pageNum pageError];
                combinedText := combinedText st;
                totalConfidence := totalConfidence st;
                totalWords := totalWords st |}).

(** The loop itself, on the page numbers that are left. *)
Fixpoint processRequestedPages (language psm oem : string)
    (options : PdfOptions) (allImagePaths : list string)
    (pageNumbers : list Z) (st : LoopState) : M LoopState :=
  match pageNumbers with
  | [] => ret st
  | pageNum :: rest =>
      let* st' :=
        processRequestedPage language psm oem options allImagePaths
          pageNum st in
      processRequestedPages language psm oem options allImagePaths rest st'
  end.

(** [for (const imagePath of allImagePaths) try { fs.unlinkSync(imagePath) }
    catch (cleanupError) { }] *)
Fixpoint cleanupImages (allImagePaths : list string) : M unit :=
  match allImagePaths with
  | [] => ret tt
  | imagePath :: rest =>
      let* _ := try_catch (unlinkSync imagePath) (fun cleanupError => ret tt) in
      cleanupImages rest
  end.

Record PagesSummary := {
  requestedPages : Z;
  totalPagesInPdf : Z;
  ps_totalWords : Z;
  ps_averageConfidence : Qc;
  ps_processingTime : Z;
  ps_language : string;
  ps_successfulPages : Z;
  ps_failedPages : Z
}.

(** The result of [extractTextFromPdfPages]. *)
Record PagesResult := {
  pr_pages : list PageData;
  pr_summary : PagesSummary
}.

(** The object [result] of [extractTextFromPdfPages]. *)
Definition pagesResultOf (language : string) (pageNumbers : list Z)
    (allImagePaths : list string) (st : LoopState) (processingTime : Z)
  : PagesResult :=
  let averageConfidence :=
    averageOver (totalConfidence st)
      (Z.of_nat (length (pageResults st))) in
  {| pr_pages := pageResults st;
     pr_summary :=
       {| requestedPages := Z.of_nat (length pageNumbers);
          totalPagesInPdf := Z.of_nat (length allImagePaths);
          ps_totalWords := totalWords st;
          ps_averageConfidence := averageConfidence;
          ps_processingTime := processingTime;
          ps_language := language;
          ps_successfulPages := countSuccessful (pageResults st);
          ps_failedPages := countFailed (pageResults st) |} |}.

Definition extractTextFromPdfPages (pdfPath : string) (pageNumbers : list Z)
    (options : PdfOptions) : M PagesResult :=
  try_catch
    (let language := default "eng" (o_language options) in
     let psm := default "3" (o_psm options) in
     let oem := default "3" (o_oem options) in
     let density := default 300 (o_density options) in
     let* startTime := now in
     let* stamp := now in
     let* allImagePaths :=
       convertPdfToImages pdfPath
         (conversionOptions density ("pdf_selective_" +:+ pretty stamp)) in
     let* st :=
       processRequestedPages language psm oem options allImagePaths
         pageNumbers emptyLoopState in
     let* _ := cleanupImages allImagePaths in
     let* endTime := now in
     let processingTime := endTime - startTime in
     ret (pagesResultOf language pageNumbers allImagePaths st processingTime))
    (fun error => throw ("PDF selective OCR processing failed: " +:+ error)).

(** ** ocrController.js

    A controller is modelled by the response it sends: [res.json(b)] is
    status 200 with body [b], [res.status(c).json(b)] is status [c]. The
    [metadata] of a response (a timestamp and a version) is left out. *)

(** [req.file] and the elements of [req.files]. *)
Record UploadedFile := {
  originalname : string;
  path : string;
  size : Z;
  mimetype : string
}.

(** The properties of [req.body] that the two controllers read. *)
Record Body := {
  b_language : option string;
  b_psm : option string;
  b_oem : option string;
  b_includeWords : JsValue;
  b_includeLines : JsValue;
  b_includeParagraphs : JsValue;
  b_includeBlocks : JsValue
}.

Record Request := {
  file : option UploadedFile;
  files : option (list UploadedFile);
  body : Body
}.

(** [{ originalName, size, mimetype }], with [index] in a batch. *)
Record FileInfo := {
  originalName : string;
  fi_size : Z;
  fi_mimetype : string;
  index : option Z
}.

(** [response.data] of [extractDetailedText]. *)
Record DetailedData := {
  dd_text : string;
  dd_confidence : Qc;
  dd_processingTime : string;
  dd_language : string;
  dd_fileInfo : FileInfo;
  dd_words : option (list TextUnit);
  dd_lines : option (list TextUnit);
  dd_paragraphs : option (list TextUnit);
  dd_blocks : option (list TextUnit)
}.

(** [data] of a batch item that was recognised. *)
Record BatchItemData := {
  bd_text : string;
  bd_confidence : Qc;
  bd_wordCount : Z;
  bd_lineCount : Z
}.

(** An element of [results] in [batchExtract]. *)
Record BatchItem := {
  success : bool;
  fileInfo : FileInfo;
  data : option BatchItemData;
  error : option string
}.

Record BatchSummary := {
  totalFiles : Z;
  successfulFiles : Z;
  failedFiles : Z;
  bs_processingTime : string;
  bs_language : string
}.

Inductive ResponseBody :=
  | ErrorBody (error code : string)
  | DetailedBody (data : DetailedData)
  | BatchBody (results : list BatchItem) (summary : BatchSummary).

Record Response := {
  status : Z;
  json : ResponseBody
}.

(** The options [{ language, psm, oem }] of both controllers. *)
Definition controllerOcrOptions (language psm oem : string) : OcrOptions :=
  {| language := Some language; psm := Some psm; oem := Some oem;
     whitelist := None; blacklist := None; preserveInterword := None |}.

Definition extractDetailedText (req : Request) : M Response :=
  try_catch
    (let language := default "eng" (b_language (body req)) in
     let psm := default "3" (b_psm (body req)) in
     let oem := default "3" (b_oem (body req)) in
     let includeWords := orDefault (b_includeWords (body req)) (JBool true) in
     let includeLines := orDefault (b_includeLines (body req)) (JBool true) in
     let includeParagraphs :=
       orDefault (b_includeParagraphs (body req)) (JBool true) in
     let includeBlocks := orDefault (b_includeBlocks (body req)) (JBool true) in
     match file req with
     | None =>
         ret {| status := 400; json := ErrorBody "No file uploaded" "NO_FILE" |}
     | Some file =>
         let options := controllerOcrOptions language psm oem in
         let* startTime := now in
         let* result := extractTextFromImage (path file) options in
         let* endTime := now in
         let processingTime := endTime - startTime in
         ret {| status := 200;
                json := DetailedBody
                  {| dd_text := r_text result;
                     dd_confidence := r_confidence result;
                     dd_processingTime := pretty processingTime +:+ "ms";
                     dd_language := language;
                     dd_fileInfo :=
                       {| originalName := originalname file;
                          fi_size := size file;
                          fi_mimetype := mimetype file;
                          index := None |};
                     dd_words :=
                       if strictEqString includeWords "true"
                       then Some (r_words result) else None;
                     dd_lines :=
                       if strictEqString includeLines "true"
                       then Some (r_lines result) else None;
                     dd_paragraphs :=
                       if strictEqString includeParagraphs "true"
                       then Some (r_paragraphs result) else None;
                     dd_blocks :=
                       if strictEqString includeBlocks "true"
                       then Some (r_blocks result) else None |} |}
     end)
    (fun error =>
       ret {| status := 500; json := ErrorBody error "DETAILED_OCR_ERROR" |}).

(** [{ success: true, fileInfo, data }] *)
Definition batchSuccess (file : UploadedFile) (i : Z) (result : OcrResult)
  : BatchItem :=
  {| success := true;
     fileInfo := {| originalName := originalname file; fi_size := size file;
                    fi_mimetype := mimetype file; index := Some i |};
     data := Some {| bd_text := r_text result;
                     bd_confidence := r_confidence result;
                     bd_wordCount := Z.of_nat (length (r_words result));
                     bd_lineCount := Z.of_nat (length (r_lines result)) |};
     error := None |}.

(** [{ success: false, fileInfo, error }] *)
Definition batchFailure (file : UploadedFile) (i : Z) (message : string)
  : BatchItem :=
  {| success := false;
     fileInfo := {| originalName := originalname file; fi_size := size file;
                    fi_mimetype := mimetype file; index := Some i |};
     data := None;
     error := Some message |}.

(** The body of [for (let i = 0; i < files.length; i++)] in
    [batchExtract], for one [i]. *)
Definition processFile (options : OcrOptions) (i : Z) (file : UploadedFile)
    (results : list BatchItem) : M (list BatchItem) :=
  try_catch
    (let* result := extractTextFromImage (path file) options in
     ret (results ++ [batchSuccess file i result]))
    (fun error => ret (results ++ [batchFailure file i error])).

(** The loop itself, run from index [i] on the files that are left. *)
Fixpoint processFiles (options : OcrOptions) (i : Z)
    (files : list UploadedFile) (results : list BatchItem)
  : M (list BatchItem) :=
  match files with
  | [] => ret results
  | file :: rest =>
      let* results' := processFile options i file results in
      processFiles options (i + 1) rest results'
  end.

Definition batchExtract (req : Request) : M Response :=
  try_catch
    (let language := default "eng" (b_language (body req)) in
     let psm := default "3" (b_psm (body req)) in
     let oem := default "3" (b_oem (body req)) in
     match files req with
     | None | Some [] =>
         ret {| status := 400; json := ErrorBody "No files uploaded" "NO_FILES" |}
     | Some files =>
         let options := controllerOcrOptions language psm oem in
         let* startTime := now in
         let* results := processFiles options 0 files [] in
         let* endTime := now in
         let processingTime := endTime - startTime in
         let successCount :=
           Z.of_nat (length (List.filter success results)) in
         ret {| status := 200;
                json := BatchBody results
                  {| totalFiles := Z.of_nat (length files);
                     successfulFiles := successCount;
                     failedFiles := Z.of_nat (length files) - successCount;
                     bs_processingTime := pretty processingTime +:+ "ms";
                     bs_language := language |} |}
     end)
    (fun error =>
       ret {| status := 500; json := ErrorBody error "BATCH_OCR_ERROR" |}).

End Pipeline.

(** ** The rest of the services and of the controllers

    What Node provides besides: [path.extname], [toLowerCase] and
    [fs.statSync], which reads the files and the state of the collaborators
    and changes neither. *)

(** The properties of [fs.Stats] that the services read. *)
Record Stats := {
  st_size : Z;
  st_birthtime : Z;
  st_mtime : Z
}.

Class NodeLibrary `{Collaborators} := {
  path_extname : string → string;
  toLowerCase : string → string;
  statSync_oracle : string → gset string → ExtState → Stats + string
}.

(** What a controller sends: [{ success: false, error, code }] or
    [{ success: true, data }]. *)
Inductive Reply (A : Type) :=
  | Failed (error code : string)
  | Succeeded (data : A).
Arguments Failed {A} error code.
Arguments Succeeded {A} data.

Record HttpResponse (A : Type) := {
  httpStatus : Z;
  httpBody : Reply A
}.
Arguments httpStatus {A} _.
Arguments httpBody {A} _.

(** The options object of [extractTextWithPreprocessing]: the three
    preprocessing flags, and [language] with the rest properties. *)
Record PreprocessingOptions := {
  enhance : option bool;
  denoise : option bool;
  deskew : option bool;
  ocrOptions : OcrOptions
}.

(** [{ size, extension, isValid, created, modified }] *)
Record ImageFileInfo := {
  if_size : Z;
  if_extension : string;
  if_isValid : bool;
  if_created : Z;
  if_modified : Z
}.

(** [{ pageCount, fileSize, created, modified, isValid: true }] *)
Record PdfInfo := {
  pageCount : Z;
  fileSize : Z;
  created : Z;
  modified : Z;
  isValid : bool
}.

(** The properties of [req.body] that [extractText] reads. *)
Record ExtractBody := {
  eb_language : option string;
  eb_psm : option string;
  eb_oem : option string;
  eb_whitelist : option string;
  eb_blacklist : option string;
  eb_preserveInterword : JsValue;
  eb_enhance : JsValue;
  eb_denoise : JsValue;
  eb_deskew : JsValue
}.

Record ExtractRequest := {
  er_file : option UploadedFile;
  er_body : ExtractBody
}.

(** [response.data] of [extractText]. *)
Record ExtractData := {
  ed_text : string;
  ed_confidence : Qc;
  ed_wordCount : Z;
  ed_lineCount : Z;
  ed_paragraphCount : Z;
  ed_blockCount : Z;
  ed_processingTime : string;
  ed_language : string;
  ed_fileInfo : FileInfo
}.

(** [response.data] of the controller [getPdfInfo]; the [uploadedAt]
    timestamp of its [fileInfo] is left out, as [metadata] is. *)
Record PdfInfoData := {
  pi_fileInfo : FileInfo;
  pi_pdfInfo : PdfInfo;
  pi_processingTime : string
}.

(** [{ code, name, supported: true }] *)
Record LanguageEntry := {
  le_code : string;
  le_name : string;
  le_supported : bool
}.

Record LanguagesData := {
  languages : list LanguageEntry;
  totalCount : Z
}.

Section Services.
Context `{NodeLibrary}.

Notation "'let*' x ':=' m 'in' k" := (bind m (fun x => k))
  (at level 10, x pattern, m at level 100, k at level 200).

(** [fs.statSync(p)] *)
Definition statSync (p : string) : M Stats := fun w =>
  match statSync_oracle p (disk w) (ext w) with
  | inl stats => (Normal stats, w)
  | inr msg => (Throw msg, w)
  end.

(** *** ocrService.js *)

(** The preprocessing is not implemented: the original path comes back. *)
Definition preprocessImage (imagePath : string)
    (enhance denoise deskew : bool) : M string :=
  ret imagePath.

Definition extractTextWithPreprocessing (imagePath : string)
    (options : PreprocessingOptions) : M OcrResult :=
  try_catch
    (let enhance := default true (enhance options) in
     let denoise := default true (denoise options) in
     let deskew := default true (deskew options) in
     let language := default "eng" (language (ocrOptions options)) in
     let* processedImagePath :=
       if enhance || denoise || deskew
       then preprocessImage imagePath enhance denoise deskew
       else ret imagePath in
     let* result :=
       extractTextFromImage processedImagePath
         {| language := Some language;
            psm := psm (ocrOptions options);
            oem := oem (ocrOptions options);
            whitelist := whitelist (ocrOptions options);
            blacklist := blacklist (ocrOptions options);
            preserveInterword := preserveInterword (ocrOptions options) |} in
     let* _ :=
       if negb (String.eqb processedImagePath imagePath)
       then unlinkSync processedImagePath
       else ret tt in
     ret result)
    (fun error => throw ("Enhanced OCR processing failed: " +:+ error)).

Definition getSupportedLanguages_service : list string := supportedLanguages.

Definition supportedFormats : list string :=
  [".jpg"; ".jpeg"; ".png"; ".bmp"; ".tiff"; ".tif"; ".webp"].

Definition isValidImageFormat (filePath : string) : bool :=
  let ext := toLowerCase (path_extname filePath) in
  bool_decide (ext ∈ supportedFormats).

Definition getFileInfo (filePath : string) : M ImageFileInfo :=
  try_catch
    (let* stats := statSync filePath in
     let ext := toLowerCase (path_extname filePath) in
     ret {| if_size := st_size stats;
            if_extension := ext;
            if_isValid := isValidImageFormat filePath;
            if_created := st_birthtime stats;
            if_modified := st_mtime stats |})
    (fun error => throw ("Unable to get file info: " +:+ error)).

(** *** pdfService.js *)

Definition getPdfInfo (pdfPath : string) : M PdfInfo :=
  try_catch
    (let* stamp := now in
     let* imagePaths :=
       convertPdfToImages pdfPath
         (conversionOptions 150 ("pdf_info_" +:+ pretty stamp)) in
     let pageCount := Z.of_nat (length imagePaths) in
     let* _ := cleanupImages imagePaths in
     let* stats := statSync pdfPath in
     ret {| pageCount := pageCount;
            fileSize := st_size stats;
            created := st_birthtime stats;
            modified := st_mtime stats;
            isValid := true |})
    (fun error => throw ("Failed to get PDF info: " +:+ error)).

Definition isValidPdf (filePath : string) : bool :=
  let ext := toLowerCase (path_extname filePath) in
  String.eqb ext ".pdf".

(** *** ocrController.js *)

Definition extractText (req : ExtractRequest)
  : M (HttpResponse ExtractData) :=
  try_catch
    (let body := er_body req in
     let language := default "eng" (eb_language body) in
     let psm := default "3" (eb_psm body) in
     let oem := default "3" (eb_oem body) in
     let whitelist := default "" (eb_whitelist body) in
     let blacklist := default "" (eb_blacklist body) in
     let preserveInterword :=
       orDefault (eb_preserveInterword body) (JBool false) in
     let enhance := orDefault (eb_enhance body) (JBool false) in
     let denoise := orDefault (eb_denoise body) (JBool false) in
     let deskew := orDefault (eb_deskew body) (JBool false) in
     match er_file req with
     | None =>
         ret {| httpStatus := 400;
                httpBody := Failed "No file uploaded" "NO_FILE" |}
     | Some file =>
         let options :=
           {| enhance := Some (strictEqString enhance "true");
              denoise := Some (strictEqString denoise "true");
              deskew := Some (strictEqString deskew "true");
              ocrOptions :=
                {| language := Some language; psm := Some psm;
                   oem := Some oem; whitelist := Some whitelist;
                   blacklist := Some blacklist;
                   preserveInterword :=
                     Some (strictEqString preserveInterword "true") |} |} in
         let* startTime := now in
         let* result :=
           if strictEqString enhance "true" || strictEqString denoise "true"
              || strictEqString deskew "true"
           then extractTextWithPreprocessing (path file) options
           else extractTextFromImage (path file) (ocrOptions options) in
         let* endTime := now in
         let processingTime := endTime - startTime in
         ret {| httpStatus := 200;
                httpBody := Succeeded
                  {| ed_text := r_text result;
                     ed_confidence := r_confidence result;
                     ed_wordCount := Z.of_nat (length (r_words result));
                     ed_lineCount := Z.of_nat (length (r_lines result));
                     ed_paragraphCount :=
                       Z.of_nat (length (r_paragraphs result));
                     ed_blockCount := Z.of_nat (length (r_blocks result));
                     ed_processingTime := pretty processingTime +:+ "ms";
                     ed_language := language;
                     ed_fileInfo :=
                       {| originalName := originalname file;
                          fi_size := size file;
                          fi_mimetype := mimetype file;
                          index := None |} |} |}
     end)
    (fun error =>
       ret {| httpStatus := 500;
              httpBody := Failed error "OCR_PROCESSING_ERROR" |}).

(** The object [languageMap], as its own properties. *)
Definition languageMap : gmap string string :=
  list_to_map
    [ ("eng", "English"); ("ara", "Arabic"); ("ben", "Bengali");
      ("bul", "Bulgarian"); ("ces", "Czech");
      ("chi_sim", "Chinese (Simplified)");
      ("chi_tra", "Chinese (Traditional)"); ("dan", "Danish");
      ("deu", "German"); ("ell", "Greek"); ("fin", "Finnish");
      ("fra", "French"); ("heb", "Hebrew"); ("hin", "Hindi");
      ("hun", "Hungarian"); ("ind", "Indonesian"); ("ita", "Italian");
      ("jpn", "Japanese"); ("kor", "Korean"); ("nld", "Dutch");
      ("nor", "Norwegian"); ("pol", "Polish"); ("por", "Portuguese");
      ("ron", "Romanian"); ("rus", "Russian"); ("spa", "Spanish");
      ("swe", "Swedish"); ("tha", "Thai"); ("tur", "Turkish");
      ("ukr", "Ukrainian"); ("vie", "Vietnamese") ].

(** [languageMap[code] || code] *)
Definition languageName (code : string) : string :=
  match languageMap !! code with
  | Some name => if truthy name then name else code
  | None => code
  end.

Definition getSupportedLanguages : M (HttpResponse LanguagesData) :=
  try_catch
    (let languages := getSupportedLanguages_service in
     let languageList :=
       map (fun code =>
              {| le_code := code; le_name := languageName code;
                 le_supported := true |})
         languages in
     ret {| httpStatus := 200;
            httpBody := Succeeded
              {| languages := languageList;
                 totalCount := Z.of_nat (length languageList) |} |})
    (fun error =>
       ret {| httpStatus := 500;
              httpBody := Failed error "LANGUAGES_ERROR" |}).

(** *** pdfController.js *)

Definition getPdfInfo_controller (req : Request)
  : M (HttpResponse PdfInfoData) :=
  try_catch
    (match file req with
     | None =>
         ret {| httpStatus := 400;
                httpBody := Failed "No PDF file uploaded" "NO_FILE" |}
     | Some file =>
         if negb (isValidPdf (path file)) then
           ret {| httpStatus := 400;
                  httpBody := Failed "Invalid PDF file" "INVALID_PDF" |}
         else
           let* startTime := now in
           let* pdfInfo := getPdfInfo (path file) in
           let* endTime := now in
           let processingTime := endTime - startTime in
           ret {| httpStatus := 200;
                  httpBody := Succeeded
                    {| pi_fileInfo :=
                         {| originalName := originalname file;
                            fi_size := size file;
                            fi_mimetype := mimetype file;
                            index := None |};
                       pi_pdfInfo := pdfInfo;
                       pi_processingTime :=
                         pretty processingTime +:+ "ms" |} |}
     end)
    (fun error =>
       ret {| httpStatus := 500;
              httpBody := Failed error "PDF_INFO_ERROR" |}).

End Services.

(** ** The image controllers on any request

    [req.body] is [undefined] unless a body parser filled it. The three
    image controllers destructure it first thing in their [try], before
    they look at the upload: on a request without a body that throws a
    [TypeError], and their [catch] answers it with status 500 and the
    message of the error, whether a file was uploaded or not. The
    definitions above are these controllers on a request that has a body;
    the ones below take any request. [destructuringError] is the message of
    the [TypeError], which the JS engine words. *)

Record Incoming (B : Type) := {
  in_file : option UploadedFile;
  in_files : option (list UploadedFile);
  in_body : option B
}.
Arguments in_file {B} _.
Arguments in_files {B} _.
Arguments in_body {B} _.

Section Handlers.
Context `{Collaborators}.
Context (destructuringError : string).

Definition extractText_handler (req : Incoming ExtractBody)
  : M (HttpResponse ExtractData) :=
  match in_body req with
  | None =>
      try_catch (throw destructuringError)
        (fun error =>
           ret {| httpStatus := 500;
                  httpBody := Failed error "OCR_PROCESSING_ERROR" |})
  | Some fields =>
      extractText {| er_file := in_file req; er_body := fields |}
  end.

Definition extractDetailedText_handler (req : Incoming Body) : M Response :=
  match in_body req with
  | None =>
      try_catch (throw destructuringError)
        (fun error =>
           ret {| status := 500;
                  json := ErrorBody error "DETAILED_OCR_ERROR" |})
  | Some fields =>
      extractDetailedText
        {| file := in_file req; files := in_files req; body := fields |}
  end.

Definition batchExtract_handler (req : Incoming Body) : M Response :=
  match in_body req with
  | None =>
      try_catch (throw destructuringError)
        (fun error =>
           ret {| status := 500; json := ErrorBody error "BATCH_OCR_ERROR" |})
  | Some fields =>
      batchExtract
        {| file := in_file req; files := in_files req; body := fields |}
  end.

End Handlers.

(** ** Test doubles

    A recognition engine, a rasteriser and a file system with fixed
    behaviour, to run the pipeline on concrete documents. *)

Definition stubData (text : string) (confidence : Z) (nwords : nat) : TessData :=
  let unit :=
    {| tu_text := "w"; tu_confidence := Qc_of_Z confidence;
       tu_bbox := {| x0 := 0; y0 := 0; x1 := 10; y1 := 10 |};
       tu_rest := [("baseline", "0")] |} in
  {| d_text := text; d_confidence := Qc_of_Z confidence;
     d_words := replicate nwords unit; d_lines := [unit];
     d_paragraphs := [unit]; d_blocks := [unit] |}.

(** The engine reads ["a.png"] with confidence 80, ["c.png"] with
    confidence 100, finds no text on ["blank.png"] and fails on every other
    image. *)
Definition stubEngine (imagePath lang : string) (o : TessOptions) (e : unit)
  : (TessData + string) * unit :=
  if String.eqb imagePath "a.png" then (inl (stubData "alpha" 80 1), e)
  else if String.eqb imagePath "c.png" then (inl (stubData "gamma delta" 100 2), e)
  else if String.eqb imagePath "blank.png" then (inl (stubData "  " 40 0), e)
  else (inr "Error: cannot read image", e).

(** The rasteriser knows four documents; on every other one it fails after
    it wrote the image of a first page. *)
Definition stubRasterizer (pdfPath : string) (o : Pdf2picOptions) (e : unit)
  : BulkOutcome * unit :=
  if String.eqb pdfPath "one.pdf" then (Converted ["a.png"], e)
  else if String.eqb pdfPath "two.pdf" then (Converted ["a.png"; "c.png"], e)
  else if String.eqb pdfPath "three.pdf" then
    (Converted ["a.png"; "b.png"; "c.png"], e)
  else if String.eqb pdfPath "sparse.pdf" then
    (Converted ["a.png"; "blank.png"; "c.png"], e)
  else (ConvertFailed ["partial.png"] "Error: document is damaged", e).

(** A file system where every unlink succeeds. *)
Definition tidyCollaborators : Collaborators := {|
  ExtState := unit;
  Tesseract_recognize_oracle := stubEngine;
  pdf2pic_bulk_oracle := stubRasterizer;
  Date_now := fun _ => 1700000000000;
  parseInt := fun s => if String.eqb s "3" then Some 3 else None;
  unlink_permitted := fun _ => true;
  tempDir := "/home/ubuntu/ocr-api/temp"
|}.

(** The same collaborators, on a file system that refuses to unlink
    ["c.png"]. *)
Definition lockedCollaborators : Collaborators := {|
  ExtState := unit;
  Tesseract_recognize_oracle := stubEngine;
  pdf2pic_bulk_oracle := stubRasterizer;
  Date_now := fun _ => 1700000000000;
  parseInt := fun s => if String.eqb s "3" then Some 3 else None;
  unlink_permitted := fun p => negb (String.eqb p "c.png");
  tempDir := "/home/ubuntu/ocr-api/temp"
|}.

Definition emptyWorld `{Collaborators} (e : ExtState) : World :=
  {| disk := ∅; engineCalls := []; ext := e |}.

(** An options object with no property set. *)
Definition noOptions : PdfOptions :=
  {| o_language := None; o_psm := None; o_oem := None; o_density := None;
     o_combinePages := None; o_includePageNumbers := None;
     o_whitelist := None; o_blacklist := None; o_preserveInterword := None |}.

Definition noBody : Body :=
  {| b_language := None; b_psm := None; b_oem := None;
     b_includeWords := JUndefined; b_includeLines := JUndefined;
     b_includeParagraphs := JUndefined; b_includeBlocks := JUndefined |}.

Definition upload (name : string) : UploadedFile :=
  {| originalname := name; path := name; size := 1024;
     mimetype := "image/png" |}.


(** The worlds the concrete runs start in: an empty disk and no call to
    the engine yet. *)
Definition tidyWorld : @World tidyCollaborators :=
  @emptyWorld tidyCollaborators tt.

Definition lockedWorld : @World lockedCollaborators :=
  @emptyWorld lockedCollaborators tt.

(** A world in which the uploaded document is on the disk. *)
Definition uploadedWorld : @World lockedCollaborators :=
  @Build_World lockedCollaborators {[ "two.pdf" ]} [] tt.

(** A batch of three uploads, the second of which the engine cannot read,
    and a detailed-image request that omits the include flags. *)
Definition batchOfThree : Request :=
  {| file := None;
     files := Some [upload "a.png"; upload "b.png"; upload "c.png"];
     body := noBody |}.

Definition detailedRequest : Request :=
  {| file := Some (upload "a.png"); files := None; body := noBody |}.

Definition withLanguage (tag : string) : OcrOptions :=
  {| language := Some tag; psm := None; oem := None; whitelist := None;
     blacklist := None; preserveInterword := None |}.

(** A stand-in for [path.extname] on plain file names: the suffix from the
    last dot on. *)
Fixpoint stubExtname (s : string) : string :=
  match s with
  | EmptyString => ""
  | String c s' =>
      match stubExtname s' with
      | EmptyString => if Ascii.eqb c "."%char then s else ""
      | ext => ext
      end
  end.

(** A stand-in for [toLowerCase] on the letters A to Z. *)
Fixpoint stubToLowerCase (s : string) : string :=
  match s with
  | EmptyString => ""
  | String c s' =>
      let n := Ascii.N_of_ascii c in
      String (if bool_decide (65 ≤ n ≤ 90)%N then Ascii.ascii_of_N (n + 32) else c)
        (stubToLowerCase s')
  end.

(** Every file has the same stats but ["missing.pdf"], which has none. *)
Definition stubStat (p : string) (files : gset string) (e : unit)
  : Stats + string :=
  if String.eqb p "missing.pdf"
  then inr "ENOENT: no such file or directory, stat 'missing.pdf'"
  else inl {| st_size := 2048; st_birthtime := 1600000000000;
              st_mtime := 1650000000000 |}.

Definition tidyNode : @NodeLibrary tidyCollaborators :=
  @Build_NodeLibrary tidyCollaborators stubExtname stubToLowerCase stubStat.

(** A single-image request with the given preprocessing flags, and a
    request for the information of a document. *)
Definition extractRequest (name : string) (enhanceFlag : JsValue)
  : ExtractRequest :=
  {| er_file := Some (upload name);
     er_body :=
       {| eb_language := None; eb_psm := None; eb_oem := None;
          eb_whitelist := None; eb_blacklist := None;
          eb_preserveInterword := JUndefined; eb_enhance := enhanceFlag;
          eb_denoise := JUndefined; eb_deskew := JUndefined |} |}.

Definition infoRequest (name : string) : Request :=
  {| file := Some (upload name); files := None; body := noBody |}.

Definition batchWithLanguage (tag : string) : Request :=
  {| file := None;
     files := Some [upload "a.png"; upload "b.png"; upload "c.png"];
     body := {| b_language := Some tag; b_psm := None; b_oem := None;
                b_includeWords := JUndefined; b_includeLines := JUndefined;
                b_includeParagraphs := JUndefined;
                b_includeBlocks := JUndefined |} |}.

Definition optionsWithLanguage (tag : string) : PdfOptions :=
  {| o_language := Some tag; o_psm := None; o_oem := None; o_density := None;
     o_combinePages := None; o_includePageNumbers := None;
     o_whitelist := None; o_blacklist := None; o_preserveInterword := None |}.

Definition optionsWithoutMarkers : PdfOptions :=
  {| o_language := None; o_psm := None; o_oem := None; o_density := None;
     o_combinePages := Some true; o_includePageNumbers := Some false;
     o_whitelist := None; o_blacklist := None; o_preserveInterword := None |}.

(** ** Vocabulary of the properties *)

Section Vocabulary.
Context `{Collaborators}.

(** What the engine is asked, given the options of a call. *)
Definition languageOf (options : OcrOptions) : string :=
  default "eng" (language options).

Definition engineRequest (options : OcrOptions) : TessOptions :=
  tesseractOptionsOf (languageOf options)
    (default "3" (psm options)) (default "3" (oem options))
    (default "" (whitelist options)) (default "" (blacklist options))
    (default false (preserveInterword options)).

(** What the rasteriser is asked by the two document operations. *)
Definition pdfRasterRequest (options : PdfOptions) (w : World)
  : Pdf2picOptions :=
  bulkOptionsOf
    (conversionOptions (default 300 (o_density options))
       ("pdf_page_" +:+ pretty (Date_now (ext w)))).

Definition pagesRasterRequest (options : PdfOptions) (w : World)
  : Pdf2picOptions :=
  bulkOptionsOf
    (conversionOptions (default 300 (o_density options))
       ("pdf_selective_" +:+ pretty (Date_now (ext w)))).

(** The world after a conversion that wrote [written] and left the
    collaborators in state [e]. *)
Definition afterConversion (w : World) (written : list string) (e : ExtState)
  : World :=
  {| disk := disk w ∪ list_to_set written;
     engineCalls := engineCalls w; ext := e |}.

(** The images among [paths] that the file system lets the service unlink. *)
Definition unlinkable (paths : list string) : gset string :=
  list_to_set (List.filter unlink_permitted paths).

(** A page outcome is a failure when it carries an [error] property. *)
Definition carriesError (p : PageData) : bool :=
  match pg_error p with
  | Some _ => true
  | None => false
  end.

(** The successful outcomes of a report, in its order. *)
Definition succeeded (pages : list PageData) : list PageData :=
  List.filter (fun p => negb (carriesError p)) pages.

(** The confidences of [pages], added from left to right. *)
Definition sumConfidence (pages : list PageData) : Qc :=
  fold_left (fun acc p => (acc + pg_confidence p)%Qc) pages 0%Qc.

(** The average the specification describes: over the successful outcomes
    only, and 0 when there is none. *)
Definition meanOfSucceeded (pages : list PageData) : Qc :=
  averageOver (sumConfidence (succeeded pages))
    (Z.of_nat (length (succeeded pages))).

Definition concatStrings (l : list string) : string :=
  foldr String.append "" l.

(** The marker [--- Page N ---]. *)
Definition pageMarker (n : Z) : string :=
  "--- Page " +:+ pretty n +:+ " ---".

(** What a recognised page adds to the combined text. *)
Definition pageChunk (includePageNumbers : bool) (p : PageData) : string :=
  (if includePageNumbers && truthy (trim (pg_text p))
   then LF +:+ LF +:+ pageMarker (pageNumber p) +:+ LF +:+ LF
   else "")
  +:+ pg_text p +:+ LF.

(** The combined text as the specification words it: the texts of the
    pages in order, the marker before each page whose trimmed text is not
    empty, and nothing else. *)
Definition markedConcatenation (pages : list PageData) : string :=
  concatStrings
    (map (fun p =>
            (if truthy (trim (pg_text p)) then pageMarker (pageNumber p)
             else "") +:+ pg_text p)
       pages).

(** The message of a page that is out of range, in the code and in the
    specification. *)
Definition outOfRangeMessage (pageNum total : Z) : string :=
  "Page " +:+ pretty pageNum +:+ " does not exist. PDF has "
  +:+ pretty total +:+ " pages.".

Definition specifiedOutOfRangeMessage (pageNum total : Z) : string :=
  "Page " +:+ pretty pageNum +:+ " does not exist. Document has "
  +:+ pretty total +:+ " pages.".

(** The loop variables after one more outcome [pd], in the page-subset
    loop and in the whole-document loop. *)
Definition recordPage (st : LoopState) (pd : PageData) : LoopState :=
  {| pageResults := pageResults st ++ [pd];
     combinedText := combinedText st;
     totalConfidence := (totalConfidence st + pg_confidence pd)%Qc;
     totalWords := totalWords st + wordCount pd |}.

Definition recordPdfPage (combinePages includePageNumbers : bool)
    (st : LoopState) (pd : PageData) : LoopState :=
  {| pageResults := pageResults st ++ [pd];
     combinedText :=
       if combinePages && negb (carriesError pd)
       then combinedText st +:+ pageChunk includePageNumbers pd
       else combinedText st;
     totalConfidence := (totalConfidence st + pg_confidence pd)%Qc;
     totalWords := totalWords st + wordCount pd |}.

(** The shape of the outcomes the loops record: an [error] is never the
    empty string, and a failure has confidence 0. *)
Definition wellFormedPage (pd : PageData) : Prop :=
  truthy_opt (pg_error pd) = carriesError pd ∧
  (carriesError pd = true → pg_confidence pd = 0%Qc).

(** What the code divides: the confidences of the successful outcomes,
    over the number of all outcomes. *)
Definition meanOverOutcomes (pages : list PageData) : Qc :=
  averageOver (sumConfidence (succeeded pages)) (Z.of_nat (length pages)).

(** The combined text the code builds from a report's pages. *)
Definition combinedChunks (includePageNumbers : bool) (pages : list PageData)
  : string :=
  concatStrings (map (pageChunk includePageNumbers) (succeeded pages)).

(** How the recognitions of a batch complete, one after the other, each in
    the world the one before left. *)
Fixpoint recognitions (options : OcrOptions) (files : list UploadedFile)
    (w : World) : list (Completion OcrResult) * World :=
  match files with
  | [] => ([], w)
  | file :: rest =>
      let '(c, w1) := extractTextFromImage (path file) options w in
      let '(cs, w') := recognitions options rest w1 in
      (c :: cs, w')
  end.

(** The outcome of the batch item at index [i], given how its recognition
    completed. *)
Definition batchOutcome (file : UploadedFile) (i : Z)
    (c : Completion OcrResult) : BatchItem :=
  match c with
  | Normal result => batchSuccess file i result
  | Throw message => batchFailure file i message
  end.

(** The options a controller hands to the service. *)
Definition requestOcrOptions (req : Request) : OcrOptions :=
  controllerOcrOptions (default "eng" (b_language (body req)))
    (default "3" (b_psm (body req))) (default "3" (b_oem (body req))).

(** The number of batch items that carry an [error] property. *)
Definition countErrors (results : list BatchItem) : Z :=
  Z.of_nat (length (List.filter (fun r => bool_decide (is_Some (error r))) results)).

End Vocabulary.

(** ** Vocabulary of the further properties *)

Section MoreVocabulary.
Context `{Collaborators}.

(** The outcome recorded for page [pageNum], given how its recognition
    completed. *)
Definition pageOutcomeOf (pageNum : Z) (c : Completion OcrResult) : PageData :=
  match c with
  | Normal pageResult => successPage pageNum pageResult
  | Throw message => failedPage pageNum message
  end.

(** The world after [try { fs.unlinkSync(p) } catch (cleanupError) { }]. *)
Definition attemptUnlink (p : string) (w : World) : World :=
  (try_catch (unlinkSync p) (fun _ => ret tt) w).2.

(** The outcomes of the whole-document loop from index [i] on, each
    recognition in the world the turn before left, and the last world. *)
Fixpoint pdfOutcomes (options : OcrOptions) (i : Z) (imagePaths : list string)
    (w : World) : list PageData * World :=
  match imagePaths with
  | [] => ([], w)
  | imagePath :: rest =>
      let '(c, w1) := extractTextFromImage imagePath options w in
      let '(pds, w') :=
        pdfOutcomes options (i + 1) rest (attemptUnlink imagePath w1) in
      (pageOutcomeOf (i + 1) c :: pds, w')
  end.

(** Whether [pageNum] is a page of a document of [total] pages. *)
Definition inRange (total pageNum : Z) : bool :=
  bool_decide (1 ≤ pageNum ≤ total).

(** The image of page [pageNum]. *)
Definition imageOf (allImagePaths : list string) (pageNum : Z) : string :=
  default "undefined" (allImagePaths !! Z.to_nat (pageNum - 1)).

(** The outcomes of the page-subset loop, and the last world. *)
Fixpoint requestedOutcomes (options : OcrOptions) (allImagePaths : list string)
    (pageNumbers : list Z) (w : World) : list PageData * World :=
  match pageNumbers with
  | [] => ([], w)
  | pageNum :: rest =>
      if inRange (Z.of_nat (length allImagePaths)) pageNum then
        let '(c, w1) :=
          extractTextFromImage (imageOf allImagePaths pageNum) options w in
        let '(pds, w') := requestedOutcomes options allImagePaths rest w1 in
        (pageOutcomeOf pageNum c :: pds, w')
      else
        let '(pds, w') := requestedOutcomes options allImagePaths rest w in
        (failedPage pageNum
           (outOfRangeMessage pageNum (Z.of_nat (length allImagePaths)))
         :: pds, w')
  end.

(** The options of the recognition of a page, from those of the document
    operation. *)
Definition pdfOcrOptions (options : PdfOptions) : OcrOptions :=
  pageOcrOptions (default "eng" (o_language options))
    (default "3" (o_psm options)) (default "3" (o_oem options)) options.

(** The word counts of [pages], added from left to right. *)
Definition sumWords (pages : list PageData) : Z :=
  fold_left (fun acc p => acc + wordCount p) pages 0.

(** A language tag all of whose components are supported. *)
Definition supportedTag (tag : string) : Prop :=
  Forall (λ lang, lang ∈ supportedLanguages) (split "+"%char tag).

(** The combined text without markers. *)
Definition plainChunks (pages : list PageData) : string :=
  concatStrings (map (fun p => pg_text p +:+ LF) (succeeded pages)).

(** A string with no white space at its start. *)
Definition startsClean (s : string) : Prop := trimStart s = s.

(** The word count an outcome should carry: the number of its words, and 0
    without words. *)
Definition countsItsWords (p : PageData) : Prop :=
  wordCount p = Z.of_nat (length (default [] (pg_words p))) ∧
  lineCount p = Z.of_nat (length (default [] (pg_lines p))).

(** A text that [trim] leaves as it is. *)
Definition trimmed (s : string) : Prop := trim s = s.

(** The message of a recognition that fails on the language [bad]. *)
Definition unsupportedMessage (bad : string) : string :=
  "OCR processing failed: Unsupported language: " +:+ bad.

End MoreVocabulary.

Section ServiceVocabulary.
Context `{NodeLibrary}.

(** The options [extractText] hands to the service, and whether it asks for
    preprocessing. *)
Definition extractOcrOptions (req : ExtractRequest) : OcrOptions :=
  {| language := Some (default "eng" (eb_language (er_body req)));
     psm := Some (default "3" (eb_psm (er_body req)));
     oem := Some (default "3" (eb_oem (er_body req)));
     whitelist := Some (default "" (eb_whitelist (er_body req)));
     blacklist := Some (default "" (eb_blacklist (er_body req)));
     preserveInterword :=
       Some (strictEqString
               (orDefault (eb_preserveInterword (er_body req)) (JBool false))
               "true") |}.

Definition asksPreprocessing (req : ExtractRequest) : bool :=
  strictEqString (orDefault (eb_enhance (er_body req)) (JBool false)) "true"
  || strictEqString (orDefault (eb_denoise (er_body req)) (JBool false)) "true"
  || strictEqString (orDefault (eb_deskew (er_body req)) (JBool false)) "true".

(** What the rasteriser is asked by [getPdfInfo]. *)
Definition infoRasterRequest (w : World) : Pdf2picOptions :=
  bulkOptionsOf
    (conversionOptions 150 ("pdf_info_" +:+ pretty (Date_now (ext w)))).

(** The information [getPdfInfo] returns for [n] pages and [stats]. *)
Definition pdfInfoOf (n : nat) (stats : Stats) : PdfInfo :=
  {| pageCount := Z.of_nat n;
     fileSize := st_size stats;
     created := st_birthtime stats;
     modified := st_mtime stats;
     isValid := true |}.

End ServiceVocabulary.

(** * Properties *)

(** Closes a goal that holds by running the code on concrete inputs. *)
Ltac by_running := vm_compute; reflexivity.

(** ** The string helpers on small inputs *)

Example split_two_languages : split "+"%char "eng+fra" = ["eng"; "fra"].
Proof. reflexivity. Qed.

Example split_empty_tag : split "+"%char "" = [""].
Proof. reflexivity. Qed.

Example split_trailing_plus : split "+"%char "eng+" = ["eng"; ""].
Proof. reflexivity. Qed.

Example trim_both_ends :
  trim (" " +:+ LF +:+ "two words " +:+ LF) = "two words".
Proof. reflexivity. Qed.

Example trim_blank : trim ("  " +:+ LF) = "".
Proof. reflexivity. Qed.

Section Properties.
Context `{Collaborators}.

(** ** The recognition adapter *)

Lemma validateLanguages_supported languages w :
  Forall (λ lang, lang ∈ supportedLanguages) languages →
  validateLanguages languages w = (Normal tt, w).
Proof.
  induction 1 as [|lang rest Hin _ IH]; simpl; [done|].
  by rewrite bool_decide_eq_true_2.
Qed.

Lemma validateLanguages_unsupported languages w :
  Exists (λ lang, lang ∉ supportedLanguages) languages →
  ∃ before bad after,
    languages = before ++ bad :: after ∧
    Forall (λ lang, lang ∈ supportedLanguages) before ∧
    (bad ∉ supportedLanguages) ∧
    validateLanguages languages w =
      (Throw ("Unsupported language: " +:+ bad), w).
Proof.
  induction languages as [|lang rest IH]; intros Hex.
  - by apply Exists_nil in Hex.
  - simpl. case_bool_decide as Hin.
    + apply Exists_cons in Hex as [Hbad|Hex]; [done|].
      destruct (IH Hex) as (before & bad & after & -> & Hall & Hbad & Hrun).
      exists (lang :: before), bad, after. by repeat split; [constructor|..].
    + exists [], lang, rest. by repeat split.
Qed.

(** With supported languages the engine is called once, and its answer
    decides how the call completes. *)
Lemma extractTextFromImage_supported imagePath options w :
  Forall (λ lang, lang ∈ supportedLanguages)
    (split "+"%char (languageOf options)) →
  extractTextFromImage imagePath options w =
    (match (Tesseract_recognize_oracle imagePath (languageOf options)
              (engineRequest options) (ext w)).1 with
     | inl data => Normal (ocrResultOf data)
     | inr msg => Throw ("OCR processing failed: " +:+ msg)
     end,
     {| disk := disk w;
        engineCalls := engineCalls w ++ [(imagePath, languageOf options)];
        ext := (Tesseract_recognize_oracle imagePath (languageOf options)
                  (engineRequest options) (ext w)).2 |}).
Proof.
  intros Hall. unfold extractTextFromImage, try_catch, bind.
  rewrite (validateLanguages_supported _ _ Hall).
  unfold Tesseract_recognize, engineRequest, languageOf.
  by destruct (Tesseract_recognize_oracle _ _ _ _) as [[data|msg] e'].
Qed.

Lemma extractTextFromImage_unsupported imagePath options w :
  Exists (λ lang, lang ∉ supportedLanguages)
    (split "+"%char (languageOf options)) →
  ∃ before bad after,
    split "+"%char (languageOf options) = before ++ bad :: after ∧
    Forall (λ lang, lang ∈ supportedLanguages) before ∧
    (bad ∉ supportedLanguages) ∧
    extractTextFromImage imagePath options w =
      (Throw ("OCR processing failed: Unsupported language: " +:+ bad), w).
Proof.
  intros Hex.
  destruct (validateLanguages_unsupported _ w Hex)
    as (before & bad & after & Hsplit & Hall & Hbad & Hrun).
  exists before, bad, after. repeat split; try done.
  unfold extractTextFromImage, try_catch, bind.
  unfold languageOf in Hrun. by rewrite Hrun.
Qed.

(** A recognition leaves the files alone, and the message of its failure
    starts with the service's prefix. *)
Lemma extractTextFromImage_frame imagePath options w c w' :
  extractTextFromImage imagePath options w = (c, w') →
  disk w' = disk w ∧
  ∀ message, c = Throw message →
    ∃ cause, message = "OCR processing failed: " +:+ cause.
Proof.
  intros Hrun.
  destruct (decide (Forall (λ lang, lang ∈ supportedLanguages)
                      (split "+"%char (languageOf options)))) as [Hall|Hnot].
  - rewrite (extractTextFromImage_supported _ _ _ Hall) in Hrun.
    injection Hrun as <- <-. split; [done|].
    intros message. destruct (Tesseract_recognize_oracle _ _ _ _).1; [done|].
    intros [= <-]. eauto.
  - apply not_Forall_Exists in Hnot; [|intros lang; apply _].
    destruct (extractTextFromImage_unsupported imagePath _ w Hnot)
      as (_ & bad & _ & _ & _ & _ & Hrun').
    rewrite Hrun' in Hrun. injection Hrun as <- <-. split; [done|].
    intros message [= <-]. eauto.
Qed.


(** ** Strings *)

Lemma append_assoc (a b c : string) : (a +:+ b) +:+ c = a +:+ (b +:+ c).
Proof.
  induction a as [|ch a IH]; [done|].
  change (String ch ((a +:+ b) +:+ c) = String ch (a +:+ (b +:+ c))).
  by rewrite IH.
Qed.

Lemma append_empty_r (a : string) : a +:+ "" = a.
Proof.
  induction a as [|ch a IH]; [done|].
  change (String ch (a +:+ "") = String ch a). by rewrite IH.
Qed.

(** ** Unlinking *)

Lemma try_unlink_spec p w :
  ∃ w', try_catch (unlinkSync p) (fun _ => ret tt) w = (Normal tt, w') ∧
        disk w' = (if unlink_permitted p then disk w ∖ {[ p ]} else disk w) ∧
        engineCalls w' = engineCalls w ∧ ext w' = ext w.
Proof.
  unfold try_catch, unlinkSync, ret.
  case_bool_decide as Hin; destruct (unlink_permitted p);
    eexists; (split; [done|]); simpl; repeat split; try done.
  set_solver.
Qed.

Lemma unlinkable_cons p paths :
  unlinkable (p :: paths) =
    (if unlink_permitted p then {[ p ]} ∪ unlinkable paths
     else unlinkable paths).
Proof. unfold unlinkable. simpl. by destruct (unlink_permitted p). Qed.

Lemma cleanupImages_spec paths : ∀ w,
  ∃ w', cleanupImages paths w = (Normal tt, w') ∧
        disk w' = disk w ∖ unlinkable paths ∧
        engineCalls w' = engineCalls w ∧ ext w' = ext w.
Proof.
  induction paths as [|p rest IH]; intros w.
  - exists w. repeat split; try done. unfold unlinkable. set_solver.
  - destruct (try_unlink_spec p w) as (w1 & Hrun1 & Hdisk1 & Hcalls1 & Hext1).
    destruct (IH w1) as (w' & Hrun & Hdisk & Hcalls & Hext).
    exists w'. simpl. unfold bind. rewrite Hrun1, Hrun.
    repeat split; try congruence.
    rewrite Hdisk, Hdisk1, unlinkable_cons.
    destruct (unlink_permitted p); set_solver.
Qed.

(** ** The loop of [extractTextFromPdf] *)

Section pdf_loop.
Context (language psm oem : string) (options : PdfOptions).
Context (combinePages includePageNumbers : bool).

(** One turn of the loop never throws. It records one outcome for page
    [i + 1], whatever the loop variables are, and unlinks the image. *)
Lemma processPage_spec i imagePath w :
  ∃ pd w',
    (∀ st, processPage language psm oem options combinePages
             includePageNumbers i imagePath st w =
           (Normal (recordPdfPage combinePages includePageNumbers st pd), w')) ∧
    pageNumber pd = i + 1 ∧
    wellFormedPage pd ∧
    disk w' =
      (if unlink_permitted imagePath then disk w ∖ {[ imagePath ]} else disk w).
Proof.
  unfold processPage, bind.
  destruct (extractTextFromImage imagePath
              (pageOcrOptions language psm oem options) w) as [c w1] eqn:Hocr.
  destruct (extractTextFromImage_frame _ _ _ _ _ Hocr) as [Hdisk Hmsg].
  destruct (try_unlink_spec imagePath w1) as (w' & Hun & Hdisk' & _ & _).
  destruct c as [r|message].
  - exists (successPage (i + 1) r), w'. repeat split; try done.
    + intros st. unfold try_catch at 1, bind. rewrite Hocr. simpl.
      rewrite Hun. unfold recordPdfPage, pageChunk, pageMarker. simpl.
      do 2 f_equal. destruct combinePages; [|done]. simpl.
      destruct (includePageNumbers && truthy (trim (r_text r)));
        by rewrite ?append_assoc.
    + by rewrite Hdisk', Hdisk.
  - destruct (Hmsg message eq_refl) as [cause ->].
    exists (failedPage (i + 1) ("OCR processing failed: " +:+ cause)), w'.
    repeat split; try done.
    + intros st. unfold try_catch at 1, bind. rewrite Hocr. simpl.
      rewrite Hun. unfold recordPdfPage. simpl.
      by rewrite andb_false_r, Qcplus_0_r, Z.add_0_r.
    + by rewrite Hdisk', Hdisk.
Qed.

(** The loop never throws: it records one outcome per image, numbered from
    [i + 1] on, and every image has been unlinked when it ends. *)
Lemma processPages_spec imagePaths : ∀ i w,
  ∃ news w',
    (∀ st, processPages language psm oem options combinePages
             includePageNumbers i imagePaths st w =
           (Normal (fold_left (recordPdfPage combinePages includePageNumbers)
                      news st), w')) ∧
    map pageNumber news = seqZ (i + 1) (Z.of_nat (length imagePaths)) ∧
    Forall wellFormedPage news ∧
    disk w' = disk w ∖ unlinkable imagePaths.
Proof.
  induction imagePaths as [|imagePath rest IH]; intros i w.
  - exists [], w. repeat split; try done. unfold unlinkable. set_solver.
  - destruct (processPage_spec i imagePath w)
      as (pd & w1 & Hbody & Hnum & Hwf & Hdisk1).
    destruct (IH (i + 1) w1) as (news & w' & Hloop & Hnums & Hwfs & Hdisk).
    exists (pd :: news), w'. repeat split.
    + intros st. simpl. unfold bind. by rewrite Hbody, Hloop.
    + simpl. rewrite Hnums, Hnum.
      rewrite (seqZ_cons (i + 1) (Z.of_nat (S (length rest)))) by lia.
      do 2 f_equal; lia.
    + by constructor.
    + rewrite Hdisk, Hdisk1, unlinkable_cons.
      destruct (unlink_permitted imagePath); set_solver.
Qed.

End pdf_loop.

(** ** What the loop variables hold after a sequence of outcomes *)

Section fold_facts.
Context (combinePages includePageNumbers : bool).

Lemma pageResults_fold_pdf news : ∀ st,
  pageResults (fold_left (recordPdfPage combinePages includePageNumbers) news st)
  = pageResults st ++ news.
Proof.
  induction news as [|pd news IH]; intros st; simpl.
  - by rewrite app_nil_r.
  - rewrite IH. simpl. by rewrite <- app_assoc.
Qed.

Lemma totalConfidence_fold_pdf news : ∀ st,
  Forall wellFormedPage news →
  totalConfidence
    (fold_left (recordPdfPage combinePages includePageNumbers) news st)
  = fold_left (fun acc p => (acc + pg_confidence p)%Qc) (succeeded news)
      (totalConfidence st).
Proof.
  induction news as [|pd news IH]; intros st Hwf; [done|].
  apply Forall_cons in Hwf as [[_ Hzero] Hwf]. simpl.
  rewrite (IH _ Hwf). simpl.
  destruct (carriesError pd); simpl; [|done].
  by rewrite (Hzero eq_refl), Qcplus_0_r.
Qed.

Lemma combinedText_fold_pdf news : ∀ st,
  combinedText (fold_left (recordPdfPage true includePageNumbers) news st)
  = combinedText st +:+ combinedChunks includePageNumbers news.
Proof.
  unfold combinedChunks.
  induction news as [|pd news IH]; intros st; simpl.
  - by rewrite append_empty_r.
  - rewrite IH. simpl. destruct (carriesError pd); simpl; [done|].
    by rewrite append_assoc.
Qed.

End fold_facts.

Lemma pageResults_fold news : ∀ st,
  pageResults (fold_left recordPage news st) = pageResults st ++ news.
Proof.
  induction news as [|pd news IH]; intros st; simpl.
  - by rewrite app_nil_r.
  - rewrite IH. simpl. by rewrite <- app_assoc.
Qed.

Lemma totalConfidence_fold news : ∀ st,
  Forall wellFormedPage news →
  totalConfidence (fold_left recordPage news st)
  = fold_left (fun acc p => (acc + pg_confidence p)%Qc) (succeeded news)
      (totalConfidence st).
Proof.
  induction news as [|pd news IH]; intros st Hwf; [done|].
  apply Forall_cons in Hwf as [[_ Hzero] Hwf]. simpl.
  rewrite (IH _ Hwf). simpl.
  destruct (carriesError pd); simpl; [|done].
  by rewrite (Hzero eq_refl), Qcplus_0_r.
Qed.

(** ** The two conversions and [extractTextFromPdf] as a whole *)

Lemma convertPdfToImages_run pdfPath copts w :
  convertPdfToImages pdfPath copts w =
    match pdf2pic_bulk_oracle pdfPath (bulkOptionsOf copts) (ext w) with
    | (Converted paths, e) => (Normal paths, afterConversion w paths e)
    | (ConvertFailed written msg, e) =>
        (Throw ("Failed to convert PDF to images: " +:+ msg),
         afterConversion w written e)
    end.
Proof.
  unfold convertPdfToImages, try_catch, bind, pdf2pic_bulk.
  by destruct (pdf2pic_bulk_oracle _ _ _) as [[paths|written msg] e].
Qed.

(** When the rasteriser succeeds the operation returns a report, built
    from one outcome per page; when it fails the operation throws, and
    what the rasteriser wrote stays where it is. *)
Lemma extractTextFromPdf_run pdfPath options w :
  match pdf2pic_bulk_oracle pdfPath (pdfRasterRequest options w) (ext w) with
  | (Converted paths, e) =>
      ∃ news w',
        extractTextFromPdf pdfPath options w =
          (Normal
             (pdfResultOf (default "eng" (o_language options))
                (default true (o_combinePages options)) paths
                (fold_left
                   (recordPdfPage (default true (o_combinePages options))
                      (default true (o_includePageNumbers options)))
                   news emptyLoopState)
                (Date_now (ext w') - Date_now (ext w))),
           w') ∧
        map pageNumber news = seqZ 1 (Z.of_nat (length paths)) ∧
        Forall wellFormedPage news ∧
        disk w' = (disk w ∪ list_to_set paths) ∖ unlinkable paths
  | (ConvertFailed written msg, e) =>
      extractTextFromPdf pdfPath options w =
        (Throw ("PDF OCR processing failed: Failed to convert PDF to images: "
                +:+ msg),
         afterConversion w written e)
  end.
Proof.
  pose proof (convertPdfToImages_run pdfPath
                (conversionOptions (default 300 (o_density options))
                   ("pdf_page_" +:+ pretty (Date_now (ext w)))) w) as Hconv.
  fold (pdfRasterRequest options w) in Hconv.
  destruct (pdf2pic_bulk_oracle _ _ _) as [[paths|written msg] e].
  - destruct (processPages_spec (default "eng" (o_language options))
                (default "3" (o_psm options)) (default "3" (o_oem options))
                options (default true (o_combinePages options))
                (default true (o_includePageNumbers options))
                paths 0 (afterConversion w paths e))
      as (news & w' & Hloop & Hnums & Hwf & Hdisk).
    exists news, w'. split; [|done].
    unfold extractTextFromPdf, try_catch, bind, now, ret. simpl.
    by rewrite Hconv, Hloop.
  - unfold extractTextFromPdf, try_catch, bind, now. simpl. by rewrite Hconv.
Qed.

(** ** The loop of [extractTextFromPdfPages] *)

Section pages_loop.
Context (language psm oem : string) (options : PdfOptions).
Context (allImagePaths : list string).

Local Abbreviation total := (Z.of_nat (length allImagePaths)).

(** One turn of the loop never throws and records one outcome for
    [pageNum], whatever the loop variables are. A page that is out of range
    fails without a call to the engine; a page that succeeds is in range. *)
Lemma processRequestedPage_spec pageNum w :
  ∃ pd w',
    (∀ st, processRequestedPage language psm oem options allImagePaths
             pageNum st w = (Normal (recordPage st pd), w')) ∧
    pageNumber pd = pageNum ∧
    wellFormedPage pd ∧
    disk w' = disk w ∧
    (pageNum < 1 ∨ total < pageNum →
       pd = failedPage pageNum (outOfRangeMessage pageNum total) ∧ w' = w) ∧
    (carriesError pd = false → 1 ≤ pageNum ≤ total).
Proof.
  unfold processRequestedPage.
  destruct (bool_decide (pageNum - 1 < 0)
            || bool_decide (pageNum - 1 >= total)) eqn:Hguard.
  - exists (failedPage pageNum (outOfRangeMessage pageNum total)), w.
    repeat split; try done.
    unfold recordPage, ret. simpl. intros st.
    by rewrite Qcplus_0_r, Z.add_0_r.
  - apply orb_false_iff in Hguard as [Hlo Hhi].
    apply bool_decide_eq_false in Hlo, Hhi.
    destruct (extractTextFromImage
                (default "undefined" (allImagePaths !! Z.to_nat (pageNum - 1)))
                (pageOcrOptions language psm oem options) w)
      as [c w'] eqn:Hocr.
    destruct (extractTextFromImage_frame _ _ _ _ _ Hocr) as [Hdisk Hmsg].
    destruct c as [r|message].
    + exists (successPage pageNum r), w'. repeat split; try done; try lia.
      intros st. unfold try_catch, bind. by rewrite Hocr.
    + destruct (Hmsg message eq_refl) as [cause ->].
      exists (failedPage pageNum ("OCR processing failed: " +:+ cause)), w'.
      repeat split; try done; try lia.
      intros st. unfold try_catch, bind. rewrite Hocr.
      unfold recordPage, ret. simpl. by rewrite Qcplus_0_r, Z.add_0_r.
Qed.

(** The loop never throws: it records one outcome per requested number,
    in the order of the request, and leaves the files alone. *)
Lemma processRequestedPages_spec pageNumbers : ∀ w,
  ∃ news w',
    (∀ st, processRequestedPages language psm oem options allImagePaths
             pageNumbers st w = (Normal (fold_left recordPage news st), w')) ∧
    map pageNumber news = pageNumbers ∧
    Forall wellFormedPage news ∧
    Forall (λ pd, carriesError pd = false → 1 ≤ pageNumber pd ≤ total) news ∧
    disk w' = disk w.
Proof.
  induction pageNumbers as [|pageNum rest IH]; intros w.
  - by exists [], w.
  - destruct (processRequestedPage_spec pageNum w)
      as (pd & w1 & Hbody & Hnum & Hwf & Hdisk1 & _ & Hrange).
    destruct (IH w1) as (news & w' & Hloop & Hnums & Hwfs & Hranges & Hdisk).
    exists (pd :: news), w'. repeat split.
    + intros st. simpl. unfold bind. by rewrite Hbody, Hloop.
    + simpl. by rewrite Hnums, Hnum.
    + by constructor.
    + constructor; [by rewrite Hnum|done].
    + by rewrite Hdisk, Hdisk1.
Qed.

(** A request with an out-of-range number between [before] and [after]
    runs as the request without it: same outcomes for the other numbers,
    same final world, and the failure record in between. *)
Lemma processRequestedPages_out_of_range before pageNum after :
  pageNum < 1 ∨ total < pageNum →
  ∀ w, ∃ news1 news2 w',
    length news1 = length before ∧
    (∀ st, processRequestedPages language psm oem options allImagePaths
             (before ++ pageNum :: after) st w =
           (Normal (fold_left recordPage
                      (news1 ++
                       failedPage pageNum (outOfRangeMessage pageNum total)
                       :: news2) st), w')) ∧
    (∀ st, processRequestedPages language psm oem options allImagePaths
             (before ++ after) st w =
           (Normal (fold_left recordPage (news1 ++ news2) st), w')).
Proof.
  intros Hout. induction before as [|b before IH]; intros w.
  - destruct (processRequestedPage_spec pageNum w)
      as (pd & w1 & Hbody & _ & _ & _ & Hfail & _).
    destruct (Hfail Hout) as [-> ->].
    destruct (processRequestedPages_spec after w)
      as (news2 & w' & Hloop & _).
    exists [], news2, w'. repeat split; [|done].
    intros st. simpl. unfold bind. by rewrite Hbody, Hloop.
  - destruct (processRequestedPage_spec b w) as (pd & w1 & Hbody & _).
    destruct (IH w1) as (news1 & news2 & w' & Hlen & Hwith & Hwithout).
    exists (pd :: news1), news2, w'. repeat split.
    + simpl. by rewrite Hlen.
    + intros st. simpl. unfold bind. by rewrite Hbody, Hwith.
    + intros st. simpl. unfold bind. by rewrite Hbody, Hwithout.
Qed.

End pages_loop.

(** Once the pages are converted and the loop is over, the images are
    unlinked and the report is returned. *)
Lemma extractTextFromPdfPages_converted pdfPath pageNumbers options w
    paths e st w1 :
  pdf2pic_bulk_oracle pdfPath (pagesRasterRequest options w) (ext w)
    = (Converted paths, e) →
  processRequestedPages (default "eng" (o_language options))
    (default "3" (o_psm options)) (default "3" (o_oem options)) options
    paths pageNumbers emptyLoopState (afterConversion w paths e)
    = (Normal st, w1) →
  extractTextFromPdfPages pdfPath pageNumbers options w =
    (Normal (pagesResultOf (default "eng" (o_language options))
               pageNumbers paths st
               (Date_now (ext w1) - Date_now (ext w))),
     (cleanupImages paths w1).2).
Proof.
  intros Hraster Hloop.
  pose proof (convertPdfToImages_run pdfPath
                (conversionOptions (default 300 (o_density options))
                   ("pdf_selective_" +:+ pretty (Date_now (ext w)))) w) as Hconv.
  fold (pagesRasterRequest options w) in Hconv. rewrite Hraster in Hconv.
  destruct (cleanupImages_spec paths w1) as (w' & Hclean & _ & _ & Hext).
  unfold extractTextFromPdfPages, try_catch, bind, now, ret. simpl.
  rewrite Hconv, Hloop, Hclean. simpl. by rewrite Hext.
Qed.

Lemma extractTextFromPdfPages_run pdfPath pageNumbers options w :
  match pdf2pic_bulk_oracle pdfPath (pagesRasterRequest options w) (ext w) with
  | (Converted paths, e) =>
      ∃ news w',
        extractTextFromPdfPages pdfPath pageNumbers options w =
          (Normal
             (pagesResultOf (default "eng" (o_language options)) pageNumbers
                paths (fold_left recordPage news emptyLoopState)
                (Date_now (ext w') - Date_now (ext w))),
           w') ∧
        map pageNumber news = pageNumbers ∧
        Forall wellFormedPage news ∧
        Forall (λ pd, carriesError pd = false →
                      1 ≤ pageNumber pd ≤ Z.of_nat (length paths)) news ∧
        disk w' = (disk w ∪ list_to_set paths) ∖ unlinkable paths
  | (ConvertFailed written msg, e) =>
      extractTextFromPdfPages pdfPath pageNumbers options w =
        (Throw ("PDF selective OCR processing failed: "
                +:+ "Failed to convert PDF to images: " +:+ msg),
         afterConversion w written e)
  end.
Proof.
  destruct (pdf2pic_bulk_oracle _ _ _) as [[paths|written msg] e] eqn:Hraster.
  - destruct (processRequestedPages_spec (default "eng" (o_language options))
                (default "3" (o_psm options)) (default "3" (o_oem options))
                options paths pageNumbers (afterConversion w paths e))
      as (news & w1 & Hloop & Hnums & Hwf & Hrange & Hdisk1).
    pose proof (extractTextFromPdfPages_converted _ pageNumbers _ _ _ _ _ _
                  Hraster (Hloop emptyLoopState)) as Hrun.
    destruct (cleanupImages_spec paths w1) as (w' & Hclean & Hdisk & _ & Hext).
    rewrite Hclean in Hrun. simpl in Hrun. rewrite <- Hext in Hrun.
    exists news, w'. repeat split; try done. by rewrite Hdisk, Hdisk1.
  - pose proof (convertPdfToImages_run pdfPath
                  (conversionOptions (default 300 (o_density options))
                     ("pdf_selective_" +:+ pretty (Date_now (ext w)))) w)
      as Hconv.
    fold (pagesRasterRequest options w) in Hconv. rewrite Hraster in Hconv.
    unfold extractTextFromPdfPages, try_catch, bind, now. simpl.
    by rewrite Hconv.
Qed.

(** ** The loop of [batchExtract] *)

(** The loop never throws. It appends one outcome per file, in the order
    of the files: the outcome at position [k] carries index [i + k] and is
    decided by the recognition of the file at position [k] alone. *)
Lemma processFiles_spec options files : ∀ i w,
  ∃ items,
    (∀ results, processFiles options i files results w =
                (Normal (results ++ items), (recognitions options files w).2)) ∧
    length items = length files ∧
    ∀ k file, files !! k = Some file →
      ∃ c, (recognitions options files w).1 !! k = Some c ∧
           items !! k = Some (batchOutcome file (i + Z.of_nat k) c).
Proof.
  induction files as [|file rest IH]; intros i w.
  - exists []. repeat split; [|done].
    intros results. simpl. by rewrite app_nil_r.
  - simpl. unfold processFile, try_catch, bind.
    destruct (extractTextFromImage (path file) options w) as [c w1] eqn:Hocr.
    destruct (IH (i + 1) w1) as (items & Hloop & Hlen & Hitems).
    destruct (recognitions options rest w1) as [cs w'] eqn:Hrec.
    exists (batchOutcome file i c :: items). repeat split.
    + intros results. destruct c as [r|message]; simpl; rewrite Hloop;
        by rewrite <- app_assoc.
    + simpl. by rewrite Hlen.
    + intros [|k] file' Hk; simpl in *.
      * injection Hk as <-. exists c. by rewrite Z.add_0_r.
      * destruct (Hitems k file' Hk) as (c' & Hc' & Hitem).
        exists c'. split; [done|]. rewrite Hitem. do 2 f_equal. lia.
Qed.

(** With a supported language tag the engine is called once per file, in
    the order of the files. *)
Lemma recognitions_trace options files : ∀ w,
  Forall (λ lang, lang ∈ supportedLanguages)
    (split "+"%char (languageOf options)) →
  engineCalls (recognitions options files w).2 =
    engineCalls w ++ map (λ file, (path file, languageOf options)) files.
Proof.
  intros w Hall. revert w.
  induction files as [|file rest IH]; intros w; simpl.
  - by rewrite app_nil_r.
  - rewrite (extractTextFromImage_supported _ _ _ Hall).
    match goal with
    | |- context [recognitions options rest ?w1] =>
        specialize (IH w1); destruct (recognitions options rest w1)
    end.
    simpl in *. by rewrite IH, <- app_assoc.
Qed.

(** ** Reports and their summaries *)

Lemma extractTextFromPdf_report pdfPath options w r w' :
  extractTextFromPdf pdfPath options w = (Normal r, w') →
  ∃ paths news,
    r = pdfResultOf (default "eng" (o_language options))
          (default true (o_combinePages options)) paths
          (fold_left
             (recordPdfPage (default true (o_combinePages options))
                (default true (o_includePageNumbers options)))
             news emptyLoopState)
          (s_processingTime (res_summary r)) ∧
    map pageNumber news = seqZ 1 (Z.of_nat (length paths)) ∧
    Forall wellFormedPage news.
Proof.
  intros Hrun. pose proof (extractTextFromPdf_run pdfPath options w) as Hspec.
  destruct (pdf2pic_bulk_oracle _ _ _) as [[paths|written msg] e].
  - destruct Hspec as (news & w'' & Hrun' & Hnums & Hwf & _).
    rewrite Hrun' in Hrun. injection Hrun as <- <-. by exists paths, news.
  - by rewrite Hspec in Hrun.
Qed.

Lemma extractTextFromPdfPages_report pdfPath pageNumbers options w r w' :
  extractTextFromPdfPages pdfPath pageNumbers options w = (Normal r, w') →
  ∃ paths news,
    r = pagesResultOf (default "eng" (o_language options)) pageNumbers paths
          (fold_left recordPage news emptyLoopState)
          (ps_processingTime (pr_summary r)) ∧
    map pageNumber news = pageNumbers ∧
    Forall wellFormedPage news ∧
    Forall (λ pd, carriesError pd = false →
                  1 ≤ pageNumber pd ≤ Z.of_nat (length paths)) news.
Proof.
  intros Hrun.
  pose proof (extractTextFromPdfPages_run pdfPath pageNumbers options w)
    as Hspec.
  destruct (pdf2pic_bulk_oracle _ _ _) as [[paths|written msg] e].
  - destruct Hspec as (news & w'' & Hrun' & Hnums & Hwf & Hrange & _).
    rewrite Hrun' in Hrun. injection Hrun as <- <-. by exists paths, news.
  - by rewrite Hspec in Hrun.
Qed.

(** On well-formed outcomes the truthiness of [error] is its presence, so
    the two filters of the summary split the outcomes in two. *)
Lemma counts_of_well_formed pages :
  Forall wellFormedPage pages →
  countSuccessful pages + countFailed pages = Z.of_nat (length pages) ∧
  countFailed pages = Z.of_nat (length (List.filter carriesError pages)) ∧
  countSuccessful pages = Z.of_nat (length (succeeded pages)).
Proof.
  intros Hwf. unfold countSuccessful, countFailed, succeeded.
  assert (List.filter (fun p => truthy_opt (pg_error p)) pages
          = List.filter carriesError pages) as ->.
  { apply List.filter_ext_in. intros p Hp.
    rewrite Forall_forall in Hwf. apply Hwf. by apply list_elem_of_In. }
  assert (List.filter (fun p => negb (truthy_opt (pg_error p))) pages
          = List.filter (fun p => negb (carriesError p)) pages) as ->.
  { apply List.filter_ext_in. intros p Hp.
    rewrite Forall_forall in Hwf. f_equal. apply Hwf. by apply list_elem_of_In. }
  pose proof (List.filter_length carriesError pages). lia.
Qed.

(** [batchExtract] as a whole: without files it answers 400; with files it
    answers 200 with one outcome per file, whatever the recognitions do. *)
Lemma batchExtract_run req w :
  match files req with
  | None | Some [] =>
      batchExtract req w =
        (Normal {| status := 400;
                   json := ErrorBody "No files uploaded" "NO_FILES" |}, w)
  | Some fs =>
      ∃ results summary,
        batchExtract req w =
          (Normal {| status := 200; json := BatchBody results summary |},
           (recognitions (requestOcrOptions req) fs w).2) ∧
        length results = length fs ∧
        (∀ k file, fs !! k = Some file →
           ∃ c, (recognitions (requestOcrOptions req) fs w).1 !! k = Some c ∧
                results !! k = Some (batchOutcome file (Z.of_nat k) c)) ∧
        totalFiles summary = Z.of_nat (length fs) ∧
        successfulFiles summary =
          Z.of_nat (length (List.filter success results)) ∧
        failedFiles summary = totalFiles summary - successfulFiles summary
  end.
Proof.
  unfold batchExtract, try_catch, bind, now.
  destruct (files req) as [[|file rest]|]; try done.
  destruct (processFiles_spec (requestOcrOptions req) (file :: rest) 0 w)
    as (items & Hloop & Hlen & Hitems).
  unfold requestOcrOptions in *. rewrite (Hloop []). simpl app.
  eexists items, _. split; [done|]. by repeat split.
Qed.

(** A batch outcome is a success exactly when it carries no [error]. *)
Lemma batchOutcome_success file i c :
  success (batchOutcome file i c)
  = negb (bool_decide (is_Some (error (batchOutcome file i c)))).
Proof. by destruct c. Qed.

(** C10. In every report of the document and batch pipelines the summary
    counts add up: successfulPages plus failedPages is the number of page
    outcomes, and failedPages counts the outcomes that carry an error
    field; for a batch, successfulFiles plus failedFiles is totalFiles,
    which is the number of outcomes and of input files, and failedFiles
    counts the outcomes that carry an error field. *)
Theorem summary_counts_consistent :
  (∀ pdfPath options w r w',
     extractTextFromPdf pdfPath options w = (Normal r, w') →
     s_successfulPages (res_summary r) + s_failedPages (res_summary r)
       = Z.of_nat (length (res_pages r)) ∧
     s_failedPages (res_summary r)
       = Z.of_nat (length (List.filter carriesError (res_pages r)))) ∧
  (∀ pdfPath pageNumbers options w r w',
     extractTextFromPdfPages pdfPath pageNumbers options w = (Normal r, w') →
     ps_successfulPages (pr_summary r) + ps_failedPages (pr_summary r)
       = Z.of_nat (length (pr_pages r)) ∧
     ps_failedPages (pr_summary r)
       = Z.of_nat (length (List.filter carriesError (pr_pages r)))) ∧
  (∀ req w code results summary w',
     batchExtract req w
       = (Normal {| status := code; json := BatchBody results summary |}, w') →
     ∃ fs, files req = Some fs ∧
       successfulFiles summary + failedFiles summary = totalFiles summary ∧
       totalFiles summary = Z.of_nat (length results) ∧
       totalFiles summary = Z.of_nat (length fs) ∧
       failedFiles summary = countErrors results).
Proof.
  split; [|split].
  - intros pdfPath options w r w' Hrun.
    destruct (extractTextFromPdf_report _ _ _ _ _ Hrun)
      as (paths & news & -> & _ & Hwf). simpl.
    rewrite pageResults_fold_pdf. simpl.
    by destruct (counts_of_well_formed news Hwf) as (? & ? & _).
  - intros pdfPath pageNumbers options w r w' Hrun.
    destruct (extractTextFromPdfPages_report _ _ _ _ _ _ Hrun)
      as (paths & news & -> & _ & Hwf & _). simpl.
    rewrite pageResults_fold. simpl.
    by destruct (counts_of_well_formed news Hwf) as (? & ? & _).
  - intros req w code results summary w' Hrun.
    pose proof (batchExtract_run req w) as Hspec.
    destruct (files req) as [[|file rest]|] eqn:Hfiles;
      [by rewrite Hspec in Hrun| |by rewrite Hspec in Hrun].
    destruct Hspec as (results' & summary' & Hrun' & Hlen & Hitems
                       & Htotal & Hsucc & Hfail).
    rewrite Hrun' in Hrun. injection Hrun as _ <- <- _.
    exists (file :: rest). split; [done|].
    assert (List.filter (fun r => bool_decide (is_Some (error r))) results'
            = List.filter (fun r => negb (success r)) results') as Herr.
    { apply List.filter_ext_in. intros item Hin.
      apply list_elem_of_In, list_elem_of_lookup in Hin as [k Hk].
      destruct (lookup_lt_is_Some_2 (file :: rest) k) as [file' Hfile'].
      { rewrite <- Hlen. by eapply lookup_lt_Some. }
      destruct (Hitems k file' Hfile') as (c & _ & Hitem).
      rewrite Hk in Hitem. injection Hitem as ->.
      by rewrite batchOutcome_success, negb_involutive. }
    unfold countErrors. rewrite Herr.
    pose proof (List.filter_length success results'). lia.
Qed.

(** ** The claims about reports *)

Lemma averageOver_zero n : averageOver 0%Qc n = 0%Qc.
Proof. unfold averageOver. case_bool_decide; [|done]. apply Qcmult_0_l. Qed.

Lemma length_of_page_numbers (news : list PageData) (paths : list string) :
  map pageNumber news = seqZ 1 (Z.of_nat (length paths)) →
  length news = length paths.
Proof.
  intros Hnums. apply (f_equal length) in Hnums.
  rewrite length_map, length_seqZ in Hnums. lia.
Qed.

(** C1, as the code has it. In the report of both document operations
    averageConfidence is the sum of the confidences of the successful page
    outcomes divided by the number of all page outcomes of the report,
    failed ones included, and 0 for a report without outcomes; so it is 0
    when no page succeeded. *)
Theorem averageConfidence_over_all_outcomes :
  (∀ pdfPath options w r w',
     extractTextFromPdf pdfPath options w = (Normal r, w') →
     s_averageConfidence (res_summary r) = meanOverOutcomes (res_pages r) ∧
     (succeeded (res_pages r) = [] →
      s_averageConfidence (res_summary r) = 0%Qc)) ∧
  (∀ pdfPath pageNumbers options w r w',
     extractTextFromPdfPages pdfPath pageNumbers options w = (Normal r, w') →
     ps_averageConfidence (pr_summary r) = meanOverOutcomes (pr_pages r) ∧
     (succeeded (pr_pages r) = [] →
      ps_averageConfidence (pr_summary r) = 0%Qc)).
Proof.
  split.
  - intros pdfPath options w r w' Hrun.
    destruct (extractTextFromPdf_report _ _ _ _ _ Hrun)
      as (paths & news & -> & Hnums & Hwf).
    assert (s_averageConfidence
              (res_summary
                 (pdfResultOf (default "eng" (o_language options))
                    (default true (o_combinePages options)) paths
                    (fold_left
                       (recordPdfPage (default true (o_combinePages options))
                          (default true (o_includePageNumbers options)))
                       news emptyLoopState)
                    (s_processingTime (res_summary r))))
            = meanOverOutcomes news) as Havg.
    { simpl. rewrite (totalConfidence_fold_pdf _ _ _ _ Hwf).
      by rewrite <- (length_of_page_numbers _ _ Hnums). }
    simpl res_pages. rewrite pageResults_fold_pdf. simpl app.
    split; [done|]. intros Hnone. rewrite Havg.
    unfold meanOverOutcomes. rewrite Hnone. apply averageOver_zero.
  - intros pdfPath pageNumbers options w r w' Hrun.
    destruct (extractTextFromPdfPages_report _ _ _ _ _ _ Hrun)
      as (paths & news & -> & Hnums & Hwf & _).
    assert (ps_averageConfidence
              (pr_summary
                 (pagesResultOf (default "eng" (o_language options))
                    pageNumbers paths
                    (fold_left recordPage news emptyLoopState)
                    (ps_processingTime (pr_summary r))))
            = meanOverOutcomes news) as Havg.
    { simpl. rewrite (totalConfidence_fold _ _ Hwf).
      by rewrite pageResults_fold. }
    simpl pr_pages. rewrite pageResults_fold. simpl app.
    split; [done|]. intros Hnone. rewrite Havg.
    unfold meanOverOutcomes. rewrite Hnone. apply averageOver_zero.
Qed.

(** C2, as the code has it. When combined text with page-number markers is
    requested, the combined text of the report is the trimmed
    concatenation, in document order, of one chunk per page that was
    recognised: the page's text followed by a line feed, after the marker
    [--- Page N ---] between two pairs of line feeds when the trimmed text
    of the page is not empty. A page that failed adds nothing. *)
Theorem combined_text_is_trimmed_chunks pdfPath options w r w' :
  extractTextFromPdf pdfPath options w = (Normal r, w') →
  default true (o_combinePages options) = true →
  default true (o_includePageNumbers options) = true →
  res_text r = Some (trim (combinedChunks true (res_pages r))).
Proof.
  intros Hrun Hcombine Hnumbers.
  destruct (extractTextFromPdf_report _ _ _ _ _ Hrun)
    as (paths & news & -> & _ & _).
  rewrite Hcombine, Hnumbers. simpl.
  by rewrite combinedText_fold_pdf, pageResults_fold_pdf.
Qed.

Lemma Forall_page_numbers (P : Z → Prop) (pages : list PageData) :
  Forall (λ p, P (pageNumber p)) pages ↔ Forall P (map pageNumber pages).
Proof. symmetry. apply (Forall_fmap pageNumber). Qed.

(** C7, as the code has it. In a report of extractTextFromPdf every
    pageNumber is unique and lies within [1, totalPages]. In a report of
    extractTextFromPdfPages the page numbers are those of the request:
    they are unique exactly when the request has no duplicate, they all lie
    within [1, totalPagesInPdf] exactly when the requested numbers do, and
    the pageNumber of every outcome that succeeded lies within
    [1, totalPagesInPdf]. *)
Theorem page_numbers_of_reports :
  (∀ pdfPath options w r w',
     extractTextFromPdf pdfPath options w = (Normal r, w') →
     NoDup (map pageNumber (res_pages r)) ∧
     Forall (λ p, 1 ≤ pageNumber p ≤ totalPages (res_summary r))
       (res_pages r)) ∧
  (∀ pdfPath pageNumbers options w r w',
     extractTextFromPdfPages pdfPath pageNumbers options w = (Normal r, w') →
     (NoDup (map pageNumber (pr_pages r)) ↔ NoDup pageNumbers) ∧
     (Forall (λ p, 1 ≤ pageNumber p ≤ totalPagesInPdf (pr_summary r))
        (pr_pages r) ↔
      Forall (λ n, 1 ≤ n ≤ totalPagesInPdf (pr_summary r)) pageNumbers) ∧
     Forall (λ p, carriesError p = false →
                  1 ≤ pageNumber p ≤ totalPagesInPdf (pr_summary r))
       (pr_pages r)).
Proof.
  split.
  - intros pdfPath options w r w' Hrun.
    destruct (extractTextFromPdf_report _ _ _ _ _ Hrun)
      as (paths & news & -> & Hnums & _).
    simpl. rewrite pageResults_fold_pdf. simpl. split.
    + rewrite Hnums. apply NoDup_seqZ.
    + apply (Forall_page_numbers (λ n, 1 ≤ n ≤ Z.of_nat (length paths))).
      rewrite Hnums. apply Forall_seqZ. lia.
  - intros pdfPath pageNumbers options w r w' Hrun.
    destruct (extractTextFromPdfPages_report _ _ _ _ _ _ Hrun)
      as (paths & news & -> & Hnums & _ & Hrange).
    simpl. rewrite pageResults_fold. simpl. repeat split; try done.
    + by rewrite Hnums.
    + by rewrite Hnums.
    + intros Hall.
      apply (Forall_page_numbers (λ n, 1 ≤ n ≤ Z.of_nat (length paths)))
        in Hall.
      by rewrite <- Hnums.
    + intros Hall.
      apply (Forall_page_numbers (λ n, 1 ≤ n ≤ Z.of_nat (length paths))).
      by rewrite Hnums.
Qed.

(** ** The claims about failures and cleanup *)

(** C3, as the code has it. In a document of M pages a requested page
    number N outside [1, M] yields a failure outcome for N whose message is
    exactly "Page N does not exist. PDF has M pages."; the request is not
    aborted, and the outcomes of the other requested pages, and the final
    world, are those of the same request without N. *)
Theorem out_of_range_page_fails_alone
    pdfPath options w before pageNum after paths e :
  pdf2pic_bulk_oracle pdfPath (pagesRasterRequest options w) (ext w)
    = (Converted paths, e) →
  pageNum < 1 ∨ Z.of_nat (length paths) < pageNum →
  ∃ r r0 w',
    extractTextFromPdfPages pdfPath (before ++ pageNum :: after) options w
      = (Normal r, w') ∧
    extractTextFromPdfPages pdfPath (before ++ after) options w
      = (Normal r0, w') ∧
    pr_pages r =
      take (length before) (pr_pages r0) ++
      failedPage pageNum
        (outOfRangeMessage pageNum (Z.of_nat (length paths)))
      :: drop (length before) (pr_pages r0).
Proof.
  intros Hraster Hout.
  destruct (processRequestedPages_out_of_range
              (default "eng" (o_language options))
              (default "3" (o_psm options)) (default "3" (o_oem options))
              options paths before pageNum after Hout
              (afterConversion w paths e))
    as (news1 & news2 & w1 & Hlen & Hwith & Hwithout).
  eexists _, _, _. split; [|split].
  - exact (extractTextFromPdfPages_converted _ _ _ _ _ _ _ _ Hraster
             (Hwith emptyLoopState)).
  - exact (extractTextFromPdfPages_converted _ _ _ _ _ _ _ _ Hraster
             (Hwithout emptyLoopState)).
  - simpl. rewrite !pageResults_fold. simpl.
    by rewrite take_app_length', drop_app_length'.
Qed.

(** C5, as the code has it. Whenever the rasteriser succeeds, both document
    operations return a report, whether pages fail or not, and by then
    every image the rasteriser returned has been unlinked: the files left
    are those of before and the images whose unlink failed. An image that
    may be unlinked is gone. *)
Theorem raster_images_unlinked_before_return :
  (∀ pdfPath options w paths e,
     pdf2pic_bulk_oracle pdfPath (pdfRasterRequest options w) (ext w)
       = (Converted paths, e) →
     ∃ r w',
       extractTextFromPdf pdfPath options w = (Normal r, w') ∧
       disk w' = (disk w ∪ list_to_set paths) ∖ unlinkable paths ∧
       ∀ imagePath, imagePath ∈ paths →
         unlink_permitted imagePath = true → imagePath ∉ disk w') ∧
  (∀ pdfPath pageNumbers options w paths e,
     pdf2pic_bulk_oracle pdfPath (pagesRasterRequest options w) (ext w)
       = (Converted paths, e) →
     ∃ r w',
       extractTextFromPdfPages pdfPath pageNumbers options w = (Normal r, w') ∧
       disk w' = (disk w ∪ list_to_set paths) ∖ unlinkable paths ∧
       ∀ imagePath, imagePath ∈ paths →
         unlink_permitted imagePath = true → imagePath ∉ disk w').
Proof.
  assert (∀ (paths : list string) (d : gset string) imagePath,
            imagePath ∈ paths → unlink_permitted imagePath = true →
            imagePath ∉ d ∖ unlinkable paths) as Hgone.
  { intros paths d imagePath Hin Hok [_ Hnot]%elem_of_difference.
    apply Hnot, elem_of_list_to_set, list_elem_of_In, List.filter_In.
    split; [by apply list_elem_of_In|done]. }
  split.
  - intros pdfPath options w paths e Hraster.
    pose proof (extractTextFromPdf_run pdfPath options w) as Hspec.
    rewrite Hraster in Hspec.
    destruct Hspec as (news & w' & Hrun & _ & _ & Hdisk).
    eexists _, w'. split; [done|]. split; [done|].
    rewrite Hdisk. apply Hgone.
  - intros pdfPath pageNumbers options w paths e Hraster.
    pose proof (extractTextFromPdfPages_run pdfPath pageNumbers options w)
      as Hspec.
    rewrite Hraster in Hspec.
    destruct Hspec as (news & w' & Hrun & _ & _ & _ & Hdisk).
    eexists _, w'. split; [done|]. split; [done|].
    rewrite Hdisk. apply Hgone.
Qed.

(** When the rasteriser fails, both operations throw, and what the
    rasteriser wrote before it failed is left on the disk. *)
Lemma conversion_failure_is_not_cleaned_up
    pdfPath pageNumbers options w written msg e :
  (pdf2pic_bulk_oracle pdfPath (pdfRasterRequest options w) (ext w)
     = (ConvertFailed written msg, e) →
   ∃ message w',
     extractTextFromPdf pdfPath options w = (Throw message, w') ∧
     disk w' = disk w ∪ list_to_set written) ∧
  (pdf2pic_bulk_oracle pdfPath (pagesRasterRequest options w) (ext w)
     = (ConvertFailed written msg, e) →
   ∃ message w',
     extractTextFromPdfPages pdfPath pageNumbers options w
       = (Throw message, w') ∧
     disk w' = disk w ∪ list_to_set written).
Proof.
  split; intros Hraster.
  - pose proof (extractTextFromPdf_run pdfPath options w) as Hspec.
    rewrite Hraster in Hspec. by eexists _, _.
  - pose proof (extractTextFromPdfPages_run pdfPath pageNumbers options w)
      as Hspec.
    rewrite Hraster in Hspec. by eexists _, _.
Qed.

(** C6. batchExtract handles the files one after the other in input order
    and never throws: with files it answers 200 with one outcome per file,
    the outcome at position k carries index k and is a success or a
    failure as the recognition of the k-th file alone completed, whatever
    the other recognitions did. *)
Theorem batchExtract_outcomes_in_input_order req fs w :
  files req = Some fs →
  fs ≠ [] →
  ∃ results summary,
    batchExtract req w =
      (Normal {| status := 200; json := BatchBody results summary |},
       (recognitions (requestOcrOptions req) fs w).2) ∧
    length results = length fs ∧
    ∀ k file, fs !! k = Some file →
      ∃ c, (recognitions (requestOcrOptions req) fs w).1 !! k = Some c ∧
           results !! k = Some (batchOutcome file (Z.of_nat k) c).
Proof.
  intros Hfiles Hne. pose proof (batchExtract_run req w) as Hspec.
  rewrite Hfiles in Hspec. destruct fs as [|file rest]; [done|].
  destruct Hspec as (results & summary & Hrun & Hlen & Hitems & _).
  by exists results, summary.
Qed.

(** C9. When a component of the language tag, split on [+], is not a
    supported language, extractTextFromImage fails with the
    unsupported-language error of that component and the world is as
    before: the engine was not called. When every component is supported
    the validation passes and the engine is called, once, with the image,
    the tag and the options of the request: the call completes as the
    engine answers, with the result built from its data or with its error
    behind the prefix of the service, and the trace has that one call
    more. *)
Theorem extractTextFromImage_checks_languages imagePath options w :
  (Exists (λ lang, lang ∉ supportedLanguages)
     (split "+"%char (languageOf options)) →
   ∃ bad,
     bad ∈ split "+"%char (languageOf options) ∧
     (bad ∉ supportedLanguages) ∧
     extractTextFromImage imagePath options w =
       (Throw ("OCR processing failed: Unsupported language: " +:+ bad), w)) ∧
  (Forall (λ lang, lang ∈ supportedLanguages)
     (split "+"%char (languageOf options)) →
   extractTextFromImage imagePath options w =
     (match (Tesseract_recognize_oracle imagePath (languageOf options)
               (engineRequest options) (ext w)).1 with
      | inl data => Normal (ocrResultOf data)
      | inr msg => Throw ("OCR processing failed: " +:+ msg)
      end,
      {| disk := disk w;
         engineCalls := engineCalls w ++ [(imagePath, languageOf options)];
         ext := (Tesseract_recognize_oracle imagePath (languageOf options)
                   (engineRequest options) (ext w)).2 |})).
Proof.
  split.
  - intros Hex.
    destruct (extractTextFromImage_unsupported imagePath options w Hex)
      as (before & bad & after & Hsplit & _ & Hbad & Hrun).
    exists bad. repeat split; try done. rewrite Hsplit. set_solver.
  - apply extractTextFromImage_supported.
Qed.

(** C4, what the code does. When the four include flags are omitted from a
    detailed-image request whose recognition succeeds, the response has
    none of the words, lines, paragraphs and blocks arrays: the defaults
    are the boolean [true], and only the string ['true'] includes. *)
Theorem extractDetailedText_omitted_flags req upload w result w1 :
  file req = Some upload →
  extractTextFromImage (path upload) (requestOcrOptions req) w
    = (Normal result, w1) →
  b_includeWords (body req) = JUndefined →
  b_includeLines (body req) = JUndefined →
  b_includeParagraphs (body req) = JUndefined →
  b_includeBlocks (body req) = JUndefined →
  ∃ d,
    extractDetailedText req w =
      (Normal {| status := 200; json := DetailedBody d |}, w1) ∧
    dd_text d = r_text result ∧
    dd_words d = None ∧ dd_lines d = None ∧
    dd_paragraphs d = None ∧ dd_blocks d = None.
Proof.
  intros Hfile Hocr Hwords Hlines Hparagraphs Hblocks.
  unfold extractDetailedText, try_catch, bind, now, ret.
  rewrite Hfile, Hwords, Hlines, Hparagraphs, Hblocks.
  unfold requestOcrOptions in Hocr. rewrite Hocr. simpl.
  by eexists.
Qed.

End Properties.

(** * Further properties *)

(** ** Trimming twice *)

Lemma rev_app_append (s t : string) :
  String.rev_app s t = String.rev s +:+ t.
Proof.
  unfold String.rev. revert t.
  induction s as [|c s IH]; intros t; [done|].
  simpl. rewrite (IH (String c "")), IH, append_assoc. done.
Qed.

Lemma rev_cons (c : Ascii.ascii) (s : string) :
  String.rev (String c s) = String.rev s +:+ String c "".
Proof. unfold String.rev at 1. simpl. apply rev_app_append. Qed.

Lemma rev_append (s t : string) :
  String.rev (s +:+ t) = String.rev t +:+ String.rev s.
Proof.
  induction s as [|c s IH].
  - by rewrite append_empty_r.
  - change (String.rev (String c (s +:+ t)) = String.rev t +:+ String.rev (String c s)).
    by rewrite !rev_cons, IH, append_assoc.
Qed.

Lemma rev_involutive (s : string) : String.rev (String.rev s) = s.
Proof.
  induction s as [|c s IH]; [done|].
  by rewrite rev_cons, rev_append, IH.
Qed.

Lemma trimStart_splits (s : string) :
  ∃ spaces, s = spaces +:+ trimStart s.
Proof.
  induction s as [|c s [spaces IH]]; [by exists ""|].
  simpl. destruct (is_js_space c).
  - exists (String c spaces).
    change (String c s = String c (spaces +:+ trimStart s)). by rewrite <- IH.
  - by exists "".
Qed.

Lemma trimStart_idempotent (s : string) : trimStart (trimStart s) = trimStart s.
Proof.
  induction s as [|c s IH]; [done|].
  simpl. destruct (is_js_space c) eqn:Hc; [done|]. simpl. by rewrite Hc.
Qed.

Lemma trimStart_length (s : string) :
  (String.length (trimStart s) ≤ String.length s)%nat.
Proof.
  induction s as [|c s IH]; [done|].
  simpl. destruct (is_js_space c); simpl; lia.
Qed.

Lemma startsClean_prefix (s t : string) :
  startsClean (s +:+ t) → s ≠ "" → startsClean s.
Proof.
  unfold startsClean. destruct s as [|c s]; [done|]. intros Hclean _.
  change (trimStart (String c (s +:+ t)) = String c (s +:+ t)) in Hclean.
  simpl in *. destruct (is_js_space c); [|done].
  pose proof (trimStart_length (s +:+ t)) as Hlen.
  rewrite Hclean in Hlen. simpl in Hlen. lia.
Qed.

Lemma trimEnd_splits (s : string) : ∃ spaces, s = trimEnd s +:+ spaces.
Proof.
  unfold trimEnd. destruct (trimStart_splits (String.rev s)) as [spaces Hs].
  exists (String.rev spaces).
  by rewrite <- rev_append, <- Hs, rev_involutive.
Qed.

Lemma trimEnd_idempotent (s : string) : trimEnd (trimEnd s) = trimEnd s.
Proof. unfold trimEnd. by rewrite rev_involutive, trimStart_idempotent. Qed.

Lemma trim_idempotent (s : string) : trim (trim s) = trim s.
Proof.
  unfold trim.
  assert (trimStart (trimEnd (trimStart s)) = trimEnd (trimStart s)) as ->.
  { destruct (trimEnd_splits (trimStart s)) as [spaces Hs].
    destruct (decide (trimEnd (trimStart s) = "")) as [->|Hne]; [done|].
    apply (startsClean_prefix _ spaces); [|done].
    unfold startsClean. rewrite <- Hs. apply trimStart_idempotent. }
  apply trimEnd_idempotent.
Qed.

Section MoreProperties.
Context `{Collaborators}.

(** ** The loops, outcome by outcome *)

Lemma attemptUnlink_spec p w :
  try_catch (unlinkSync p) (fun _ => ret tt) w = (Normal tt, attemptUnlink p w) ∧
  engineCalls (attemptUnlink p w) = engineCalls w ∧
  ext (attemptUnlink p w) = ext w.
Proof.
  unfold attemptUnlink.
  destruct (try_unlink_spec p w) as (w' & -> & _ & Hcalls & Hext). done.
Qed.

Lemma recordPdfPage_outcome combinePages includePageNumbers st i c :
  recordPdfPage combinePages includePageNumbers st (pageOutcomeOf (i + 1) c) =
  match c with
  | Normal pageResult =>
      {| pageResults := pageResults st ++ [successPage (i + 1) pageResult];
         combinedText :=
           if combinePages then
             (if includePageNumbers && truthy (trim (r_text pageResult))
              then combinedText st +:+
                   (LF +:+ LF +:+ "--- Page " +:+ pretty (i + 1) +:+ " ---"
                    +:+ LF +:+ LF)
              else combinedText st)
             +:+ (r_text pageResult +:+ LF)
           else combinedText st;
         totalConfidence := (totalConfidence st + r_confidence pageResult)%Qc;
         totalWords := totalWords st + Z.of_nat (length (r_words pageResult)) |}
  | Throw message =>
      {| pageResults := pageResults st ++ [failedPage (i + 1) message];
         combinedText := combinedText st;
         totalConfidence := totalConfidence st;
         totalWords := totalWords st |}
  end.
Proof.
  destruct c as [r|message]; unfold recordPdfPage, pageChunk, pageMarker; simpl.
  - f_equal. destruct combinePages; [|done]. simpl.
    destruct (includePageNumbers && truthy (trim (r_text r)));
      by rewrite ?append_assoc.
  - by rewrite andb_false_r, Qcplus_0_r, Z.add_0_r.
Qed.

Lemma processPages_exact language psm oem options combinePages
    includePageNumbers imagePaths : ∀ i st w,
  processPages language psm oem options combinePages includePageNumbers
    i imagePaths st w =
  (Normal (fold_left (recordPdfPage combinePages includePageNumbers)
             (pdfOutcomes (pageOcrOptions language psm oem options)
                i imagePaths w).1 st),
   (pdfOutcomes (pageOcrOptions language psm oem options) i imagePaths w).2).
Proof.
  induction imagePaths as [|imagePath rest IH]; intros i st w; [done|].
  simpl. unfold bind at 1. unfold processPage, bind, try_catch at 1.
  destruct (extractTextFromImage imagePath
              (pageOcrOptions language psm oem options) w) as [c w1].
  destruct (attemptUnlink_spec imagePath w1) as (Hun & _).
  specialize (IH (i + 1)).
  destruct (pdfOutcomes (pageOcrOptions language psm oem options) (i + 1) rest
              (attemptUnlink imagePath w1)) as [pds w'] eqn:Hrest.
  simpl. rewrite recordPdfPage_outcome.
  destruct c as [r|message]; simpl; rewrite Hun; simpl;
    rewrite IH, Hrest; done.
Qed.

Lemma processRequestedPages_exact language psm oem options allImagePaths
    pageNumbers : ∀ st w,
  processRequestedPages language psm oem options allImagePaths
    pageNumbers st w =
  (Normal (fold_left recordPage
             (requestedOutcomes (pageOcrOptions language psm oem options)
                allImagePaths pageNumbers w).1 st),
   (requestedOutcomes (pageOcrOptions language psm oem options)
      allImagePaths pageNumbers w).2).
Proof.
  induction pageNumbers as [|pageNum rest IH]; intros st w; [done|].
  simpl. unfold bind at 1, processRequestedPage, inRange.
  destruct (bool_decide (pageNum - 1 < 0)
            || bool_decide (pageNum - 1 >= Z.of_nat (length allImagePaths)))
    eqn:Hguard.
  - rewrite bool_decide_eq_false_2.
    2:{ apply orb_true_iff in Hguard as [Hg|Hg];
          apply bool_decide_eq_true in Hg; lia. }
    unfold ret at 1. rewrite IH.
    destruct (requestedOutcomes _ allImagePaths rest w) as [pds w']. simpl.
    unfold recordPage, outOfRangeMessage. simpl.
    by rewrite Qcplus_0_r, Z.add_0_r.
  - apply orb_false_iff in Hguard as [Hlo Hhi].
    apply bool_decide_eq_false in Hlo, Hhi.
    rewrite bool_decide_eq_true_2 by lia.
    unfold try_catch, bind, imageOf.
    destruct (extractTextFromImage _ _ w) as [c w1].
    destruct c as [r|message]; unfold ret at 1; rewrite IH;
      destruct (requestedOutcomes _ allImagePaths rest w1) as [pds w']; simpl;
      [done|].
    unfold recordPage. simpl. by rewrite Qcplus_0_r, Z.add_0_r.
Qed.

(** ** Runs with their exact outcomes *)

Lemma extractTextFromPdf_exact pdfPath options w paths e :
  pdf2pic_bulk_oracle pdfPath (pdfRasterRequest options w) (ext w)
    = (Converted paths, e) →
  extractTextFromPdf pdfPath options w =
    (Normal
       (pdfResultOf (default "eng" (o_language options))
          (default true (o_combinePages options)) paths
          (fold_left
             (recordPdfPage (default true (o_combinePages options))
                (default true (o_includePageNumbers options)))
             (pdfOutcomes (pdfOcrOptions options) 0 paths
                (afterConversion w paths e)).1 emptyLoopState)
          (Date_now
             (ext (pdfOutcomes (pdfOcrOptions options) 0 paths
                     (afterConversion w paths e)).2)
           - Date_now (ext w))),
     (pdfOutcomes (pdfOcrOptions options) 0 paths
        (afterConversion w paths e)).2).
Proof.
  intros Hraster.
  pose proof (convertPdfToImages_run pdfPath
                (conversionOptions (default 300 (o_density options))
                   ("pdf_page_" +:+ pretty (Date_now (ext w)))) w) as Hconv.
  fold (pdfRasterRequest options w) in Hconv. rewrite Hraster in Hconv.
  unfold extractTextFromPdf, try_catch, bind, now, ret. simpl.
  by rewrite Hconv, processPages_exact.
Qed.

Lemma extractTextFromPdfPages_exact pdfPath pageNumbers options w paths e :
  pdf2pic_bulk_oracle pdfPath (pagesRasterRequest options w) (ext w)
    = (Converted paths, e) →
  extractTextFromPdfPages pdfPath pageNumbers options w =
    (Normal
       (pagesResultOf (default "eng" (o_language options)) pageNumbers paths
          (fold_left recordPage
             (requestedOutcomes (pdfOcrOptions options) paths pageNumbers
                (afterConversion w paths e)).1 emptyLoopState)
          (Date_now
             (ext (requestedOutcomes (pdfOcrOptions options) paths pageNumbers
                     (afterConversion w paths e)).2)
           - Date_now (ext w))),
     (cleanupImages paths
        (requestedOutcomes (pdfOcrOptions options) paths pageNumbers
           (afterConversion w paths e)).2).2).
Proof.
  intros Hraster.
  apply (extractTextFromPdfPages_converted _ _ _ _ _ _ _ _ Hraster).
  apply processRequestedPages_exact.
Qed.

(** ** The trace of engine calls *)

Lemma validateLanguages_always_fails languages :
  ¬ Forall (λ lang, lang ∈ supportedLanguages) languages →
  ∃ bad,
    bad ∈ languages ∧
    (bad ∉ supportedLanguages) ∧
    ∀ w, validateLanguages languages w =
           (Throw ("Unsupported language: " +:+ bad), w).
Proof.
  induction languages as [|lang rest IH]; intros Hnot.
  - by destruct Hnot.
  - simpl. case_bool_decide as Hin.
    + destruct IH as (bad & Hbad & Hnotin & Hrun).
      { intros Hall. apply Hnot. by constructor. }
      exists bad. split; [by right|done].
    + exists lang. split; [by left|done].
Qed.

(** With an unsupported component in the tag every recognition fails in
    the same way, whatever the image and the world, and leaves the world
    as it is. *)
Lemma unsupported_language_always_fails options :
  ¬ supportedTag (languageOf options) →
  ∃ bad,
    bad ∈ split "+"%char (languageOf options) ∧
    (bad ∉ supportedLanguages) ∧
    ∀ imagePath w,
      extractTextFromImage imagePath options w =
        (Throw ("OCR processing failed: Unsupported language: " +:+ bad), w).
Proof.
  intros Hnot.
  destruct (validateLanguages_always_fails _ Hnot)
    as (bad & Hbad & Hnotin & Hrun).
  exists bad. repeat split; try done. intros imagePath w.
  unfold extractTextFromImage, try_catch, bind.
  unfold languageOf in Hrun. by rewrite Hrun.
Qed.

Lemma pdfOutcomes_trace options imagePaths : ∀ i w,
  supportedTag (languageOf options) →
  engineCalls (pdfOutcomes options i imagePaths w).2 =
    engineCalls w ++ map (λ imagePath, (imagePath, languageOf options))
                       imagePaths.
Proof.
  induction imagePaths as [|imagePath rest IH]; intros i w Hall; simpl.
  - by rewrite app_nil_r.
  - rewrite (extractTextFromImage_supported _ _ _ Hall).
    specialize (IH (i + 1)).
    match goal with
    | |- context [pdfOutcomes options (i + 1) rest ?w1] =>
        specialize (IH w1 Hall);
        destruct (pdfOutcomes options (i + 1) rest w1)
    end.
    simpl in *. rewrite IH.
    destruct (attemptUnlink_spec imagePath
                {| disk := disk w;
                   engineCalls := engineCalls w ++ [(imagePath, languageOf options)];
                   ext := (Tesseract_recognize_oracle imagePath
                             (languageOf options) (engineRequest options)
                             (ext w)).2 |}) as (_ & -> & _).
    simpl. by rewrite <- app_assoc.
Qed.

Lemma pdfOutcomes_unsupported options bad imagePaths : ∀ i w,
  (∀ imagePath w,
     extractTextFromImage imagePath options w =
       (Throw ("OCR processing failed: Unsupported language: " +:+ bad), w)) →
  (pdfOutcomes options i imagePaths w).1 =
    map (λ n, failedPage n
                ("OCR processing failed: Unsupported language: " +:+ bad))
      (seqZ (i + 1) (Z.of_nat (length imagePaths))) ∧
  engineCalls (pdfOutcomes options i imagePaths w).2 = engineCalls w ∧
  ext (pdfOutcomes options i imagePaths w).2 = ext w.
Proof.
  intros i w Hfail. revert i w.
  induction imagePaths as [|imagePath rest IH]; intros i w; [done|].
  simpl pdfOutcomes. rewrite Hfail.
  destruct (attemptUnlink_spec imagePath w) as (_ & Hcalls & Hext).
  specialize (IH (i + 1) (attemptUnlink imagePath w)).
  destruct (pdfOutcomes options (i + 1) rest (attemptUnlink imagePath w))
    as [pds w'].
  simpl in *. destruct IH as (-> & -> & ->). repeat split; try done.
  rewrite (seqZ_cons (i + 1) (Z.of_nat (S (length rest)))) by lia.
  simpl. do 3 f_equal; lia.
Qed.

Lemma requestedOutcomes_trace options allImagePaths pageNumbers : ∀ w,
  supportedTag (languageOf options) →
  engineCalls (requestedOutcomes options allImagePaths pageNumbers w).2 =
    engineCalls w ++
    map (λ pageNum, (imageOf allImagePaths pageNum, languageOf options))
      (List.filter (inRange (Z.of_nat (length allImagePaths))) pageNumbers).
Proof.
  induction pageNumbers as [|pageNum rest IH]; intros w Hall; simpl.
  - by rewrite app_nil_r.
  - destruct (inRange (Z.of_nat (length allImagePaths)) pageNum).
    + rewrite (extractTextFromImage_supported _ _ _ Hall).
      match goal with
      | |- context [requestedOutcomes options allImagePaths rest ?w1] =>
          specialize (IH w1 Hall);
          destruct (requestedOutcomes options allImagePaths rest w1)
      end.
      simpl in *. by rewrite IH, <- app_assoc.
    + specialize (IH w Hall).
      by destruct (requestedOutcomes options allImagePaths rest w).
Qed.

Lemma cleanupImages_trace paths w :
  engineCalls (cleanupImages paths w).2 = engineCalls w ∧
  ext (cleanupImages paths w).2 = ext w ∧
  disk (cleanupImages paths w).2 = disk w ∖ unlinkable paths.
Proof.
  destruct (cleanupImages_spec paths w) as (w' & -> & Hdisk & Hcalls & Hext).
  done.
Qed.

(** X1. When the rasteriser succeeds and the language tag is supported,
    extractTextFromPdf calls the engine exactly once per page image, in page
    order, each time with the language tag of the request. *)
Theorem extractTextFromPdf_calls_engine_per_page pdfPath options w paths e :
  pdf2pic_bulk_oracle pdfPath (pdfRasterRequest options w) (ext w)
    = (Converted paths, e) →
  supportedTag (default "eng" (o_language options)) →
  ∃ r w',
    extractTextFromPdf pdfPath options w = (Normal r, w') ∧
    engineCalls w' =
      engineCalls w ++
      map (λ imagePath, (imagePath, default "eng" (o_language options))) paths.
Proof.
  intros Hraster Hall. eexists _, _.
  split; [exact (extractTextFromPdf_exact _ _ _ _ _ Hraster)|].
  by rewrite (pdfOutcomes_trace (pdfOcrOptions options)).
Qed.

(** X2. When the rasteriser succeeds and the language tag is supported,
    extractTextFromPdfPages calls the engine once per requested page
    number that lies in the document, in the order of the request and
    again for a repeated number, on the image of that page; a number out of
    range causes no call. *)
Theorem extractTextFromPdfPages_calls_engine_per_request
    pdfPath pageNumbers options w paths e :
  pdf2pic_bulk_oracle pdfPath (pagesRasterRequest options w) (ext w)
    = (Converted paths, e) →
  supportedTag (default "eng" (o_language options)) →
  ∃ r w',
    extractTextFromPdfPages pdfPath pageNumbers options w = (Normal r, w') ∧
    engineCalls w' =
      engineCalls w ++
      map (λ pageNum,
             (imageOf paths pageNum, default "eng" (o_language options)))
        (List.filter (inRange (Z.of_nat (length paths))) pageNumbers).
Proof.
  intros Hraster Hall. eexists _, _.
  split; [exact (extractTextFromPdfPages_exact _ _ _ _ _ _ Hraster)|].
  destruct (cleanupImages_trace paths
              (requestedOutcomes (pdfOcrOptions options) paths pageNumbers
                 (afterConversion w paths e)).2) as (-> & _).
  by rewrite (requestedOutcomes_trace (pdfOcrOptions options)).
Qed.

(** ** Facts that hold of every recorded outcome *)

Lemma pdfOutcomes_Forall (P : PageData → Prop) options :
  (∀ n imagePath w r w',
     extractTextFromImage imagePath options w = (Normal r, w') →
     P (successPage n r)) →
  (∀ n message, P (failedPage n message)) →
  ∀ imagePaths i w, Forall P (pdfOutcomes options i imagePaths w).1.
Proof.
  intros Hsuccess Hfailed.
  induction imagePaths as [|imagePath rest IH]; intros i w; simpl; [done|].
  destruct (extractTextFromImage imagePath options w) as [c w1] eqn:Hocr.
  specialize (IH (i + 1) (attemptUnlink imagePath w1)).
  destruct (pdfOutcomes options (i + 1) rest (attemptUnlink imagePath w1)).
  simpl in *. constructor; [|done].
  destruct c as [r|message]; simpl; eauto.
Qed.

Lemma requestedOutcomes_Forall (P : PageData → Prop) options allImagePaths :
  (∀ n imagePath w r w',
     extractTextFromImage imagePath options w = (Normal r, w') →
     P (successPage n r)) →
  (∀ n message, P (failedPage n message)) →
  ∀ pageNumbers w,
    Forall P (requestedOutcomes options allImagePaths pageNumbers w).1.
Proof.
  intros Hsuccess Hfailed.
  induction pageNumbers as [|pageNum rest IH]; intros w; simpl; [done|].
  destruct (inRange (Z.of_nat (length allImagePaths)) pageNum).
  - destruct (extractTextFromImage (imageOf allImagePaths pageNum) options w)
      as [c w1] eqn:Hocr.
    specialize (IH w1).
    destruct (requestedOutcomes options allImagePaths rest w1).
    simpl in *. constructor; [|done].
    destruct c as [r|message]; simpl; eauto.
  - specialize (IH w).
    destruct (requestedOutcomes options allImagePaths rest w).
    simpl in *. by constructor.
Qed.

(** A report of each operation, read back as the outcomes of its loop. *)
Lemma extractTextFromPdf_outcomes pdfPath options w r w' :
  extractTextFromPdf pdfPath options w = (Normal r, w') →
  ∃ paths e,
    pdf2pic_bulk_oracle pdfPath (pdfRasterRequest options w) (ext w)
      = (Converted paths, e) ∧
    res_pages r =
      (pdfOutcomes (pdfOcrOptions options) 0 paths
         (afterConversion w paths e)).1 ∧
    s_totalWords (res_summary r) =
      totalWords
        (fold_left
           (recordPdfPage (default true (o_combinePages options))
              (default true (o_includePageNumbers options)))
           (res_pages r) emptyLoopState) ∧
    res_text r =
      (if default true (o_combinePages options)
       then Some (trim (combinedText
                          (fold_left
                             (recordPdfPage true
                                (default true (o_includePageNumbers options)))
                             (res_pages r) emptyLoopState)))
       else None).
Proof.
  intros Hrun.
  destruct (pdf2pic_bulk_oracle pdfPath (pdfRasterRequest options w) (ext w))
    as [[paths|written msg] e] eqn:Hraster.
  - rewrite (extractTextFromPdf_exact _ _ _ _ _ Hraster) in Hrun.
    injection Hrun as <- <-. exists paths, e. simpl.
    rewrite pageResults_fold_pdf. simpl.
    by destruct (default true (o_combinePages options)).
  - pose proof (extractTextFromPdf_run pdfPath options w) as Hspec.
    rewrite Hraster in Hspec. by rewrite Hspec in Hrun.
Qed.

Lemma extractTextFromPdfPages_outcomes pdfPath pageNumbers options w r w' :
  extractTextFromPdfPages pdfPath pageNumbers options w = (Normal r, w') →
  ∃ paths e,
    pdf2pic_bulk_oracle pdfPath (pagesRasterRequest options w) (ext w)
      = (Converted paths, e) ∧
    pr_pages r =
      (requestedOutcomes (pdfOcrOptions options) paths pageNumbers
         (afterConversion w paths e)).1 ∧
    ps_totalWords (pr_summary r) =
      totalWords (fold_left recordPage (pr_pages r) emptyLoopState).
Proof.
  intros Hrun.
  destruct (pdf2pic_bulk_oracle pdfPath (pagesRasterRequest options w) (ext w))
    as [[paths|written msg] e] eqn:Hraster.
  - rewrite (extractTextFromPdfPages_exact _ _ _ _ _ _ Hraster) in Hrun.
    injection Hrun as <- <-. exists paths, e. simpl.
    by rewrite pageResults_fold.
  - pose proof (extractTextFromPdfPages_run pdfPath pageNumbers options w)
      as Hspec.
    rewrite Hraster in Hspec. by rewrite Hspec in Hrun.
Qed.

(** ** The outcomes, position by position *)

Lemma requestedOutcomes_cons options allImagePaths pageNum rest w :
  requestedOutcomes options allImagePaths (pageNum :: rest) w =
    if inRange (Z.of_nat (length allImagePaths)) pageNum then
      let run := extractTextFromImage (imageOf allImagePaths pageNum) options w in
      (pageOutcomeOf pageNum run.1
         :: (requestedOutcomes options allImagePaths rest run.2).1,
       (requestedOutcomes options allImagePaths rest run.2).2)
    else
      (failedPage pageNum
         (outOfRangeMessage pageNum (Z.of_nat (length allImagePaths)))
         :: (requestedOutcomes options allImagePaths rest w).1,
       (requestedOutcomes options allImagePaths rest w).2).
Proof.
  simpl. destruct (inRange _ pageNum).
  - destruct (extractTextFromImage _ options w) as [c w1]. simpl.
    by destruct (requestedOutcomes options allImagePaths rest w1).
  - by destruct (requestedOutcomes options allImagePaths rest w).
Qed.

Lemma pdfOutcomes_cons options i imagePath rest w :
  pdfOutcomes options i (imagePath :: rest) w =
    let run := extractTextFromImage imagePath options w in
    let w1 := attemptUnlink imagePath run.2 in
    (pageOutcomeOf (i + 1) run.1 :: (pdfOutcomes options (i + 1) rest w1).1,
     (pdfOutcomes options (i + 1) rest w1).2).
Proof.
  simpl. destruct (extractTextFromImage imagePath options w) as [c w1]. simpl.
  by destruct (pdfOutcomes options (i + 1) rest (attemptUnlink imagePath w1)).
Qed.

(** The outcome at position [k] of the page-subset loop is that of the
    [k]-th requested number: the failure record of a number out of range,
    or else the outcome of the recognition of that page's image, run in the
    world the first [k] requests left. *)
Lemma requestedOutcomes_lookup options allImagePaths pageNumbers :
  ∀ w k pageNum,
    pageNumbers !! k = Some pageNum →
    (requestedOutcomes options allImagePaths pageNumbers w).1 !! k =
      Some
        (if inRange (Z.of_nat (length allImagePaths)) pageNum then
           pageOutcomeOf pageNum
             (extractTextFromImage (imageOf allImagePaths pageNum) options
                (requestedOutcomes options allImagePaths
                   (take k pageNumbers) w).2).1
         else
           failedPage pageNum
             (outOfRangeMessage pageNum (Z.of_nat (length allImagePaths)))).
Proof.
  induction pageNumbers as [|first rest IH]; intros w k pageNum Hk; [done|].
  destruct k as [|k].
  - injection Hk as ->. rewrite requestedOutcomes_cons. simpl take.
    by destruct (inRange _ pageNum).
  - change ((first :: rest) !! S k) with (rest !! k) in Hk.
    change (take (S k) (first :: rest)) with (first :: take k rest).
    rewrite !requestedOutcomes_cons.
    destruct (inRange _ first); simpl; by rewrite (IH _ _ _ Hk).
Qed.

Lemma requestedOutcomes_numbers options allImagePaths pageNumbers : ∀ w,
  map pageNumber (requestedOutcomes options allImagePaths pageNumbers w).1
  = pageNumbers.
Proof.
  induction pageNumbers as [|first rest IH]; intros w; [done|].
  rewrite requestedOutcomes_cons.
  destruct (inRange _ first); simpl; rewrite IH; [|done].
  by destruct (extractTextFromImage _ options w).1.
Qed.

(** The outcome at position [k] of the whole-document loop is that of the
    recognition of the [k]-th image, run in the world the first [k] turns
    left, under the page number [k + 1]. *)
Lemma pdfOutcomes_lookup options imagePaths : ∀ i w k imagePath,
  imagePaths !! k = Some imagePath →
  (pdfOutcomes options i imagePaths w).1 !! k =
    Some (pageOutcomeOf (i + Z.of_nat k + 1)
            (extractTextFromImage imagePath options
               (pdfOutcomes options i (take k imagePaths) w).2).1).
Proof.
  induction imagePaths as [|first rest IH]; intros i w k imagePath Hk; [done|].
  destruct k as [|k].
  - injection Hk as ->. rewrite pdfOutcomes_cons. simpl.
    by rewrite Z.add_0_r.
  - change ((first :: rest) !! S k) with (rest !! k) in Hk.
    change (take (S k) (first :: rest)) with (first :: take k rest).
    rewrite !pdfOutcomes_cons. simpl. rewrite (IH _ _ _ _ Hk).
    do 3 f_equal. lia.
Qed.

Lemma pdfOutcomes_numbers options imagePaths : ∀ i w,
  map pageNumber (pdfOutcomes options i imagePaths w).1
  = seqZ (i + 1) (Z.of_nat (length imagePaths)).
Proof.
  induction imagePaths as [|first rest IH]; intros i w; [done|].
  rewrite pdfOutcomes_cons. simpl map. rewrite IH.
  rewrite (seqZ_cons (i + 1) (Z.of_nat (length (first :: rest))))
    by (simpl length; lia).
  f_equal.
  - by destruct (extractTextFromImage first options w).1.
  - f_equal; simpl length; lia.
Qed.

(** C8. Whenever the rasteriser returns the images of a document,
    extractTextFromPdfPages returns a report whose outcomes follow the
    requested list: one outcome per occurrence, in the caller's order,
    duplicates included. The outcome at position k carries the k-th
    requested number N and is the failure record of N when N is out of
    range, and otherwise the outcome of the recognition of the image of
    page N, run after the k requests before it. The outcomes of
    extractTextFromPdf are in document order: the outcome at position k
    carries pageNumber k + 1 and is the outcome of the recognition of the
    k-th image the rasteriser returned, so the page numbers are
    1, 2, ... totalPages, the number of those images. *)
Theorem outcomes_follow_requested_order :
  (∀ pdfPath pageNumbers options w paths e,
     pdf2pic_bulk_oracle pdfPath (pagesRasterRequest options w) (ext w)
       = (Converted paths, e) →
     ∃ r w',
       extractTextFromPdfPages pdfPath pageNumbers options w = (Normal r, w') ∧
       pr_pages r =
         (requestedOutcomes (pdfOcrOptions options) paths pageNumbers
            (afterConversion w paths e)).1 ∧
       map pageNumber (pr_pages r) = pageNumbers ∧
       ∀ k pageNum,
         pageNumbers !! k = Some pageNum →
         pr_pages r !! k =
           Some
             (if inRange (Z.of_nat (length paths)) pageNum then
                pageOutcomeOf pageNum
                  (extractTextFromImage (imageOf paths pageNum)
                     (pdfOcrOptions options)
                     (requestedOutcomes (pdfOcrOptions options) paths
                        (take k pageNumbers) (afterConversion w paths e)).2).1
              else
                failedPage pageNum
                  (outOfRangeMessage pageNum (Z.of_nat (length paths))))) ∧
  (∀ pdfPath options w paths e,
     pdf2pic_bulk_oracle pdfPath (pdfRasterRequest options w) (ext w)
       = (Converted paths, e) →
     ∃ r w',
       extractTextFromPdf pdfPath options w = (Normal r, w') ∧
       res_pages r =
         (pdfOutcomes (pdfOcrOptions options) 0 paths
            (afterConversion w paths e)).1 ∧
       totalPages (res_summary r) = Z.of_nat (length paths) ∧
       map pageNumber (res_pages r) = seqZ 1 (totalPages (res_summary r)) ∧
       ∀ k imagePath,
         paths !! k = Some imagePath →
         res_pages r !! k =
           Some (pageOutcomeOf (Z.of_nat k + 1)
                   (extractTextFromImage imagePath (pdfOcrOptions options)
                      (pdfOutcomes (pdfOcrOptions options) 0 (take k paths)
                         (afterConversion w paths e)).2).1)).
Proof.
  split.
  - intros pdfPath pageNumbers options w paths e Hraster.
    eexists _, _.
    split; [exact (extractTextFromPdfPages_exact _ _ _ _ _ _ Hraster)|].
    cbn [pr_pages pagesResultOf]. rewrite pageResults_fold.
    cbn [pageResults emptyLoopState app].
    split; [done|]. split; [apply requestedOutcomes_numbers|].
    apply requestedOutcomes_lookup.
  - intros pdfPath options w paths e Hraster.
    eexists _, _.
    split; [exact (extractTextFromPdf_exact _ _ _ _ _ Hraster)|].
    cbn [res_pages res_summary totalPages pdfResultOf].
    rewrite pageResults_fold_pdf. cbn [pageResults emptyLoopState app].
    split; [done|]. split; [done|]. split; [apply pdfOutcomes_numbers|].
    intros k imagePath Hk.
    by rewrite (pdfOutcomes_lookup _ _ _ _ _ _ Hk), Z.add_0_l.
Qed.

Lemma totalWords_fold_pdf combinePages includePageNumbers news : ∀ st,
  totalWords
    (fold_left (recordPdfPage combinePages includePageNumbers) news st)
  = fold_left (fun acc p => acc + wordCount p) news (totalWords st).
Proof. induction news as [|pd news IH]; intros st; simpl; [done|by rewrite IH]. Qed.

Lemma totalWords_fold news : ∀ st,
  totalWords (fold_left recordPage news st)
  = fold_left (fun acc p => acc + wordCount p) news (totalWords st).
Proof. induction news as [|pd news IH]; intros st; simpl; [done|by rewrite IH]. Qed.

(** X3. In the report of both document operations totalWords is the sum of
    the wordCount of the page outcomes, and the wordCount and lineCount of
    every outcome are the numbers of its words and lines (0 for a page
    that failed, which carries neither). *)
Theorem totalWords_is_sum_of_word_counts :
  (∀ pdfPath options w r w',
     extractTextFromPdf pdfPath options w = (Normal r, w') →
     s_totalWords (res_summary r) = sumWords (res_pages r) ∧
     Forall countsItsWords (res_pages r)) ∧
  (∀ pdfPath pageNumbers options w r w',
     extractTextFromPdfPages pdfPath pageNumbers options w = (Normal r, w') →
     ps_totalWords (pr_summary r) = sumWords (pr_pages r) ∧
     Forall countsItsWords (pr_pages r)).
Proof.
  split.
  - intros pdfPath options w r w' Hrun.
    destruct (extractTextFromPdf_outcomes _ _ _ _ _ Hrun)
      as (paths & e & _ & Hpages & Hwords & _).
    split; [by rewrite Hwords, totalWords_fold_pdf|].
    rewrite Hpages. by apply pdfOutcomes_Forall.
  - intros pdfPath pageNumbers options w r w' Hrun.
    destruct (extractTextFromPdfPages_outcomes _ _ _ _ _ _ Hrun)
      as (paths & e & _ & Hpages & Hwords).
    split; [by rewrite Hwords, totalWords_fold|].
    rewrite Hpages. by apply requestedOutcomes_Forall.
Qed.

Lemma extractTextFromImage_result imagePath options w r w' :
  extractTextFromImage imagePath options w = (Normal r, w') →
  ∃ data, r = ocrResultOf data.
Proof.
  intros Hrun.
  destruct (decide (supportedTag (languageOf options))) as [Hall|Hnot].
  - rewrite (extractTextFromImage_supported _ _ _ Hall) in Hrun.
    destruct (Tesseract_recognize_oracle _ _ _ _).1 as [data|msg]; [|done].
    injection Hrun as <- _. by exists data.
  - destruct (unsupported_language_always_fails _ Hnot) as (bad & _ & _ & Hfail).
    by rewrite Hfail in Hrun.
Qed.

(** X4. The text of a recognition is trimmed: trimming it again changes
    nothing. So is the text of every page outcome of both document
    operations, and the combined text of extractTextFromPdf. *)
Theorem recognised_text_is_trimmed :
  (∀ imagePath options w r w',
     extractTextFromImage imagePath options w = (Normal r, w') →
     trimmed (r_text r)) ∧
  (∀ pdfPath options w r w',
     extractTextFromPdf pdfPath options w = (Normal r, w') →
     Forall (λ p, trimmed (pg_text p)) (res_pages r) ∧
     ∀ text, res_text r = Some text → trimmed text) ∧
  (∀ pdfPath pageNumbers options w r w',
     extractTextFromPdfPages pdfPath pageNumbers options w = (Normal r, w') →
     Forall (λ p, trimmed (pg_text p)) (pr_pages r)).
Proof.
  assert (∀ imagePath options w r w',
            extractTextFromImage imagePath options w = (Normal r, w') →
            trimmed (r_text r)) as Hocr.
  { intros imagePath options w r w' Hrun.
    destruct (extractTextFromImage_result _ _ _ _ _ Hrun) as [data ->].
    apply trim_idempotent. }
  split; [done|]. split.
  - intros pdfPath options w r w' Hrun.
    destruct (extractTextFromPdf_outcomes _ _ _ _ _ Hrun)
      as (paths & e & _ & Hpages & _ & Htext).
    split.
    + rewrite Hpages. apply pdfOutcomes_Forall; [|done].
      intros n imagePath w0 r0 w0' Hrun0. by apply (Hocr _ _ _ _ _ Hrun0).
    + intros text Hsome. rewrite Htext in Hsome.
      destruct (default true (o_combinePages options)); [|done].
      injection Hsome as <-. apply trim_idempotent.
  - intros pdfPath pageNumbers options w r w' Hrun.
    destruct (extractTextFromPdfPages_outcomes _ _ _ _ _ _ Hrun)
      as (paths & e & _ & Hpages & _).
    rewrite Hpages. apply requestedOutcomes_Forall; [|done].
    intros n imagePath w0 r0 w0' Hrun0. by apply (Hocr _ _ _ _ _ Hrun0).
Qed.

Lemma all_failed_counts (message : string) (numbers : list Z) :
  truthy message = true →
  let pages := map (λ n, failedPage n message) numbers in
  succeeded pages = [] ∧
  countSuccessful pages = 0 ∧
  countFailed pages = Z.of_nat (length numbers) ∧
  Forall wellFormedPage pages.
Proof.
  intros Htruthy. simpl.
  induction numbers as [|n numbers (Hnone & Hsucc & Hfail & Hwf)]; [done|].
  unfold countSuccessful, countFailed in *. simpl.
  rewrite Htruthy. simpl. repeat split; try done.
  - rewrite Nat2Z.inj_succ. lia.
  - constructor; [|done]. by split; simpl.
Qed.

(** X5. A language tag with an unsupported component does not make
    extractTextFromPdf fail: the document is rasterised all the same, and
    the report has one failed outcome per page, each with the
    unsupported-language message of the same component, no successful page
    and an averageConfidence of 0. The engine is never called. *)
Theorem extractTextFromPdf_with_unsupported_language
    pdfPath options w paths e :
  pdf2pic_bulk_oracle pdfPath (pdfRasterRequest options w) (ext w)
    = (Converted paths, e) →
  ¬ supportedTag (default "eng" (o_language options)) →
  ∃ bad r w',
    bad ∈ split "+"%char (default "eng" (o_language options)) ∧
    (bad ∉ supportedLanguages) ∧
    extractTextFromPdf pdfPath options w = (Normal r, w') ∧
    res_pages r =
      map (λ n, failedPage n (unsupportedMessage bad))
        (seqZ 1 (Z.of_nat (length paths))) ∧
    s_successfulPages (res_summary r) = 0 ∧
    s_failedPages (res_summary r) = Z.of_nat (length paths) ∧
    s_averageConfidence (res_summary r) = 0%Qc ∧
    engineCalls w' = engineCalls w.
Proof.
  intros Hraster Hnot.
  destruct (unsupported_language_always_fails (pdfOcrOptions options) Hnot)
    as (bad & Hbad & Hnotin & Hfail).
  destruct (pdfOutcomes_unsupported (pdfOcrOptions options) bad paths 0
              (afterConversion w paths e) Hfail) as (Hpages & Hcalls & _).
  destruct (all_failed_counts (unsupportedMessage bad)
              (seqZ 1 (Z.of_nat (length paths))) eq_refl)
    as (Hnone & Hsucc & Hfailed & Hwf).
  exists bad. eexists _, _. split; [done|]. split; [done|].
  split; [exact (extractTextFromPdf_exact _ _ _ _ _ Hraster)|].
  fold (unsupportedMessage bad) in Hpages.
  change (0 + 1) with 1 in Hpages. rewrite Hpages.
  unfold pdfResultOf.
  cbn [res_pages res_summary s_successfulPages s_failedPages
       s_averageConfidence].
  rewrite pageResults_fold_pdf.
  cbn [pageResults emptyLoopState app].
  rewrite Hsucc, Hfailed, length_seqZ.
  rewrite (totalConfidence_fold_pdf _ _ _ _ Hwf), Hnone.
  repeat split; try done; [lia|apply averageOver_zero].
Qed.

(** X6. The text of the report of extractTextFromPdf follows the two
    options: it is null when combinePages is false; when combinePages is
    true and includePageNumbers is false it is the trimmed concatenation of
    the texts of the recognised pages, each followed by a line feed, with
    no marker at all. *)
Theorem combined_text_follows_options pdfPath options w r w' :
  extractTextFromPdf pdfPath options w = (Normal r, w') →
  (o_combinePages options = Some false → res_text r = None) ∧
  (default true (o_combinePages options) = true →
   o_includePageNumbers options = Some false →
   res_text r = Some (trim (plainChunks (res_pages r)))).
Proof.
  intros Hrun.
  destruct (extractTextFromPdf_outcomes _ _ _ _ _ Hrun)
    as (paths & e & _ & _ & _ & Htext).
  split.
  - intros Hoff. by rewrite Htext, Hoff.
  - intros Hon Hoff. rewrite Htext, Hon, Hoff. simpl.
    by rewrite combinedText_fold_pdf.
Qed.

(** X7. Both document operations leave every file but the rasterised
    images alone: a path that is not one of the images is on the disk after
    the run exactly when it was before. *)
Theorem other_files_are_left_alone :
  (∀ pdfPath options w paths e r w',
     pdf2pic_bulk_oracle pdfPath (pdfRasterRequest options w) (ext w)
       = (Converted paths, e) →
     extractTextFromPdf pdfPath options w = (Normal r, w') →
     ∀ p, p ∉ paths → (p ∈ disk w' ↔ p ∈ disk w)) ∧
  (∀ pdfPath pageNumbers options w paths e r w',
     pdf2pic_bulk_oracle pdfPath (pagesRasterRequest options w) (ext w)
       = (Converted paths, e) →
     extractTextFromPdfPages pdfPath pageNumbers options w = (Normal r, w') →
     ∀ p, p ∉ paths → (p ∈ disk w' ↔ p ∈ disk w)).
Proof.
  assert (∀ (d : gset string) (paths : list string) p,
            p ∉ paths →
            (p ∈ (d ∪ list_to_set paths) ∖ unlinkable paths ↔ p ∈ d))
    as Hframe.
  { intros d paths p Hp. unfold unlinkable. split.
    - intros [Hin _]%elem_of_difference.
      apply elem_of_union in Hin as [Hin|Hin]; [done|].
      by apply elem_of_list_to_set in Hin.
    - intros Hin. apply elem_of_difference. split; [set_solver|].
      intros Hun%elem_of_list_to_set.
      by apply list_elem_of_In, List.filter_In in Hun
        as [Hun%list_elem_of_In _]. }
  split.
  - intros pdfPath options w paths e r w' Hraster Hrun p Hp.
    pose proof (extractTextFromPdf_run pdfPath options w) as Hspec.
    rewrite Hraster in Hspec.
    destruct Hspec as (news & w'' & Hrun' & _ & _ & Hdisk).
    rewrite Hrun' in Hrun. injection Hrun as _ <-.
    rewrite Hdisk. by apply Hframe.
  - intros pdfPath pageNumbers options w paths e r w' Hraster Hrun p Hp.
    pose proof (extractTextFromPdfPages_run pdfPath pageNumbers options w)
      as Hspec.
    rewrite Hraster in Hspec.
    destruct Hspec as (news & w'' & Hrun' & _ & _ & _ & Hdisk).
    rewrite Hrun' in Hrun. injection Hrun as _ <-.
    rewrite Hdisk. by apply Hframe.
Qed.

(** X8. When the rasteriser fails with a message, both document operations
    throw that message behind their two prefixes; the engine is not called,
    nothing is unlinked, and what the rasteriser wrote stays on the disk. *)
Theorem rasterisation_failure_is_reported :
  (∀ pdfPath options w written msg e,
     pdf2pic_bulk_oracle pdfPath (pdfRasterRequest options w) (ext w)
       = (ConvertFailed written msg, e) →
     ∃ w',
       extractTextFromPdf pdfPath options w =
         (Throw ("PDF OCR processing failed: Failed to convert PDF to images: "
                 +:+ msg), w') ∧
       engineCalls w' = engineCalls w ∧
       disk w' = disk w ∪ list_to_set written) ∧
  (∀ pdfPath pageNumbers options w written msg e,
     pdf2pic_bulk_oracle pdfPath (pagesRasterRequest options w) (ext w)
       = (ConvertFailed written msg, e) →
     ∃ w',
       extractTextFromPdfPages pdfPath pageNumbers options w =
         (Throw ("PDF selective OCR processing failed: "
                 +:+ "Failed to convert PDF to images: " +:+ msg), w') ∧
       engineCalls w' = engineCalls w ∧
       disk w' = disk w ∪ list_to_set written).
Proof.
  split.
  - intros pdfPath options w written msg e Hraster.
    pose proof (extractTextFromPdf_run pdfPath options w) as Hspec.
    rewrite Hraster in Hspec. by eexists.
  - intros pdfPath pageNumbers options w written msg e Hraster.
    pose proof (extractTextFromPdfPages_run pdfPath pageNumbers options w)
      as Hspec.
    rewrite Hraster in Hspec. by eexists.
Qed.

(** ** The image controllers *)

Lemma recognitions_unsupported options bad files : ∀ w,
  (∀ imagePath w,
     extractTextFromImage imagePath options w
       = (Throw (unsupportedMessage bad), w)) →
  recognitions options files w
    = (map (λ _, Throw (unsupportedMessage bad)) files, w).
Proof.
  intros w Hfail. revert w.
  induction files as [|file rest IH]; intros w; simpl; [done|].
  by rewrite Hfail, IH.
Qed.

(** X9. batchExtract never throws, and no recognition makes it answer 500:
    it answers 500, with code BATCH_OCR_ERROR, exactly when the request has
    no body, whether files were uploaded or not. On a request with a body
    it answers 400 with code NO_FILES when the files are missing or the
    list is empty, and otherwise 200 with one outcome per file, whatever
    the recognitions do. When it answers 500 or 400 the engine was not
    called: its trace and the state of the collaborators are as before. *)
Theorem batchExtract_answers_by_request destructuringError req w :
  ∃ resp w',
    batchExtract_handler destructuringError req w = (Normal resp, w') ∧
    match in_body req, in_files req with
    | None, _ =>
        resp = {| status := 500;
                  json := ErrorBody destructuringError "BATCH_OCR_ERROR" |} ∧
        engineCalls w' = engineCalls w ∧ ext w' = ext w
    | Some _, None | Some _, Some [] =>
        resp = {| status := 400;
                  json := ErrorBody "No files uploaded" "NO_FILES" |} ∧
        engineCalls w' = engineCalls w ∧ ext w' = ext w
    | Some _, Some fs =>
        ∃ results summary,
          resp = {| status := 200; json := BatchBody results summary |} ∧
          length results = length fs
    end.
Proof.
  unfold batchExtract_handler. destruct (in_body req) as [fields|].
  - pose proof (batchExtract_run
                  {| file := in_file req; files := in_files req;
                     body := fields |} w) as Hspec.
    cbn [files] in Hspec.
    destruct (in_files req) as [[|file rest]|].
    + by eexists _, _.
    + destruct Hspec as (results & summary & Hrun & Hlen & _).
      eexists _, _. split; [exact Hrun|]. by exists results, summary.
    + by eexists _, _.
  - by eexists _, _.
Qed.

(** X10. With files and a supported language tag, batchExtract calls the
    engine exactly once per file, in the order of the files, each time with
    the path of the file and the language tag of the request. *)
Theorem batchExtract_calls_engine_per_file req fs w :
  files req = Some fs →
  fs ≠ [] →
  supportedTag (default "eng" (b_language (body req))) →
  ∃ resp w',
    batchExtract req w = (Normal resp, w') ∧
    engineCalls w' =
      engineCalls w ++
      map (λ file, (path file, default "eng" (b_language (body req)))) fs.
Proof.
  intros Hfiles Hne Hall. pose proof (batchExtract_run req w) as Hspec.
  rewrite Hfiles in Hspec. destruct fs as [|file rest]; [done|].
  destruct Hspec as (results & summary & Hrun & _).
  eexists _, _. split; [exact Hrun|].
  by rewrite (recognitions_trace (requestOcrOptions req)).
Qed.

(** X11. A language tag with an unsupported component does not make
    batchExtract fail: it answers 200 with one failure per file, each with
    the unsupported-language message and the index of the file, zero
    successfulFiles and as many failedFiles as there are files. The engine
    is never called: its trace and the state of the collaborators are as
    before. *)
Theorem batchExtract_with_unsupported_language req fs w :
  files req = Some fs →
  fs ≠ [] →
  ¬ supportedTag (default "eng" (b_language (body req))) →
  ∃ bad results summary w',
    (bad ∉ supportedLanguages) ∧
    batchExtract req w =
      (Normal {| status := 200; json := BatchBody results summary |}, w') ∧
    engineCalls w' = engineCalls w ∧
    ext w' = ext w ∧
    length results = length fs ∧
    (∀ k file, fs !! k = Some file →
       results !! k
         = Some (batchFailure file (Z.of_nat k) (unsupportedMessage bad))) ∧
    successfulFiles summary = 0 ∧
    failedFiles summary = Z.of_nat (length fs).
Proof.
  intros Hfiles Hne Hnot.
  destruct (unsupported_language_always_fails (requestOcrOptions req) Hnot)
    as (bad & _ & Hnotin & Hfail).
  pose proof (batchExtract_run req w) as Hspec.
  rewrite Hfiles in Hspec. destruct fs as [|file rest]; [done|].
  destruct Hspec as (results & summary & Hrun & Hlen & Hitems
                     & Htotal & Hsucc & Hfailed).
  rewrite (recognitions_unsupported _ bad _ _ Hfail) in Hrun, Hitems.
  simpl in Hrun, Hitems.
  assert (∀ k file', (file :: rest) !! k = Some file' →
            results !! k
              = Some (batchFailure file' (Z.of_nat k) (unsupportedMessage bad)))
    as Hall.
  { intros k file' Hk. destruct (Hitems k file' Hk) as (c & Hc & Hitem).
    change (Throw (unsupportedMessage bad)
            :: map (λ _, Throw (unsupportedMessage bad)) rest)
      with (map (λ _ : UploadedFile,
                   @Throw OcrResult (unsupportedMessage bad)) (file :: rest))
      in Hc.
    rewrite list_lookup_fmap, Hk in Hc. injection Hc as <-. done. }
  assert (List.filter success results = []) as Hnone.
  { assert (Forall (λ item, success item = false) results) as Hfalse.
    { apply Forall_lookup. intros k item Hk.
      destruct (lookup_lt_is_Some_2 (file :: rest) k) as [file' Hfile'].
      { rewrite <- Hlen. by eapply lookup_lt_Some. }
      rewrite (Hall k file' Hfile') in Hk. by injection Hk as <-. }
    clear -Hfalse. induction Hfalse as [|item l Hitem _ IH]; [done|].
    simpl. by rewrite Hitem. }
  exists bad, results, summary, w. repeat split; try done.
  - by rewrite Hsucc, Hnone.
  - rewrite Hfailed, Htotal, Hsucc, Hnone. simpl length. lia.
Qed.

(** X12. extractDetailedText never throws. On a request without a body it
    answers 500 with code DETAILED_OCR_ERROR, whether a file was uploaded
    or not. On a request with a body: without a file it answers 400 with
    code NO_FILE, and in both of these cases the engine was not called (its
    trace and the state of the collaborators are as before); with a file
    it runs the recognition of the upload and nothing else that reaches
    the collaborators, and answers 200 with its text and confidence when
    it succeeds, and 500 with code DETAILED_OCR_ERROR and the message of
    the service when it fails. *)
Theorem extractDetailedText_answers destructuringError req w :
  ∃ resp w',
    extractDetailedText_handler destructuringError req w = (Normal resp, w') ∧
    match in_body req, in_file req with
    | None, _ =>
        resp = {| status := 500;
                  json := ErrorBody destructuringError "DETAILED_OCR_ERROR" |} ∧
        engineCalls w' = engineCalls w ∧ ext w' = ext w
    | Some _, None =>
        resp = {| status := 400;
                  json := ErrorBody "No file uploaded" "NO_FILE" |} ∧
        engineCalls w' = engineCalls w ∧ ext w' = ext w
    | Some fields, Some upload =>
        match extractTextFromImage (path upload)
                (controllerOcrOptions (default "eng" (b_language fields))
                   (default "3" (b_psm fields)) (default "3" (b_oem fields)))
                w with
        | (Normal result, w1) =>
            engineCalls w' = engineCalls w1 ∧ ext w' = ext w1 ∧
            status resp = 200 ∧
            ∃ d, json resp = DetailedBody d ∧
                 dd_text d = r_text result ∧
                 dd_confidence d = r_confidence result
        | (Throw message, w1) =>
            engineCalls w' = engineCalls w1 ∧ ext w' = ext w1 ∧
            resp = {| status := 500;
                      json := ErrorBody message "DETAILED_OCR_ERROR" |}
        end
    end.
Proof.
  unfold extractDetailedText_handler.
  destruct (in_body req) as [fields|]; [|by eexists _, _].
  unfold extractDetailedText, try_catch, bind, now, ret. cbn [file body].
  destruct (in_file req) as [upload|]; [|by eexists _, _].
  destruct (extractTextFromImage _ _ w) as [[result|message] w1];
    eexists _, _; (split; [done|]); simpl; repeat split; eauto.
Qed.

Lemma flag_includes (v : JsValue) :
  strictEqString (orDefault v (JBool true)) "true" = true ↔ v = JString "true".
Proof.
  destruct v as [|b|s]; simpl; try (split; [done|discriminate]).
  rewrite String.eqb_eq. split; [by intros ->|by intros [= ->]].
Qed.

(** X13. In a successful detailed-image response each of the four arrays
    is present exactly when its own include flag is the string ['true'] (an
    omitted flag, a boolean or any other string leaves it out), whatever
    the other flags are, and an array that is present is the one of the
    recognition. *)
Theorem extractDetailedText_includes_on_string_true req upload w result w1 :
  file req = Some upload →
  extractTextFromImage (path upload) (requestOcrOptions req) w
    = (Normal result, w1) →
  ∃ d,
    extractDetailedText req w =
      (Normal {| status := 200; json := DetailedBody d |}, w1) ∧
    (dd_words d = Some (r_words result) ∧
       b_includeWords (body req) = JString "true"
     ∨ dd_words d = None ∧ b_includeWords (body req) ≠ JString "true") ∧
    (dd_lines d = Some (r_lines result) ∧
       b_includeLines (body req) = JString "true"
     ∨ dd_lines d = None ∧ b_includeLines (body req) ≠ JString "true") ∧
    (dd_paragraphs d = Some (r_paragraphs result) ∧
       b_includeParagraphs (body req) = JString "true"
     ∨ dd_paragraphs d = None ∧
       b_includeParagraphs (body req) ≠ JString "true") ∧
    (dd_blocks d = Some (r_blocks result) ∧
       b_includeBlocks (body req) = JString "true"
     ∨ dd_blocks d = None ∧ b_includeBlocks (body req) ≠ JString "true").
Proof.
  intros Hfile Hocr.
  unfold extractDetailedText, try_catch, bind, now, ret.
  rewrite Hfile. unfold requestOcrOptions in Hocr. rewrite Hocr.
  eexists. split; [done|]. simpl.
  assert (∀ (A : Type) (v : JsValue) (x : A),
            (if strictEqString (orDefault v (JBool true)) "true"
             then Some x else None) = Some x ∧ v = JString "true"
            ∨ (if strictEqString (orDefault v (JBool true)) "true"
               then Some x else None) = None ∧ v ≠ JString "true") as Hflag.
  { intros A v x. pose proof (flag_includes v) as Hiff.
    destruct (strictEqString (orDefault v (JBool true)) "true").
    - left. split; [done|]. by apply Hiff.
    - right. split; [done|]. intros Hv. apply Hiff in Hv. done. }
  repeat split; apply Hflag.
Qed.

End MoreProperties.

Section ServiceProperties.
Context `{NodeLibrary}.

Lemma extractTextFromImage_default_language imagePath options w :
  extractTextFromImage imagePath
    {| language := Some (default "eng" (language options));
       psm := psm options; oem := oem options;
       whitelist := whitelist options; blacklist := blacklist options;
       preserveInterword := preserveInterword options |} w
  = extractTextFromImage imagePath options w.
Proof. by destruct options as [[lang|] ? ? ? ? ?]. Qed.

Lemma extractTextWithPreprocessing_run imagePath options w :
  extractTextWithPreprocessing imagePath options w =
    match extractTextFromImage imagePath (ocrOptions options) w with
    | (Normal result, w') => (Normal result, w')
    | (Throw message, w') =>
        (Throw ("Enhanced OCR processing failed: " +:+ message), w')
    end.
Proof.
  unfold extractTextWithPreprocessing, preprocessImage, try_catch at 1.
  assert (∀ b : bool, (if b then ret imagePath else ret imagePath)
                      = (ret imagePath : M string)) as Hsame
    by (by intros []).
  rewrite Hsame. unfold bind at 1, ret at 1.
  unfold bind at 1. rewrite extractTextFromImage_default_language.
  destruct (extractTextFromImage imagePath (ocrOptions options) w)
    as [[result|message] w']; [|done].
  by rewrite String.eqb_refl.
Qed.

(** X14. The preprocessing of extractTextWithPreprocessing does nothing:
    whatever the enhance, denoise and deskew flags are, the call completes
    as extractTextFromImage does on the same image and options, in the same
    world, the uploaded image is not unlinked, and the only difference is
    one more prefix on the message of a failure. *)
Theorem extractTextWithPreprocessing_is_plain_recognition
    imagePath options w c w' :
  extractTextFromImage imagePath (ocrOptions options) w = (c, w') →
  extractTextWithPreprocessing imagePath options w =
    (match c with
     | Normal result => Normal result
     | Throw message =>
         Throw ("Enhanced OCR processing failed: " +:+ message)
     end, w') ∧
  disk w' = disk w.
Proof.
  intros Hocr. rewrite extractTextWithPreprocessing_run, Hocr.
  destruct (extractTextFromImage_frame _ _ _ _ _ Hocr) as [Hdisk _].
  split; [|done]. by destruct c.
Qed.

(** X15. extractText never throws. On a request without a body it answers
    500 with code OCR_PROCESSING_ERROR, whether a file was uploaded or not.
    On a request with a body: without a file it answers 400 with code
    NO_FILE, and in both of these cases the engine was not called (its
    trace and the state of the collaborators are as before); with a file
    it answers as the plain recognition of the upload completes, whether
    preprocessing is asked for or not: 200 with the text, the confidence
    and the four unit counts of the result, or 500 with code
    OCR_PROCESSING_ERROR and the message of the service, which has one
    more prefix when preprocessing was asked for. *)
Theorem extractText_answers destructuringError req w :
  ∃ resp w',
    extractText_handler destructuringError req w = (Normal resp, w') ∧
    match in_body req, in_file req with
    | None, _ =>
        resp = {| httpStatus := 500;
                  httpBody :=
                    Failed destructuringError "OCR_PROCESSING_ERROR" |} ∧
        engineCalls w' = engineCalls w ∧ ext w' = ext w
    | Some _, None =>
        resp = {| httpStatus := 400;
                  httpBody := Failed "No file uploaded" "NO_FILE" |} ∧
        engineCalls w' = engineCalls w ∧ ext w' = ext w
    | Some fields, Some upload =>
        let request := {| er_file := Some upload; er_body := fields |} in
        match extractTextFromImage (path upload) (extractOcrOptions request)
                w with
        | (Normal result, w1) =>
            engineCalls w' = engineCalls w1 ∧ ext w' = ext w1 ∧
            httpStatus resp = 200 ∧
            ∃ d, httpBody resp = Succeeded d ∧
                 ed_text d = r_text result ∧
                 ed_confidence d = r_confidence result ∧
                 ed_wordCount d = Z.of_nat (length (r_words result)) ∧
                 ed_lineCount d = Z.of_nat (length (r_lines result)) ∧
                 ed_paragraphCount d = Z.of_nat (length (r_paragraphs result)) ∧
                 ed_blockCount d = Z.of_nat (length (r_blocks result))
        | (Throw message, w1) =>
            engineCalls w' = engineCalls w1 ∧ ext w' = ext w1 ∧
            resp = {| httpStatus := 500;
                      httpBody :=
                        Failed
                          (if asksPreprocessing request
                           then "Enhanced OCR processing failed: " +:+ message
                           else message)
                          "OCR_PROCESSING_ERROR" |}
        end
    end.
Proof.
  unfold extractText_handler.
  destruct (in_body req) as [fields|]; [|by eexists _, _].
  destruct (in_file req) as [upload|]; [|by eexists _, _].
  cbv zeta.
  set (request := {| er_file := Some upload; er_body := fields |}).
  unfold extractText, try_catch at 1, bind at 1, now at 1.
  change (er_file request) with (Some upload). cbv beta iota.
  unfold bind at 1. cbn [ocrOptions].
  fold (extractOcrOptions request). fold (asksPreprocessing request).
  destruct (asksPreprocessing request);
    [rewrite extractTextWithPreprocessing_run; cbn [ocrOptions]|];
    destruct (extractTextFromImage (path upload) (extractOcrOptions request) w)
      as [[result|message] w1];
    eexists _, _; (split; [done|]); simpl; repeat split; eauto 10.
Qed.
(** ** Document information *)

(** [getPdfInfo] as a whole. The stats are read once the images have been
    unlinked. *)
Lemma getPdfInfo_run pdfPath w :
  getPdfInfo pdfPath w =
    match pdf2pic_bulk_oracle pdfPath (infoRasterRequest w) (ext w) with
    | (Converted paths, e) =>
        let w' := (cleanupImages paths (afterConversion w paths e)).2 in
        match statSync_oracle pdfPath (disk w') (ext w') with
        | inl stats => (Normal (pdfInfoOf (length paths) stats), w')
        | inr msg => (Throw ("Failed to get PDF info: " +:+ msg), w')
        end
    | (ConvertFailed written msg, e) =>
        (Throw ("Failed to get PDF info: Failed to convert PDF to images: "
                +:+ msg),
         afterConversion w written e)
    end.
Proof.
  pose proof (convertPdfToImages_run pdfPath
                (conversionOptions 150
                   ("pdf_info_" +:+ pretty (Date_now (ext w)))) w) as Hconv.
  fold (infoRasterRequest w) in Hconv.
  unfold getPdfInfo, try_catch, bind, now, statSync. rewrite Hconv.
  destruct (pdf2pic_bulk_oracle _ _ _) as [[paths|written msg] e]; [|done].
  destruct (cleanupImages_spec paths (afterConversion w paths e))
    as (w' & Hclean & _). rewrite Hclean. simpl.
  by destruct (statSync_oracle pdfPath (disk w') (ext w')).
Qed.

Lemma getPdfInfo_frame pdfPath w :
  engineCalls (getPdfInfo pdfPath w).2 = engineCalls w.
Proof.
  rewrite getPdfInfo_run.
  destruct (pdf2pic_bulk_oracle _ _ _) as [[paths|written msg] e]; [|done].
  destruct (cleanupImages_trace paths (afterConversion w paths e))
    as (Hcalls & _).
  simpl. by destruct (statSync_oracle _ _ _); simpl; rewrite Hcalls.
Qed.

(** X16. When the rasteriser succeeds, the service getPdfInfo reports as
    pageCount the number of images the rasteriser returned and isValid
    true, never calls the engine, and has unlinked the images before it
    reads the stats of the document: they are gone (but those whose unlink
    fails) also when reading the stats fails, in which case the call throws
    the message behind its prefix. *)
Theorem getPdfInfo_counts_pages_and_cleans_up pdfPath w paths e :
  pdf2pic_bulk_oracle pdfPath (infoRasterRequest w) (ext w)
    = (Converted paths, e) →
  ∃ w',
    disk w' = (disk w ∪ list_to_set paths) ∖ unlinkable paths ∧
    engineCalls w' = engineCalls w ∧
    ext w' = e ∧
    getPdfInfo pdfPath w =
      (match statSync_oracle pdfPath (disk w') e with
       | inl stats =>
           Normal {| pageCount := Z.of_nat (length paths);
                     fileSize := st_size stats;
                     created := st_birthtime stats;
                     modified := st_mtime stats;
                     isValid := true |}
       | inr msg => Throw ("Failed to get PDF info: " +:+ msg)
       end, w').
Proof.
  intros Hraster. rewrite getPdfInfo_run, Hraster.
  destruct (cleanupImages_trace paths (afterConversion w paths e))
    as (Hcalls & Hext & Hdisk).
  exists (cleanupImages paths (afterConversion w paths e)).2.
  repeat split; try done. simpl. rewrite Hext. simpl.
  by destruct (statSync_oracle _ _ _).
Qed.

(** X17. The controller getPdfInfo never throws and never calls the engine.
    Without a file it answers 400 with code NO_FILE, and for a file that
    isValidPdf rejects 400 with code INVALID_PDF, in both cases before
    anything is rasterised: the state of the collaborators is as before.
    Otherwise it runs the service once and answers as it completes: 200
    with its information, or 500 with code PDF_INFO_ERROR and its
    message. *)
Theorem getPdfInfo_controller_answers req w :
  ∃ resp w',
    getPdfInfo_controller req w = (Normal resp, w') ∧
    engineCalls w' = engineCalls w ∧
    match file req with
    | None =>
        resp = {| httpStatus := 400;
                  httpBody := Failed "No PDF file uploaded" "NO_FILE" |} ∧
        ext w' = ext w
    | Some upload =>
        if isValidPdf (path upload) then
          match getPdfInfo (path upload) w with
          | (Normal info, w1) =>
              ext w' = ext w1 ∧ httpStatus resp = 200 ∧
              ∃ d, httpBody resp = Succeeded d ∧ pi_pdfInfo d = info ∧
                   originalName (pi_fileInfo d) = originalname upload
          | (Throw message, w1) =>
              ext w' = ext w1 ∧
              resp = {| httpStatus := 500;
                        httpBody := Failed message "PDF_INFO_ERROR" |}
          end
        else
          resp = {| httpStatus := 400;
                    httpBody := Failed "Invalid PDF file" "INVALID_PDF" |} ∧
          ext w' = ext w
    end.
Proof.
  unfold getPdfInfo_controller, try_catch at 1.
  destruct (file req) as [upload|]; [|by eexists _, _].
  destruct (isValidPdf (path upload)); simpl; [|by eexists _, _].
  unfold bind, now.
  pose proof (getPdfInfo_frame (path upload) w) as Hcalls.
  destruct (getPdfInfo (path upload) w) as [[info|message] w1];
    eexists _, _; (split; [done|]); (split; [done|]); simpl;
    repeat split; eauto.
Qed.

(** ** Languages and formats *)

Lemma listed_codes :
  map le_code
    (map (λ code, {| le_code := code; le_name := languageName code;
                     le_supported := true |})
       getSupportedLanguages_service)
  = supportedLanguages.
Proof. rewrite map_map. apply map_id. Qed.

(** X18. The languages the controller lists are the languages the
    recognition accepts: extractTextFromImage gets past its validation and
    calls the engine exactly when each component of the language tag is the
    code of a listed language, and otherwise it fails with the
    unsupported-language error of a component that is not listed, without
    a call. The list has no code twice, totalCount is its length, and the
    name of every entry is the one languageMap has for its code (none
    falls back to the code). *)
Theorem listed_languages_are_the_accepted_ones w :
  ∃ data,
    getSupportedLanguages w =
      (Normal {| httpStatus := 200; httpBody := Succeeded data |}, w) ∧
    (∀ imagePath options w0,
       (Forall (λ lang, lang ∈ map le_code (languages data))
          (split "+"%char (languageOf options)) ↔
        engineCalls (extractTextFromImage imagePath options w0).2 =
          engineCalls w0 ++ [(imagePath, languageOf options)]) ∧
       (Forall (λ lang, lang ∈ map le_code (languages data))
          (split "+"%char (languageOf options)) ∨
        ∃ bad,
          bad ∈ split "+"%char (languageOf options) ∧
          (bad ∉ map le_code (languages data)) ∧
          extractTextFromImage imagePath options w0 =
            (Throw (unsupportedMessage bad), w0))) ∧
    NoDup (map le_code (languages data)) ∧
    totalCount data = Z.of_nat (length (languages data)) ∧
    Forall (λ entry, languageMap !! le_code entry = Some (le_name entry) ∧
                     le_supported entry = true)
      (languages data).
Proof.
  eexists. split; [reflexivity|]. cbn [languages totalCount].
  rewrite listed_codes. split.
  - intros imagePath options w0.
    destruct (decide (supportedTag (languageOf options))) as [Hall|Hnot].
    + split; [|by left]. split; [intros _|done].
      by rewrite (extractTextFromImage_supported _ _ _ Hall).
    + destruct (unsupported_language_always_fails options Hnot)
        as (bad & Hbad & Hnotin & Hfail).
      split; [|right; by exists bad]. split; [done|].
      rewrite Hfail. simpl. intros Hcalls.
      apply (f_equal length) in Hcalls. rewrite length_app in Hcalls.
      simpl in Hcalls. lia.
  - split; [|split; [reflexivity|]]; compute_done.
Qed.

(** X19. A path that isValidPdf accepts is never a valid image format:
    isValidImageFormat rejects it, and getFileInfo, when it returns, says
    isValid false. getFileInfo changes nothing in the world. *)
Theorem pdf_is_never_an_image filePath :
  isValidPdf filePath = true →
  isValidImageFormat filePath = false ∧
  ∀ w, ∃ c,
    getFileInfo filePath w = (c, w) ∧
    ∀ info, c = Normal info → if_isValid info = false.
Proof.
  unfold isValidPdf, isValidImageFormat. intros Hpdf%String.eqb_eq.
  assert (bool_decide (toLowerCase (path_extname filePath) ∈ supportedFormats)
          = false) as Himage.
  { rewrite Hpdf. by apply bool_decide_eq_false_2, (bool_decide_unpack _). }
  split; [done|]. intros w.
  unfold getFileInfo, try_catch, bind, statSync, ret, throw.
  destruct (statSync_oracle filePath (disk w) (ext w)) as [stats|msg];
    eexists; (split; [done|]); intros info Hc; [|discriminate].
  injection Hc as <-. exact Himage.
Qed.

End ServiceProperties.

(** * Concrete runs *)

(** C1: the specified average fails on a document of three pages whose
    second page cannot be recognised. The successful pages have
    confidences 80 and 100, whose mean is 90; the report says 60, which is
    180 divided by the three outcomes. *)
Lemma averageConfidence_counts_failed_pages :
  ∃ r w',
    @extractTextFromPdf tidyCollaborators "three.pdf" noOptions tidyWorld
      = (Normal r, w') ∧
    map pg_confidence (succeeded (res_pages r)) = [Qc_of_Z 80; Qc_of_Z 100] ∧
    s_averageConfidence (res_summary r) = Qc_of_Z 60 ∧
    meanOfSucceeded (res_pages r) = Qc_of_Z 90 ∧
    s_averageConfidence (res_summary r) ≠ meanOfSucceeded (res_pages r).
Proof.
  eexists _, _. split; [by_running|].
  split; [by_running|].
  split; [by apply Qc_is_canon|].
  split; [by apply Qc_is_canon|].
  intros Heq. apply (f_equal this) in Heq. vm_compute in Heq. discriminate.
Qed.

Lemma averageConfidence_witness :
  (∃ r w',
     @extractTextFromPdf tidyCollaborators "three.pdf" noOptions tidyWorld
       = (Normal r, w') ∧
     s_averageConfidence (res_summary r) = meanOverOutcomes (res_pages r) ∧
     s_averageConfidence (res_summary r) = Qc_of_Z 60) ∧
  (∃ r w',
     @extractTextFromPdfPages tidyCollaborators "two.pdf" [2; 5; 1; 1]
       noOptions tidyWorld = (Normal r, w') ∧
     ps_averageConfidence (pr_summary r) = meanOverOutcomes (pr_pages r) ∧
     ps_averageConfidence (pr_summary r) = Qc_of_Z 65).
Proof.
  split; eexists _, _; (split; [by_running|]); (split; [|by apply Qc_is_canon]).
  - refine (proj1 (proj1 (@averageConfidence_over_all_outcomes
                            tidyCollaborators)
                     "three.pdf" noOptions tidyWorld _ _ _)).
    by_running.
  - refine (proj1 (proj2 (@averageConfidence_over_all_outcomes
                            tidyCollaborators)
                     "two.pdf" [2; 5; 1; 1] noOptions tidyWorld _ _ _)).
    by_running.
Defined.

(** C2: the specified text fails on a document of one page: the code puts
    two line feeds between the marker and the text. *)
Lemma combined_text_has_line_feeds :
  ∃ r w',
    @extractTextFromPdf tidyCollaborators "one.pdf" noOptions tidyWorld
      = (Normal r, w') ∧
    res_text r = Some ("--- Page 1 ---" +:+ LF +:+ LF +:+ "alpha") ∧
    markedConcatenation (res_pages r) = "--- Page 1 ---alpha" ∧
    res_text r ≠ Some (markedConcatenation (res_pages r)).
Proof.
  eexists _, _. split; [by_running|].
  split; [by_running|]. split; [by_running|].
  vm_compute. discriminate.
Qed.

Lemma combined_text_witness :
  ∃ r w',
    @extractTextFromPdf tidyCollaborators "sparse.pdf" noOptions tidyWorld
      = (Normal r, w') ∧
    res_text r = Some (trim (combinedChunks true (res_pages r))) ∧
    res_text r =
      Some ("--- Page 1 ---" +:+ LF +:+ LF +:+ "alpha" +:+ LF +:+ LF
            +:+ LF +:+ LF +:+ "--- Page 3 ---" +:+ LF +:+ LF
            +:+ "gamma delta").
Proof.
  eexists _, _. split; [by_running|]. split; [|by_running].
  refine (@combined_text_is_trimmed_chunks tidyCollaborators
            "sparse.pdf" noOptions tidyWorld _ _ _ _ _);
    [by_running|reflexivity|reflexivity].
Defined.

(** C3: the specified message fails on a document of two pages: for page 5
    the code says "PDF has 2 pages", not "Document has 2 pages". *)
Lemma out_of_range_message_says_pdf :
  ∃ r w',
    @extractTextFromPdfPages tidyCollaborators "two.pdf" [5] noOptions
      tidyWorld = (Normal r, w') ∧
    map pg_error (pr_pages r)
      = [Some "Page 5 does not exist. PDF has 2 pages."] ∧
    specifiedOutOfRangeMessage 5 2
      = "Page 5 does not exist. Document has 2 pages." ∧
    map pg_error (pr_pages r) ≠ [Some (specifiedOutOfRangeMessage 5 2)].
Proof.
  eexists _, _. split; [by_running|].
  split; [by_running|]. split; [by_running|].
  vm_compute. discriminate.
Qed.

Lemma out_of_range_witness :
  ∃ r r0 w',
    @extractTextFromPdfPages tidyCollaborators "two.pdf" ([2] ++ 5 :: [1; 1])
      noOptions tidyWorld = (Normal r, w') ∧
    @extractTextFromPdfPages tidyCollaborators "two.pdf" ([2] ++ [1; 1])
      noOptions tidyWorld = (Normal r0, w') ∧
    pr_pages r =
      take 1 (pr_pages r0) ++
      failedPage 5 "Page 5 does not exist. PDF has 2 pages."
      :: drop 1 (pr_pages r0).
Proof.
  refine (@out_of_range_page_fails_alone tidyCollaborators
            "two.pdf" noOptions tidyWorld [2] 5 [1; 1] ["a.png"; "c.png"] tt
            _ _).
  - by_running.
  - right. simpl. lia.
Defined.

(** C5: the specified cleanup fails where the file system refuses to
    unlink an image: the run returns its report, and the image it created
    is still on the disk. *)
Lemma locked_image_outlives_the_run :
  ∃ r w',
    @extractTextFromPdf lockedCollaborators "two.pdf" noOptions lockedWorld
      = (Normal r, w') ∧
    ("c.png" ∉ disk lockedWorld) ∧
    "c.png" ∈ disk w'.
Proof.
  eexists _, _. split; [by_running|].
  split; compute_done.
Qed.

Lemma raster_images_witness :
  (∃ r w',
     @extractTextFromPdf tidyCollaborators "three.pdf" noOptions tidyWorld
       = (Normal r, w') ∧
     s_failedPages (res_summary r) = 1 ∧
     disk w' = ∅) ∧
  (∃ r w',
     @extractTextFromPdfPages tidyCollaborators "three.pdf" [2; 7] noOptions
       tidyWorld = (Normal r, w') ∧
     ps_failedPages (pr_summary r) = 2 ∧
     disk w' = ∅).
Proof.
  split.
  - destruct (proj1 (@raster_images_unlinked_before_return tidyCollaborators)
                "three.pdf" noOptions tidyWorld ["a.png"; "b.png"; "c.png"] tt)
      as (r & w' & Hrun & Hdisk & _); [by_running|].
    exists r, w'. split; [done|]. split; [|by rewrite Hdisk].
    vm_compute in Hrun. by injection Hrun as <- _.
  - destruct (proj2 (@raster_images_unlinked_before_return tidyCollaborators)
                "three.pdf" [2; 7] noOptions tidyWorld
                ["a.png"; "b.png"; "c.png"] tt)
      as (r & w' & Hrun & Hdisk & _); [by_running|].
    exists r, w'. split; [done|]. split; [|by rewrite Hdisk].
    vm_compute in Hrun. by injection Hrun as <- _.
Defined.

(** C4 at a concrete request: no include flag is sent, the recognition
    finds a word, and the response carries no [words]. *)
Lemma omitted_flags_witness :
  ∃ result d w1,
    @extractTextFromImage tidyCollaborators "a.png"
      (requestOcrOptions detailedRequest) tidyWorld = (Normal result, w1) ∧
    length (r_words result) = 1%nat ∧
    @extractDetailedText tidyCollaborators detailedRequest tidyWorld
      = (Normal {| status := 200; json := DetailedBody d |}, w1) ∧
    dd_words d = None ∧ dd_lines d = None ∧
    dd_paragraphs d = None ∧ dd_blocks d = None.
Proof.
  destruct (@extractTextFromImage tidyCollaborators "a.png"
              (requestOcrOptions detailedRequest) tidyWorld)
    as [[result|message] w1] eqn:Hocr; [|vm_compute in Hocr; discriminate].
  destruct (@extractDetailedText_omitted_flags tidyCollaborators
              detailedRequest (upload "a.png") tidyWorld result w1
              eq_refl Hocr eq_refl eq_refl eq_refl eq_refl)
    as (d & Hrun & _ & Hwords & Hlines & Hparagraphs & Hblocks).
  exists result, d, w1. repeat split; try done.
  vm_compute in Hocr. by injection Hocr as <- _.
Defined.

(** A conversion that fails after it wrote the image of a first page: the
    operation throws and the image stays. *)
Example failed_conversion_leaves_partial_image :
  ∃ message w',
    @extractTextFromPdf tidyCollaborators "damaged.pdf" noOptions tidyWorld
      = (Throw message, w') ∧
    ("partial.png" ∉ disk tidyWorld) ∧
    "partial.png" ∈ disk w'.
Proof. eexists _, _. split; [by_running|]. split; compute_done. Qed.

(** C6 at the batch of the specification: a valid file, a file the engine
    cannot read and a valid file give a success at index 0, a failure at
    index 1 and a success at index 2. *)
Lemma batch_of_three_witness :
  ∃ results summary w',
    @batchExtract tidyCollaborators batchOfThree tidyWorld
      = (Normal {| status := 200; json := BatchBody results summary |}, w') ∧
    map (λ item, (index (fileInfo item), success item)) results
      = [(Some 0, true); (Some 1, false); (Some 2, true)] ∧
    map error results
      = [None; Some "OCR processing failed: Error: cannot read image"; None].
Proof.
  destruct (@batchExtract_outcomes_in_input_order tidyCollaborators
              batchOfThree
              [upload "a.png"; upload "b.png"; upload "c.png"] tidyWorld
              eq_refl ltac:(discriminate))
    as (results & summary & Hrun & _ & _).
  eexists results, summary, _. split; [exact Hrun|].
  vm_compute in Hrun. by injection Hrun as <- _.
Defined.

(** C7: the specified invariant fails for a page-subset request that names
    page 1 twice and a page 5 that a document of two pages does not have. *)
Lemma requested_pages_repeat_and_overflow :
  ∃ r w',
    @extractTextFromPdfPages tidyCollaborators "two.pdf" [1; 1; 5] noOptions
      tidyWorld = (Normal r, w') ∧
    map pageNumber (pr_pages r) = [1; 1; 5] ∧
    totalPagesInPdf (pr_summary r) = 2 ∧
    ¬ NoDup (map pageNumber (pr_pages r)) ∧
    ¬ Forall (λ p, 1 ≤ pageNumber p ≤ totalPagesInPdf (pr_summary r))
        (pr_pages r).
Proof.
  eexists _, _. split; [by_running|].
  split; [by_running|]. split; [by_running|]. split.
  - intros Hdup. vm_compute in Hdup.
    apply NoDup_cons in Hdup as [Hnotin _]. apply Hnotin. by left.
  - intros Hall. apply Forall_cons in Hall as [_ Hall].
    apply Forall_cons in Hall as [_ Hall].
    apply Forall_cons in Hall as [Hrange _].
    vm_compute in Hrange. by destruct Hrange as [_ []].
Qed.

Lemma page_numbers_witness :
  (∃ r w',
     @extractTextFromPdf tidyCollaborators "three.pdf" noOptions tidyWorld
       = (Normal r, w') ∧
     NoDup (map pageNumber (res_pages r)) ∧
     Forall (λ p, 1 ≤ pageNumber p ≤ totalPages (res_summary r))
       (res_pages r)) ∧
  (∃ r w',
     @extractTextFromPdfPages tidyCollaborators "two.pdf" [2; 1] noOptions
       tidyWorld = (Normal r, w') ∧
     NoDup (map pageNumber (pr_pages r))).
Proof.
  split.
  - eexists _, _. split; [by_running|].
    refine (proj1 (@page_numbers_of_reports tidyCollaborators)
              "three.pdf" noOptions tidyWorld _ _ _).
    by_running.
  - eexists _, _. split; [by_running|].
    refine (proj2 (proj1 (proj2 (@page_numbers_of_reports tidyCollaborators)
                            "two.pdf" [2; 1] noOptions tidyWorld _ _ _)) _).
    + by_running.
    + apply NoDup_cons. split; [set_solver|]. apply NoDup_singleton.
Defined.

Lemma requested_order_witness :
  (∃ r w',
     @extractTextFromPdfPages tidyCollaborators "two.pdf" [2; 5; 1; 1]
       noOptions tidyWorld = (Normal r, w') ∧
     map pageNumber (pr_pages r) = [2; 5; 1; 1] ∧
     map pg_text (pr_pages r) = ["gamma delta"; ""; "alpha"; "alpha"] ∧
     map pg_error (pr_pages r) =
       [None; Some "Page 5 does not exist. PDF has 2 pages."; None; None]) ∧
  (∃ r w',
     @extractTextFromPdf tidyCollaborators "three.pdf" noOptions tidyWorld
       = (Normal r, w') ∧
     map pageNumber (res_pages r) = [1; 2; 3] ∧
     map pg_text (res_pages r) = ["alpha"; ""; "gamma delta"] ∧
     map pg_error (res_pages r) =
       [None; Some "OCR processing failed: Error: cannot read image"; None]).
Proof.
  split.
  - destruct (proj1 (@outcomes_follow_requested_order tidyCollaborators)
                "two.pdf" [2; 5; 1; 1] noOptions tidyWorld
                ["a.png"; "c.png"] tt ltac:(by_running))
      as (r & w' & Hrun & Hpages & Hnums & _).
    exists r, w'. split; [exact Hrun|]. split; [exact Hnums|].
    rewrite Hpages. split; by_running.
  - destruct (proj2 (@outcomes_follow_requested_order tidyCollaborators)
                "three.pdf" noOptions tidyWorld
                ["a.png"; "b.png"; "c.png"] tt ltac:(by_running))
      as (r & w' & Hrun & Hpages & Htotal & Hnums & _).
    exists r, w'. split; [exact Hrun|].
    split; [by rewrite Hnums, Htotal|].
    rewrite Hpages. split; by_running.
Defined.

Lemma language_check_witness :
  (∃ bad,
     bad ∈ split "+"%char "eng+xyz+fra" ∧
     (bad ∉ supportedLanguages) ∧
     @extractTextFromImage tidyCollaborators "a.png"
       (withLanguage "eng+xyz+fra") tidyWorld =
       (Throw ("OCR processing failed: Unsupported language: " +:+ bad),
        tidyWorld)) ∧
  @extractTextFromImage tidyCollaborators "a.png"
    (withLanguage "eng+fra") tidyWorld =
    (Normal (ocrResultOf (stubData "alpha" 80 1)),
     @Build_World tidyCollaborators (disk tidyWorld)
       (engineCalls tidyWorld ++ [("a.png", "eng+fra")]) tt).
Proof.
  split.
  - refine (proj1 (@extractTextFromImage_checks_languages tidyCollaborators
                     "a.png" (withLanguage "eng+xyz+fra") tidyWorld) _).
    apply Exists_cons_tl, Exists_cons_hd. compute_done.
  - refine (proj2 (@extractTextFromImage_checks_languages tidyCollaborators
                     "a.png" (withLanguage "eng+fra") tidyWorld) _).
    compute_done.
Defined.

Lemma summary_counts_witness :
  (∃ r w',
     @extractTextFromPdf tidyCollaborators "three.pdf" noOptions tidyWorld
       = (Normal r, w') ∧
     s_successfulPages (res_summary r) + s_failedPages (res_summary r)
       = Z.of_nat (length (res_pages r)) ∧
     s_failedPages (res_summary r) = 1) ∧
  (∃ r w',
     @extractTextFromPdfPages tidyCollaborators "two.pdf" [2; 5; 1; 1]
       noOptions tidyWorld = (Normal r, w') ∧
     ps_successfulPages (pr_summary r) + ps_failedPages (pr_summary r)
       = Z.of_nat (length (pr_pages r)) ∧
     ps_failedPages (pr_summary r) = 1) ∧
  (∃ results summary w',
     @batchExtract tidyCollaborators batchOfThree tidyWorld
       = (Normal {| status := 200; json := BatchBody results summary |}, w') ∧
     successfulFiles summary + failedFiles summary = totalFiles summary ∧
     totalFiles summary = 3 ∧ failedFiles summary = countErrors results).
Proof.
  split; [|split].
  - eexists _, _. split; [by_running|]. split; [|by_running].
    refine (proj1 (proj1 (@summary_counts_consistent tidyCollaborators)
                     "three.pdf" noOptions tidyWorld _ _ _)).
    by_running.
  - eexists _, _. split; [by_running|]. split; [|by_running].
    refine (proj1 (proj1 (proj2 (@summary_counts_consistent tidyCollaborators))
                     "two.pdf" [2; 5; 1; 1] noOptions tidyWorld _ _ _)).
    by_running.
  - eexists _, _, _. split; [by_running|].
    destruct (proj2 (proj2 (@summary_counts_consistent tidyCollaborators))
                batchOfThree tidyWorld 200 _ _ _ ltac:(by_running))
      as (fs & _ & Hsum & _ & _ & Hfailed).
    split; [exact Hsum|]. split; [by_running|exact Hfailed].
Defined.

(** * Concrete runs of the further properties *)

Lemma pdf_engine_calls_witness :
  ∃ r w',
    @extractTextFromPdf tidyCollaborators "three.pdf" noOptions tidyWorld
      = (Normal r, w') ∧
    engineCalls w' = [("a.png", "eng"); ("b.png", "eng"); ("c.png", "eng")].
Proof.
  refine (@extractTextFromPdf_calls_engine_per_page tidyCollaborators
            "three.pdf" noOptions tidyWorld ["a.png"; "b.png"; "c.png"] tt
            _ _).
  - by_running.
  - compute_done.
Defined.

Lemma pages_engine_calls_witness :
  ∃ r w',
    @extractTextFromPdfPages tidyCollaborators "two.pdf" [2; 5; 1; 1]
      noOptions tidyWorld = (Normal r, w') ∧
    engineCalls w' = [("c.png", "eng"); ("a.png", "eng"); ("a.png", "eng")].
Proof.
  refine (@extractTextFromPdfPages_calls_engine_per_request tidyCollaborators
            "two.pdf" [2; 5; 1; 1] noOptions tidyWorld ["a.png"; "c.png"] tt
            _ _).
  - by_running.
  - compute_done.
Defined.

Lemma total_words_witness :
  (∃ r w',
     @extractTextFromPdf tidyCollaborators "three.pdf" noOptions tidyWorld
       = (Normal r, w') ∧
     s_totalWords (res_summary r) = sumWords (res_pages r) ∧
     s_totalWords (res_summary r) = 3) ∧
  (∃ r w',
     @extractTextFromPdfPages tidyCollaborators "two.pdf" [2; 5; 1; 1]
       noOptions tidyWorld = (Normal r, w') ∧
     ps_totalWords (pr_summary r) = sumWords (pr_pages r) ∧
     ps_totalWords (pr_summary r) = 4).
Proof.
  split; eexists _, _; (split; [by_running|]); (split; [|by_running]).
  - refine (proj1 (proj1 (@totalWords_is_sum_of_word_counts tidyCollaborators)
                     "three.pdf" noOptions tidyWorld _ _ _)).
    by_running.
  - refine (proj1 (proj2 (@totalWords_is_sum_of_word_counts tidyCollaborators)
                     "two.pdf" [2; 5; 1; 1] noOptions tidyWorld _ _ _)).
    by_running.
Defined.

Lemma trimmed_text_witness :
  ∃ r w',
    @extractTextFromPdf tidyCollaborators "sparse.pdf" noOptions tidyWorld
      = (Normal r, w') ∧
    map pg_text (res_pages r) = ["alpha"; ""; "gamma delta"] ∧
    Forall (λ p, trimmed (pg_text p)) (res_pages r).
Proof.
  eexists _, _. split; [by_running|]. split; [by_running|].
  refine (proj1 (proj1 (proj2 (@recognised_text_is_trimmed tidyCollaborators))
                   "sparse.pdf" noOptions tidyWorld _ _ _)).
  by_running.
Defined.

Lemma unsupported_language_witness :
  ∃ bad r w',
    bad ∈ split "+"%char "eng+xyz" ∧
    (bad ∉ supportedLanguages) ∧
    @extractTextFromPdf tidyCollaborators "two.pdf"
      (optionsWithLanguage "eng+xyz") tidyWorld = (Normal r, w') ∧
    res_pages r =
      map (λ n, failedPage n (unsupportedMessage bad)) (seqZ 1 2) ∧
    s_successfulPages (res_summary r) = 0 ∧
    s_failedPages (res_summary r) = 2 ∧
    s_averageConfidence (res_summary r) = 0%Qc ∧
    engineCalls w' = engineCalls tidyWorld.
Proof.
  refine (@extractTextFromPdf_with_unsupported_language tidyCollaborators
            "two.pdf" (optionsWithLanguage "eng+xyz") tidyWorld
            ["a.png"; "c.png"] tt _ _).
  - by_running.
  - intros Hall. unfold supportedTag in Hall.
    apply Forall_cons in Hall as [_ Hall].
    apply Forall_cons in Hall as [Hxyz _].
    revert Hxyz. compute_done.
Defined.

Lemma text_without_markers_witness :
  ∃ r w',
    @extractTextFromPdf tidyCollaborators "two.pdf" optionsWithoutMarkers
      tidyWorld = (Normal r, w') ∧
    res_text r = Some (trim (plainChunks (res_pages r))) ∧
    res_text r = Some ("alpha" +:+ LF +:+ "gamma delta").
Proof.
  eexists _, _. split; [by_running|]. split; [|by_running].
  refine (proj2 (@combined_text_follows_options tidyCollaborators
                   "two.pdf" optionsWithoutMarkers tidyWorld _ _ _)
            _ _);
    [by_running|reflexivity|reflexivity].
Defined.

Lemma other_files_witness :
  ∃ r w',
    @extractTextFromPdf lockedCollaborators "two.pdf" noOptions uploadedWorld
      = (Normal r, w') ∧
    "two.pdf" ∈ disk uploadedWorld ∧
    "two.pdf" ∈ disk w'.
Proof.
  eexists _, _. split; [by_running|].
  assert ("two.pdf" ∈ disk uploadedWorld) as Hbefore by compute_done.
  split; [exact Hbefore|].
  refine (proj2 (proj1 (@other_files_are_left_alone lockedCollaborators)
                   "two.pdf" noOptions uploadedWorld ["a.png"; "c.png"] tt _ _
                   _ _ "two.pdf" _) Hbefore).
  - by_running.
  - by_running.
  - compute_done.
Defined.

Lemma rasterisation_failure_witness :
  ∃ w',
    @extractTextFromPdf tidyCollaborators "damaged.pdf" noOptions tidyWorld =
      (Throw ("PDF OCR processing failed: Failed to convert PDF to images: "
              +:+ "Error: document is damaged"), w') ∧
    engineCalls w' = engineCalls tidyWorld ∧
    disk w' = disk tidyWorld ∪ list_to_set ["partial.png"].
Proof.
  refine (proj1 (@rasterisation_failure_is_reported tidyCollaborators)
            "damaged.pdf" noOptions tidyWorld ["partial.png"]
            "Error: document is damaged" tt _).
  by_running.
Defined.

Lemma batch_engine_calls_witness :
  ∃ resp w',
    @batchExtract tidyCollaborators batchOfThree tidyWorld
      = (Normal resp, w') ∧
    engineCalls w' = [("a.png", "eng"); ("b.png", "eng"); ("c.png", "eng")].
Proof.
  refine (@batchExtract_calls_engine_per_file tidyCollaborators
            batchOfThree [upload "a.png"; upload "b.png"; upload "c.png"]
            tidyWorld eq_refl _ _).
  - discriminate.
  - compute_done.
Defined.

Lemma batch_unsupported_language_witness :
  ∃ bad results summary w',
    (bad ∉ supportedLanguages) ∧
    @batchExtract tidyCollaborators (batchWithLanguage "klingon") tidyWorld =
      (Normal {| status := 200; json := BatchBody results summary |}, w') ∧
    engineCalls w' = engineCalls tidyWorld ∧
    ext w' = ext tidyWorld ∧
    length results = 3%nat ∧
    (∀ k file,
       [upload "a.png"; upload "b.png"; upload "c.png"] !! k = Some file →
       results !! k
         = Some (batchFailure file (Z.of_nat k) (unsupportedMessage bad))) ∧
    successfulFiles summary = 0 ∧
    failedFiles summary = 3.
Proof.
  refine (@batchExtract_with_unsupported_language tidyCollaborators
            (batchWithLanguage "klingon")
            [upload "a.png"; upload "b.png"; upload "c.png"] tidyWorld
            eq_refl _ _).
  - discriminate.
  - intros Hall. unfold supportedTag in Hall.
    apply Forall_cons in Hall as [Hbad _]. revert Hbad. compute_done.
Defined.

Lemma detailed_flags_witness :
  ∃ result d w1,
    @extractTextFromImage tidyCollaborators "a.png"
      (requestOcrOptions detailedRequest) tidyWorld = (Normal result, w1) ∧
    @extractDetailedText tidyCollaborators detailedRequest tidyWorld
      = (Normal {| status := 200; json := DetailedBody d |}, w1) ∧
    dd_words d = None ∧
    b_includeWords (body detailedRequest) ≠ JString "true".
Proof.
  destruct (@extractTextFromImage tidyCollaborators "a.png"
              (requestOcrOptions detailedRequest) tidyWorld)
    as [[result|message] w1] eqn:Hocr; [|vm_compute in Hocr; discriminate].
  destruct (@extractDetailedText_includes_on_string_true tidyCollaborators
              detailedRequest (upload "a.png") tidyWorld result w1
              eq_refl Hocr)
    as (d & Hrun & [[_ Hflag]|[Hnone Hflag]] & _); [discriminate Hflag|].
  by exists result, d, w1.
Defined.

Lemma pdf_info_witness :
  ∃ w',
    disk w' = ∅ ∧
    engineCalls w' = [] ∧
    @getPdfInfo tidyCollaborators tidyNode "three.pdf" tidyWorld =
      (Normal {| pageCount := 3; fileSize := 2048;
                 created := 1600000000000; modified := 1650000000000;
                 isValid := true |}, w').
Proof.
  destruct (@getPdfInfo_counts_pages_and_cleans_up tidyCollaborators tidyNode
              "three.pdf" tidyWorld ["a.png"; "b.png"; "c.png"] tt)
    as (w' & Hdisk & Hcalls & _ & Hrun); [by_running|].
  exists w'. split; [by rewrite Hdisk|]. split; [done|].
  by rewrite Hrun.
Defined.

Lemma pdf_is_never_an_image_witness :
  @isValidPdf tidyCollaborators tidyNode "SCAN.PDF" = true ∧
  @isValidImageFormat tidyCollaborators tidyNode "SCAN.PDF" = false.
Proof.
  split; [reflexivity|].
  exact (proj1 (@pdf_is_never_an_image tidyCollaborators tidyNode
                  "SCAN.PDF" eq_refl)).
Defined.

Lemma preprocessing_witness :
  ∃ result w',
    @extractTextFromImage tidyCollaborators "a.png"
      (extractOcrOptions (extractRequest "a.png" (JString "true"))) tidyWorld
      = (Normal result, w') ∧
    @extractTextWithPreprocessing tidyCollaborators "a.png"
      {| enhance := Some true; denoise := Some false; deskew := Some false;
         ocrOptions :=
           extractOcrOptions (extractRequest "a.png" (JString "true")) |}
      tidyWorld = (Normal result, w') ∧
    disk w' = disk tidyWorld.
Proof.
  destruct (@extractTextFromImage tidyCollaborators "a.png"
              (extractOcrOptions (extractRequest "a.png" (JString "true")))
              tidyWorld)
    as [[result|message] w'] eqn:Hocr; [|vm_compute in Hocr; discriminate].
  exists result, w'. split; [done|].
  exact (@extractTextWithPreprocessing_is_plain_recognition tidyCollaborators
           "a.png"
           {| enhance := Some true; denoise := Some false;
              deskew := Some false;
              ocrOptions :=
                extractOcrOptions (extractRequest "a.png" (JString "true")) |}
           tidyWorld (Normal result) w' Hocr).
Defined.
